(** * Ballot Buddy front end: a shallow embedding of its client-side logic

  The development follows the TypeScript sources of the front end and of
  its companion static file server:

  - [JS]            the few JavaScript built-ins the code relies on
                    (string methods, truthiness, parsed JSON values);
  - [Browser]       local storage and timers;
  - [ApiClient]     the axios response interceptor (services/api.ts);
  - [VotingPage]    the ballot casting wizard (pages/VotingPage.tsx);
  - [ProtectedRoute] the route guard (components/ProtectedRoute.tsx);
  - [OTP]           the unified login dispatch and the handlers of the
                    voter OTP requests (HomePage, UnifiedLoginPage,
                    VoterOTPPage, VerificationPage);
  - [Dashboard]     the welcome-banner effect of the role dashboards;
  - [Server]        the express static server (server.js).

  Strings are Rocq strings, read as UTF-8 text.  [startsWith], [includes]
  and [endsWith] compare byte by byte, which on well-formed text is what
  the JavaScript methods compute.  The methods whose result depends on the
  Unicode tables ([trim], [toUpperCase], [toLowerCase]) are parameters of
  the code that calls them; [JS] defines what they compute on ASCII text.
  JSON numbers are modelled as integers (the only numbers the code reads
  are millisecond timestamps and a retry delay in seconds). *)

From Stdlib Require Import ZArith String Ascii List Lia Bool DecimalString.
From stdpp Require Import base strings gmap list.

Set Warnings "-register-all".

Open Scope string_scope.

(* ===================================================================== *)
(** ** JavaScript built-ins                                               *)
(* ===================================================================== *)

Module JS.

(** [s.startsWith(p)] *)
Fixpoint startsWith (s p : string) {struct p} : bool :=
  match p with
  | EmptyString => true
  | String c p' =>
      match s with
      | EmptyString => false
      | String d s' => Ascii.eqb c d && startsWith s' p'
      end
  end.

(** [s.includes(p)] *)
Fixpoint includes (s p : string) {struct s} : bool :=
  startsWith s p ||
  match s with
  | EmptyString => false
  | String _ s' => includes s' p
  end.

(** [s.endsWith(p)] *)
Definition endsWith (s p : string) : bool :=
  startsWith (String.rev s) (String.rev p).

(** A string of ASCII characters: every byte is below 128. *)
Definition is_ascii_char (a : ascii) : bool := Nat.ltb (nat_of_ascii a) 128.

Fixpoint is_ascii (s : string) : bool :=
  match s with
  | EmptyString => true
  | String a s' => is_ascii_char a && is_ascii s'
  end.

(** The ASCII characters [trim] removes: TAB, LF, VT, FF, CR, SP. *)
Definition is_ws (a : ascii) : bool :=
  let n := nat_of_ascii a in
  (Nat.leb 9 n && Nat.leb n 13) || Nat.eqb n 32.

Fixpoint trimStart (s : string) : string :=
  match s with
  | EmptyString => EmptyString
  | String a s' => if is_ws a then trimStart s' else s
  end.

Definition trimEnd (s : string) : string :=
  String.rev (trimStart (String.rev s)).

(** What [s.trim()] returns for a string of ASCII characters. *)
Definition trim_ascii (s : string) : string := trimEnd (trimStart s).

Definition upper_ascii (a : ascii) : ascii :=
  let n := nat_of_ascii a in
  if Nat.leb 97 n && Nat.leb n 122 then ascii_of_nat (n - 32) else a.

Definition lower_ascii (a : ascii) : ascii :=
  let n := nat_of_ascii a in
  if Nat.leb 65 n && Nat.leb n 90 then ascii_of_nat (n + 32) else a.

Fixpoint map_string (f : ascii -> ascii) (s : string) : string :=
  match s with
  | EmptyString => EmptyString
  | String a s' => String (f a) (map_string f s')
  end.

(** What [s.toUpperCase()] and [s.toLowerCase()] return for a string of
    ASCII characters. *)
Definition toUpperCase_ascii : string -> string := map_string upper_ascii.
Definition toLowerCase_ascii : string -> string := map_string lower_ascii.

(** Truthiness of a possibly undefined string: [undefined] and the empty
    string are falsy. *)
Definition truthy_str (o : option string) : bool :=
  match o with
  | Some s => negb (s =? "")
  | None => false
  end.

(** [x || d] on a possibly undefined string [x]. *)
Definition or_str (x : option string) (d : string) : string :=
  match x with
  | Some s => if s =? "" then d else s
  | None => d
  end.

(** The property names every plain object inherits from
    [Object.prototype].  Reading one of them from an object that has no own
    property of that name gives a function or, for [__proto__], the
    prototype itself: a truthy value that is not a string. *)
Definition Object_prototype : list string :=
  ["constructor"; "hasOwnProperty"; "isPrototypeOf"; "propertyIsEnumerable";
   "toLocaleString"; "toString"; "valueOf"; "__proto__";
   "__defineGetter__"; "__defineSetter__"; "__lookupGetter__";
   "__lookupSetter__"].

Definition inherited (k : string) : bool := bool_decide (k ∈ Object_prototype).

(** Values produced by [JSON.parse]; the fields of an object are listed in
    look-up order. *)
Inductive json : Type :=
| JNull
| JBool (b : bool)
| JNum (z : Z)
| JStr (s : string)
| JArr (l : list json)
| JObj (fields : list (string * json)).

Fixpoint assoc (k : string) (fields : list (string * json)) : option json :=
  match fields with
  | [] => None
  | (k', v) :: rest => if k' =? k then Some v else assoc k rest
  end.

(** Property access [v.k] for the property names the code reads ([status],
    [role], [message], [timestamp]); none of them is a built-in property
    of a string, number, boolean or array.  The outer [None] is the
    TypeError thrown on [null]; the inner [None] is [undefined]. *)
Definition get_prop (v : json) (k : string) : option (option json) :=
  match v with
  | JNull => None
  | JObj fields => Some (assoc k fields)
  | _ => Some None
  end.

(** [v === 'lit'] for a possibly undefined value [v]. *)
Definition is_str (v : option json) (lit : string) : bool :=
  match v with
  | Some (JStr s) => s =? lit
  | _ => false
  end.

(** Truthiness of a possibly undefined value. *)
Definition truthy (v : option json) : bool :=
  match v with
  | None => false
  | Some JNull => false
  | Some (JBool b) => b
  | Some (JNum z) => negb (z =? 0)%Z
  | Some (JStr s) => negb (s =? "")
  | Some (JArr _) => true
  | Some (JObj _) => true
  end.

(** The double-quote character, for writing JSON text. *)
Definition dquote : string := String (ascii_of_nat 34) EmptyString.

(** Template-literal rendering of an integer. *)
Definition num_to_string (z : Z) : string :=
  NilZero.string_of_int (Z.to_int z).

End JS.

(* ===================================================================== *)
(** ** Browser state shared by the pages                                  *)
(* ===================================================================== *)

Module Browser.

(** [localStorage]: string keys, string values. *)
Abbreviation storage := (gmap string string).

(** [localStorage.getItem(k)]: [None] is [null]. *)
Definition getItem (k : string) (ls : storage) : option string := ls !! k.

Definition setItem (k v : string) (ls : storage) : storage := <[k:=v]> ls.

Definition removeItem (k : string) (ls : storage) : storage := delete k ls.

(** The body and status of an HTTP error response, as axios exposes them
    in [err.response]. *)
Record resp_data := mk_data {
  error : option string;
  hint : option string;
  retryAfter : option Z
}.

Record http_response := mk_response {
  status : Z;
  data : option resp_data
}.

(** An axios error: [response] is absent on network failures. *)
Record axios_error := mk_error {
  response : option http_response;
  message : string
}.

(** [err.response?.status === n] *)
Definition status_is (err : axios_error) (n : Z) : bool :=
  match response err with
  | Some r => (status r =? n)%Z
  | None => false
  end.

(** [err.response?.data?.error], [.hint], [.retryAfter] *)
Definition data_error (err : axios_error) : option string :=
  r ← response err; d ← data r; error d.

Definition data_hint (err : axios_error) : option string :=
  r ← response err; d ← data r; hint d.

Definition data_retryAfter (err : axios_error) : option Z :=
  r ← response err; d ← data r; retryAfter d.

End Browser.

(* ===================================================================== *)
(** ** API client: the response interceptor                               *)
(* ===================================================================== *)

Module ApiClient.
Import JS Browser.

(** What a [setTimeout] callback of the interceptor does. *)
Inductive callback := SetLocationHref (url : string).

(** What the returned promise is rejected with. *)
Inductive rejection :=
| RejectNewError (msg : string)
| RejectOriginal.

Record outcome := mk_outcome {
  out_storage : storage;
  out_timers : list (Z * callback);
  out_reject : rejection
}.

(** First test of the 401 branch: expired or invalid token. *)
Definition indicates_expired (errorMessage : string) : bool :=
  includes errorMessage "Invalid or inactive user"
  || includes errorMessage "Invalid token"
  || includes errorMessage "Token expired".

(** Second test of the 401 branch: account deactivation. *)
Definition indicates_deactivation (errorMessage : string) : bool :=
  includes errorMessage "inactive" || includes errorMessage "deactivated".

(** The rejection handler installed with [api.interceptors.response.use];
    the console logging at its start has no effect on the state. *)
Definition onRejected (ls : storage) (err : axios_error) : outcome :=
  if status_is err 401 then
    let errorMessage := or_str (data_error err) "" in
    let ls := removeItem "token" ls in
    let ls := removeItem "user" ls in
    if indicates_expired errorMessage then
      mk_outcome ls [(100%Z, SetLocationHref "/login")]
        (RejectNewError "Your session has expired. Please log in again.")
    else if indicates_deactivation errorMessage then
      mk_outcome ls [] RejectOriginal
    else
      mk_outcome ls [(100%Z, SetLocationHref "/login")] RejectOriginal
  else
    mk_outcome ls [] RejectOriginal.

(** Every request of the pages goes through [api], so a failed request
    reaches the caller's [catch] after the interceptor has run: with the
    original error, or with the [Error] the interceptor has put in its
    place, which has no [response]. *)
Definition caught (out : outcome) (err : axios_error) : axios_error :=
  match out_reject out with
  | RejectOriginal => err
  | RejectNewError msg => mk_error None msg
  end.

(** A 401 response whose body carries the given error text. *)
Definition unauthorized (msg : string) : axios_error :=
  mk_error (Some (mk_response 401 (Some (mk_data (Some msg) None None))))
           "Request failed with status code 401".

End ApiClient.

(* ===================================================================== *)
(** ** Ballot casting wizard                                              *)
(* ===================================================================== *)

Module VotingPage.
Import JS Browser.

(** The fields of [Position] and [Candidate] the wizard's logic reads. *)
Record Position := mk_position {
  pos_id : string;
  pos_name : string
}.

Record Candidate := mk_candidate {
  cand_id : string;
  cand_name : string;
  cand_position_id : string
}.

Record BallotData := mk_ballot {
  positions : list Position;
  candidates : list Candidate
}.

(** [votes]: the own properties of the JavaScript object
    [{ [positionId]: candidateId }].  The object is written through its own
    properties only; a read [votes[id]] that finds no own property falls
    back on [Object.prototype] (see [read]). *)
Abbreviation selection := (gmap string string).

(** The page's React state together with the local storage it writes. *)
Record state := mk_state {
  ballotToken : string;
  loading : bool;
  submitting : bool;
  ballotData : option BallotData;
  votes : selection;
  currentStep : nat;
  localStorage : storage
}.

(** Effects of a handler that leave the page state: toasts, router
    navigation, timers, and the request put to the backend.  [voteData] is
    built from [Object.entries(votes)], one [{positionId, candidateId}] per
    own property of [votes]: the effect carries the object, and so the
    entries, but not the order in which they are listed.  [Timer] is a
    [setTimeout] of the response interceptor. *)
Inductive effect :=
| ToastError (msg : string)
| ToastSuccess (msg : string)
| Navigate (to : string)
| SetTimeout (ms : Z) (to : string)
| Timer (ms : Z) (c : ApiClient.callback)
| Confirm (question : string)
| CastVote (token : string) (voteData : selection).

(** [handleVoteChange(positionId, candidateId)] on the [votes] object;
    an inherited value is never [===] to a candidate id. *)
Definition handleVoteChange (positionId candidateId : string)
    (votes : selection) : selection :=
  if bool_decide (votes !! positionId = Some candidateId) then
    delete positionId votes
  else
    <[positionId := candidateId]> votes.

(** [votes[id]]: the own property when there is one, and otherwise what
    [Object.prototype] has under that name ([None] is [undefined]). *)
Inductive read_result :=
| Own (candidateId : string)
| Inherited.

Definition read (votes : selection) (id : string) : option read_result :=
  match votes !! id with
  | Some c => Some (Own c)
  | None => if inherited id then Some Inherited else None
  end.

(** [!!votes[id]] *)
Definition isVoted (votes : selection) (id : string) : bool :=
  match read votes id with
  | Some (Own c) => negb (c =? "")
  | Some Inherited => true
  | None => false
  end.

(** [Object.keys(votes).length] *)
Definition votedCount (st : state) : nat := size (votes st).

(** [ballotData.positions.length], once the ballot is loaded. *)
Definition totalPositions (st : state) : nat :=
  match ballotData st with
  | Some b => length (positions b)
  | None => 0
  end.

(** [ballotData.positions[currentStep]] *)
Definition currentPosition (st : state) : option Position :=
  b ← ballotData st; positions b !! currentStep st.

(** The wizard (and with it every button) is rendered only once the ballot
    is loaded and has a position. *)
Definition wizard_rendered (st : state) : bool :=
  negb (loading st) &&
  match ballotData st with
  | Some b => negb (Nat.eqb (length (positions b)) 0)
  | None => false
  end.

(** Candidates listed for the current position. *)
Definition positionCandidates (st : state) : list Candidate :=
  match ballotData st, currentPosition st with
  | Some b, Some p =>
      filter (fun c => cand_position_id c = pos_id p) (candidates b)
  | _, _ => []
  end.

(** The navigation row is rendered when [currentPosition] is defined; it
    shows Next before the last position and Submit on the last one. *)
Definition next_rendered (st : state) : bool :=
  wizard_rendered st &&
  match currentPosition st with
  | Some _ => Nat.ltb (currentStep st) (totalPositions st - 1)
  | None => false
  end.

Definition submit_rendered (st : state) : bool :=
  wizard_rendered st &&
  match currentPosition st with
  | Some _ => negb (Nat.ltb (currentStep st) (totalPositions st - 1))
  | None => false
  end.

(** [disabled={!votes[currentPosition.id]}] of the Next Position button. *)
Definition next_disabled (st : state) : bool :=
  match currentPosition st with
  | Some p => negb (isVoted (votes st) (pos_id p))
  | None => true
  end.

(** [disabled={submitting || votedCount !== totalPositions}] of the Submit
    Vote button. *)
Definition submit_disabled (st : state) : bool :=
  submitting st || negb (Nat.eqb (votedCount st) (totalPositions st)).

Definition previous_disabled (st : state) : bool :=
  Nat.eqb (currentStep st) 0.

Definition setVotes (v : selection) (st : state) : state :=
  mk_state (ballotToken st) (loading st) (submitting st) (ballotData st)
           v (currentStep st) (localStorage st).

Definition setCurrentStep (n : nat) (st : state) : state :=
  mk_state (ballotToken st) (loading st) (submitting st) (ballotData st)
           (votes st) n (localStorage st).

Definition setSubmitting (b : bool) (st : state) : state :=
  mk_state (ballotToken st) (loading st) b (ballotData st)
           (votes st) (currentStep st) (localStorage st).

Definition set_localStorage (ls : storage) (st : state) : state :=
  mk_state (ballotToken st) (loading st) (submitting st) (ballotData st)
           (votes st) (currentStep st) ls.

Definition handleNext (st : state) : state :=
  if Nat.ltb (currentStep st) (totalPositions st - 1)
  then setCurrentStep (currentStep st + 1) st
  else st.

Definition handlePrevious (st : state) : state :=
  if Nat.ltb 0 (currentStep st)
  then setCurrentStep (currentStep st - 1) st
  else st.

(** [ballotData.positions.filter((pos) => !votes[pos.id])] *)
Definition missingPositions (b : BallotData) (v : selection) : list Position :=
  List.filter (fun pos => negb (isVoted v (pos_id pos))) (positions b).

(** [names.join(', ')] *)
Fixpoint join (sep : string) (l : list string) : string :=
  match l with
  | [] => ""
  | [x] => x
  | x :: rest => x +:+ sep +:+ join sep rest
  end.

(** [handleSubmit] up to its [await]: [confirmed] is what the browser's
    [confirm] dialog answers when it is shown.  The second component tells
    whether the vote request is now in flight. *)
Definition handleSubmit (confirmed : bool) (st : state)
    : state * list effect * bool :=
  match ballotData st with
  | None => (st, [], false)
  | Some b =>
      let missing := missingPositions b (votes st) in
      if negb (Nat.eqb (length missing) 0) then
        (st, [ToastError
                ("Please vote for: " +:+ join ", " (map pos_name missing))],
         false)
      else
        let question :=
          "Are you sure you want to submit your votes? This action cannot be undone." in
        if negb confirmed then (st, [Confirm question], false)
        else
          (setSubmitting true st,
           [Confirm question;
            CastVote (ballotToken st) (votes st)],
           true)
  end.

(** How the vote request settles: with a response, or with the error axios
    raises and the [closedPositions] of its body, if any. *)
Inductive cast_result :=
| CastOk
| CastFailed (err : axios_error) (closedPositions : list string).

(** The timers the response interceptor has scheduled. *)
Definition interceptor_timers (out : ApiClient.outcome) : list effect :=
  map (fun t => Timer t.1 t.2) (ApiClient.out_timers out).

(** The [catch] and the [finally] of [handleSubmit], on the error the
    [catch] receives. *)
Definition handleSubmit_catch (err : axios_error)
    (closedPositions : list string) (st : state) : state * list effect :=
  if status_is err 400 then
    match data_error err with
    | Some e =>
        if includes e "already used" then
          (setSubmitting false
             (set_localStorage
                (removeItem "ballotToken" (localStorage st)) st),
           [ToastError
              "This ballot has already been used. You can only vote once.";
            Navigate "/verify"])
        else if includes e "not open for voting" then
          if Nat.ltb 0 (length closedPositions) then
            (setSubmitting false st,
             [ToastError
                ("Voting window closed for: " +:+ join ", " closedPositions +:+
                 ". Contact administrator to extend voting time.")])
          else
            (setSubmitting false st,
             [ToastError (e +:+ ". " +:+ or_str (data_hint err) "")])
        else
          (setSubmitting false st, [ToastError (or_str (Some e) "Failed to cast vote")])
    | None => (setSubmitting false st, [ToastError "Failed to cast vote"])
    end
  else
    (setSubmitting false st,
     [ToastError (or_str (data_error err) "Failed to cast vote")]).

(** [handleSubmit] after its [await]: the success path with its [finally],
    or the response interceptor followed by the [catch] and the
    [finally]. *)
Definition handleSubmit_settled (res : cast_result) (st : state)
    : state * list effect :=
  match res with
  | CastOk =>
      (setSubmitting false
         (set_localStorage (removeItem "ballotToken" (localStorage st)) st),
       [ToastSuccess "Vote cast successfully! Thank you for voting.";
        SetTimeout 2000 "/verify"])
  | CastFailed err closed =>
      let out := ApiClient.onRejected (localStorage st) err in
      let r := handleSubmit_catch (ApiClient.caught out err) closed
                 (set_localStorage (ApiClient.out_storage out) st) in
      (r.1, (interceptor_timers out ++ r.2)%list)
  end.

(** What the voter can do on the rendered wizard. *)
Inductive event :=
| ClickCandidate (candidateId : string)
| ClickNext
| ClickPrevious
| ClickStep (index : nat)
| ClickSubmit (confirmed : bool)
| VoteSettled (res : cast_result).

(** One event: a click reaches its handler only when the button is
    rendered and not disabled. *)
Definition step (st : state) (e : event) : state :=
  match e with
  | ClickCandidate c =>
      match currentPosition st with
      | Some p =>
          if wizard_rendered st &&
             bool_decide (c ∈ map cand_id (positionCandidates st))
          then setVotes (handleVoteChange (pos_id p) c (votes st)) st
          else st
      | None => st
      end
  | ClickNext =>
      if next_rendered st && negb (next_disabled st) then handleNext st else st
  | ClickPrevious =>
      if wizard_rendered st && negb (previous_disabled st)
         && bool_decide (is_Some (currentPosition st))
      then handlePrevious st else st
  | ClickStep index =>
      if wizard_rendered st && Nat.ltb index (totalPositions st)
      then setCurrentStep index st else st
  | ClickSubmit confirmed =>
      if submit_rendered st && negb (submit_disabled st)
      then (handleSubmit confirmed st).1.1 else st
  | VoteSettled res =>
      if submitting st then (handleSubmit_settled res st).1 else st
  end.

(** The position on screen has a recorded selection: a non-empty own
    entry in [votes]. *)
Definition has_selection (st : state) : bool :=
  match currentPosition st with
  | Some p => truthy_str (votes st !! pos_id p)
  | None => false
  end.

(** The page after [loadBallot] has stored the ballot. *)
Definition loaded (token : string) (b : BallotData) (ls : storage) : state :=
  mk_state token false false (Some b) ∅ 0 ls.

(** States the voter can bring the loaded wizard into. *)
Inductive reachable (token : string) (b : BallotData) (ls : storage)
    : state -> Prop :=
| reach_loaded : reachable token b ls (loaded token b ls)
| reach_step st e :
    reachable token b ls st -> reachable token b ls (step st e).

(** What holds of every state reached from the loaded ballot [b]. *)
Definition wizard_inv (b : BallotData) (st : state) : Prop :=
  ballotData st = Some b /\ loading st = false /\
  (forall p c, votes st !! p = Some c -> p ∈ map pos_id (positions b)) /\
  (currentStep st = 0 \/ currentStep st < length (positions b)).

End VotingPage.

(* ===================================================================== *)
(** ** Route guard                                                        *)
(* ===================================================================== *)

Module ProtectedRoute.
Import JS Browser.

(** The values [requiredRole] can take. *)
Inductive Role := ADMIN | OFFICER | CANDIDATE.

#[global] Instance Role_eq_dec : EqDecision Role.
Proof. solve_decision. Defined.

Definition role_name (r : Role) : string :=
  match r with
  | ADMIN => "ADMIN"
  | OFFICER => "OFFICER"
  | CANDIDATE => "CANDIDATE"
  end.

(** What the guard renders. *)
Inductive element :=
| Navigate (to : string)
| AccountDeactivated
| Children.

Section Guard.

(** [JSON.parse]; [None] stands for the SyntaxError it throws. *)
Variable JSON_parse : string -> option json.

Definition clear_session (ls : storage) : storage :=
  removeItem "user" (removeItem "token" ls).

(** The body of the [try] block; [None] is an exception reaching [catch].
    Reading [user.status] and [user.role] throws exactly when [user] is
    [null], so both reads are done up front. *)
Definition guarded (requiredRole : option Role) (userStr : string)
    (ls : storage) : option (element * storage) :=
  user ← JSON_parse userStr;
  status ← get_prop user "status";
  role ← get_prop user "role";
  if is_str status "INACTIVE" then
    if is_str role "OFFICER" then Some (AccountDeactivated, ls)
    else Some (Navigate "/login", clear_session ls)
  else
    match requiredRole with
    | Some required =>
        if negb (is_str role (role_name required)) then
          if is_str role "ADMIN" then Some (Navigate "/admin/dashboard", ls)
          else if is_str role "OFFICER" then
            Some (Navigate "/officer/dashboard", ls)
          else if is_str role "CANDIDATE" then
            Some (Navigate "/candidate/dashboard", ls)
          else Some (Navigate "/login", ls)
        else Some (Children, ls)
    | None => Some (Children, ls)
    end.

(** The component: the rendered element and the local storage it leaves. *)
Definition ProtectedRoute (requiredRole : option Role) (ls : storage)
    : element * storage :=
  let token := getItem "token" ls in
  let userStr := getItem "user" ls in
  if negb (truthy_str token) || negb (truthy_str userStr) then
    (Navigate "/login", ls)
  else
    match guarded requiredRole (default "" userStr) ls with
    | Some r => r
    | None => (Navigate "/login", clear_session ls)
    end.

End Guard.

(** The dashboard each role is routed to (the targets of the role check). *)
Definition dashboard (r : Role) : string :=
  match r with
  | ADMIN => "/admin/dashboard"
  | OFFICER => "/officer/dashboard"
  | CANDIDATE => "/candidate/dashboard"
  end.

End ProtectedRoute.

(* ===================================================================== *)
(** ** Unified login and the voter OTP requests                           *)
(* ===================================================================== *)

Module OTP.
Import JS Browser.

(** The unified login form; every field is optional in its schema. *)
Record UnifiedLoginFormData := mk_form {
  email : option string;
  password : option string;
  regNo : option string
}.

Inductive request :=
| Login (email password : string)
| RequestOTP (regNo : string).

(** [Timer] is a [setTimeout] of the response interceptor. *)
Inductive effect :=
| SetError (msg : string)
| SetLoading (b : bool)
| ToastSuccess (msg : string)
| ToastError (msg : string)
| Send (r : request)
| Timer (ms : Z) (c : ApiClient.callback)
| Navigate (to : string) (state_regNo : option string) (replace : bool).

(** The timers the response interceptor has scheduled. *)
Definition interceptor_timers (out : ApiClient.outcome) : list effect :=
  map (fun t => Timer t.1 t.2) (ApiClient.out_timers out).

Section Normalize.

(** [String.prototype.trim] and [String.prototype.toUpperCase]. *)
Variable trim : string -> string.
Variable toUpperCase : string -> string.

Definition nonblank (x : option string) : bool :=
  truthy_str x && negb (trim (default "" x) =? "").

Definition hasEmailPassword (d : UnifiedLoginFormData) : bool :=
  nonblank (email d) && nonblank (password d).

Definition hasRegNo (d : UnifiedLoginFormData) : bool := nonblank (regNo d).

(** [regNo.trim().toUpperCase()] *)
Definition normalize (regNo : string) : string := toUpperCase (trim regNo).

End Normalize.

(** The three lines shared, word for word, by the 429 branches. *)
Definition errorMessage429 (err : axios_error) : string :=
  or_str (data_error err) "Too many requests".

Definition retry_seconds (err : axios_error) : Z :=
  match data_retryAfter err with
  | Some n => if (n =? 0)%Z then 60%Z else n
  | None => 60%Z
  end.

Definition errorHint429 (err : axios_error) : string :=
  or_str (data_hint err)
    ("Please wait " +:+ num_to_string (retry_seconds err)
     +:+ " seconds before trying again").

(** [`${errorMessage}. ${errorHint}`] *)
Definition rate_limit_message (err : axios_error) : string :=
  errorMessage429 err +:+ ". " +:+ errorHint429 err.

(** [err.response?.data?.error || err.message || fallback] *)
Definition error_or_message (err : axios_error) (fallback : string) : string :=
  or_str (Some (or_str (data_error err) (message err))) fallback.

(** HomePage, [catch] of the voter branch of [onUnifiedLogin]. *)
Definition onUnifiedLogin_catch (err : axios_error) : list effect :=
  if status_is err 429 then
    [SetError (rate_limit_message err); SetLoading false]
  else
    [SetError (error_or_message err "Failed to send OTP"); SetLoading false].

Section UnifiedLogin.

(** [String.prototype.trim], [toUpperCase] and [toLowerCase]. *)
Variable trim : string -> string.
Variable toUpperCase : string -> string.
Variable toLowerCase : string -> string.

(** HomePage, [onUnifiedLogin]: the storage left and the effects in order.
    [otp_result] is how the OTP request settles when it is sent ([None]:
    success); a failure passes the response interceptor before it reaches
    the [catch].  The password branch is followed up to its login
    request. *)
Definition onUnifiedLogin (d : UnifiedLoginFormData)
    (otp_result : option axios_error) (ls : storage) : storage * list effect :=
  if hasEmailPassword trim d then
    (ls, [SetError ""; SetLoading true;
          Send (Login (toLowerCase (trim (default "" (email d))))
                      (default "" (password d)))])
  else if hasRegNo trim d then
    let regNo := normalize trim toUpperCase (default "" (regNo d)) in
    match otp_result with
    | None =>
        (ls, [SetError ""; SetLoading true; Send (RequestOTP regNo);
              ToastSuccess "OTP sent to your phone! Check your SMS.";
              Navigate "/login/otp" (Some regNo) true])
    | Some err =>
        let out := ApiClient.onRejected ls err in
        (ApiClient.out_storage out,
         ([SetError ""; SetLoading true; Send (RequestOTP regNo)]
          ++ interceptor_timers out
          ++ onUnifiedLogin_catch (ApiClient.caught out err))%list)
    end
  else
    (ls, [SetError ""; SetLoading true;
          SetError "Please enter either email and password, or registration number";
          SetLoading false]).

End UnifiedLogin.

(** UnifiedLoginPage, [catch] and [finally] of [onVoterLogin]. *)
Definition onVoterLogin_catch (err : axios_error) : list effect :=
  (if status_is err 429 then [SetError (rate_limit_message err)]
   else [SetError (error_or_message err "Failed to send OTP")])
  ++ [SetLoading false].

(** VoterOTPPage, [catch] of [handleResendOTP]. *)
Definition handleResendOTP_catch (err : axios_error) : list effect :=
  if status_is err 429 then [ToastError (rate_limit_message err)]
  else [ToastError (or_str (data_error err) "Failed to resend OTP")].

(** VerificationPage, [catch] and [finally] of [onRequestOTP]. *)
Definition onRequestOTP_catch (err : axios_error) : list effect :=
  (if status_is err 429 then
     let errorMessage := errorMessage429 err in
     let errorHint := errorHint429 err in
     ToastError errorMessage ::
     (if negb (errorHint =? "") then [ToastError errorHint] else [])
   else
     ToastError (or_str (data_error err) "Failed to send OTP") ::
     (if truthy_str (data_hint err)
      then [ToastError (default "" (data_hint err))] else []))
  ++ [SetLoading false].

(** VerificationPage, [catch] of the Resend OTP button. *)
Definition resendButton_catch (err : axios_error) : list effect :=
  [ToastError (or_str (data_error err) "Failed to resend OTP")].

(** The places where a voter OTP is requested. *)
Inductive site :=
| HomeUnifiedLogin
| LoginPageVoterTab
| OtpPageResend
| VerificationRequest
| VerificationResend.

Definition on_failure (s : site) (err : axios_error) : list effect :=
  match s with
  | HomeUnifiedLogin => onUnifiedLogin_catch err
  | LoginPageVoterTab => onVoterLogin_catch err
  | OtpPageResend => handleResendOTP_catch err
  | VerificationRequest => onRequestOTP_catch err
  | VerificationResend => resendButton_catch err
  end.

(** The error messages put in front of the user, in order. *)
Fixpoint displayed (l : list effect) : list string :=
  match l with
  | [] => []
  | SetError msg :: rest => msg :: displayed rest
  | ToastError msg :: rest => msg :: displayed rest
  | _ :: rest => displayed rest
  end.

(** Where the handler sends the router, if anywhere. *)
Fixpoint navigation (l : list effect) : option (string * option string) :=
  match l with
  | [] => None
  | Navigate to st _ :: _ => Some (to, st)
  | _ :: rest => navigation rest
  end.

(** The requests put to the backend, in order. *)
Fixpoint requests (l : list effect) : list request :=
  match l with
  | [] => []
  | Send r :: rest => r :: requests rest
  | _ :: rest => requests rest
  end.

End OTP.

(* ===================================================================== *)
(** ** Welcome banner of the dashboards                                   *)
(* ===================================================================== *)

Module Dashboard.
Import JS Browser.

(** The callback handed to [setTimeout] by the welcome effect:
    [setWelcomeMessage(null); localStorage.removeItem('welcomeMessage')]. *)
Inductive callback := DismissWelcome.

(** The dashboard's banner state, the local storage, and the pending
    timers with the time (in ms) from which each may fire. *)
Record state := mk_state {
  welcomeMessage : option json;
  localStorage : storage;
  timers : list (Z * callback)
}.

(** A dashboard that has just been mounted. *)
Definition mounted (ls : storage) : state := mk_state None ls [].

(** [{welcomeMessage && ( ... )}]: the banner is on screen. *)
Definition banner_shown (st : state) : bool := truthy (welcomeMessage st).

Section Effect.

(** [JSON.parse]; [None] stands for the SyntaxError it throws. *)
Variable JSON_parse : string -> option json.

(** Numeric coercion of a value that is not a number; [None] is NaN. *)
Variable ToNumber : json -> option Z.

Definition to_number (v : option json) : option Z :=
  match v with
  | None => None
  | Some (JNum z) => Some z
  | Some v => ToNumber v
  end.

(** [Date.now() - welcome.timestamp < 30000]; comparisons with NaN are
    false. *)
Definition is_recent (now : Z) (timestamp : option json) : bool :=
  match to_number timestamp with
  | Some t => (now - t <? 30000)%Z
  | None => false
  end.

Definition drop_record (st : state) : state :=
  mk_state (welcomeMessage st)
           (removeItem "welcomeMessage" (localStorage st)) (timers st).

(** The body of the [try] block; [None] is an exception reaching [catch]. *)
Definition read_welcome (welcomeData : string) (now : Z) (st : state)
    : option state :=
  welcome ← JSON_parse welcomeData;
  timestamp ← get_prop welcome "timestamp";
  msg ← get_prop welcome "message";
  if is_recent now timestamp then
    Some (mk_state msg (localStorage st)
            (timers st ++ [((now + 10000)%Z, DismissWelcome)]))
  else
    Some (drop_record st).

(** The welcome part of the mount effect, run at time [now]; the same
    code in the admin and candidate dashboards and, after its deactivation
    check, in the officer dashboard. *)
Definition welcomeEffect (now : Z) (st : state) : state :=
  let welcomeData := getItem "welcomeMessage" (localStorage st) in
  if truthy_str welcomeData then
    match read_welcome (default "" welcomeData) now st with
    | Some st' => st'
    | None => drop_record st
    end
  else st.

End Effect.

Definition run (c : callback) (st : state) : state :=
  match c with
  | DismissWelcome =>
      mk_state None (removeItem "welcomeMessage" (localStorage st)) (timers st)
  end.

(** The event loop at time [now]: every timer that is due fires, in the
    order of scheduling; the others stay pending. *)
Definition advance (now : Z) (st : state) : state :=
  let due := List.filter (fun t => (t.1 <=? now)%Z) (timers st) in
  let pending := List.filter (fun t => negb (t.1 <=? now)%Z) (timers st) in
  fold_left (fun s t => run t.2 s) due
    (mk_state (welcomeMessage st) (localStorage st) pending).

(** The close button of the banner: [setWelcomeMessage(null)]. *)
Definition clickClose (st : state) : state :=
  mk_state None (localStorage st) (timers st).

End Dashboard.

(* ===================================================================== *)
(** ** Static file server                                                 *)
(* ===================================================================== *)

Module Server.
Import JS.

Record request := mk_request {
  method : string;
  path : string
}.

(** What [express.static] does with a request: it sends a file of the
    build output (the [setHeaders] hook runs on its path first), it answers
    a directory path that lacks the final slash with a redirect to the
    path with the slash, it forwards an error ([next(err)]), or it passes
    the request on ([next()]). *)
Inductive static_result :=
| Sends (file : string)
| Redirects (location : string)
| Fails
| PassesOn.

(** [ServerError]: the error page of express, which is what a forwarded
    error ends in, the catch-all middleware taking no error argument. *)
Inductive response :=
| StaticFile (file : string) (cacheControl : string)
| Redirect (status : Z) (location : string)
| ServerError
| Json (status : Z) (body : list (string * string))
| SendFile (file : string).

(** The [setHeaders] hook given to [express.static]; it returns the
    [Cache-Control] value it has set, if any, starting from [h]. *)
Definition setHeaders (file : string) (h : option string) : option string :=
  let h :=
    if endsWith file ".html"
    then Some "public, max-age=0, must-revalidate" else h in
  if endsWith file ".js" || endsWith file ".css"
  then Some "public, max-age=31536000, immutable" else h.

(** The [Cache-Control] header of a file [express.static] sends: what the
    hook has set, and otherwise the value derived from [maxAge: '1y']. *)
Definition cacheControl (file : string) : string :=
  default "public, max-age=31536000" (setHeaders file None).

Section Middleware.

(** [express.static] over [dist], whose content is not part of the
    sources. *)
Variable serve_static : request -> static_result.

(** The catch-all middleware registered after [express.static]. *)
Definition spa_fallback (req : request) : response :=
  if startsWith (path req) "/api"
  then Json 404 [("error", "API route not found")]
  else SendFile "dist/index.html".

(** The middleware chain: static files first, then the catch-all. *)
Definition handle (req : request) : response :=
  match serve_static req with
  | Sends file => StaticFile file (cacheControl file)
  | Redirects location => Redirect 301 location
  | Fails => ServerError
  | PassesOn => spa_fallback req
  end.

End Middleware.

End Server.

(* ===================================================================== *)
(** ** API client: the request interceptor                                *)
(* ===================================================================== *)

Module ApiRequest.
Import JS Browser.

(** The parts of an axios request configuration the interceptor reads or
    writes; [params] may be undefined. *)
Record config := mk_config {
  method : option string;
  headers : gmap string string;
  params : option (gmap string json)
}.

(** [config.method === 'get' || config.method === 'GET'] *)
Definition is_get (c : config) : bool :=
  match method c with
  | Some m => (m =? "get") || (m =? "GET")
  | None => false
  end.

(** The fulfilment handler installed with [api.interceptors.request.use],
    run at time [now]. *)
Definition onRequest (now : Z) (ls : storage) (c : config) : config :=
  let token := getItem "token" ls in
  let c :=
    if truthy_str token then
      mk_config (method c)
        (<["Authorization" := "Bearer " +:+ default "" token]> (headers c))
        (params c)
    else c in
  if is_get c then
    mk_config (method c) (headers c)
      (Some (<["_t" := JNum now]> (default ∅ (params c))))
  else c.

End ApiRequest.

(* ===================================================================== *)
(** ** Logging in and out                                                 *)
(* ===================================================================== *)

Module Session.
Import JS Browser.

(** TopBar, [handleLogout]: the storage left and the route navigated to. *)
Definition TopBar_handleLogout (ls : storage) : storage * string :=
  (removeItem "welcomeMessage" (removeItem "user" (removeItem "token" ls)),
   "/login").

(** AccountDeactivated, [handleLogout]: the storage left and the address
    assigned to [window.location.href]. *)
Definition AccountDeactivated_handleLogout (ls : storage) : storage * string :=
  (removeItem "user" (removeItem "token" ls), "/login").

(** [v?.k]: optional chaining never throws. *)
Definition opt_prop (v : json) (k : string) : option json :=
  match v with
  | JObj fields => assoc k fields
  | _ => None
  end.

(** [email.split('@')[0]] *)
Fixpoint before_at (s : string) : string :=
  match s with
  | EmptyString => EmptyString
  | String a s' => if Ascii.eqb a "@" then EmptyString else String a (before_at s')
  end.

(** How the login request settles: with the response body, or with an
    axios error. *)
Inductive login_result :=
| LoginOk (response : json)
| LoginFailed (err : axios_error).

Definition deactivated_text : string :=
  "Your account has been deactivated. Please contact the administrator for assistance.".

(** The [catch] block of the password branch, from the error text on. *)
Definition login_catch (errorMessage : string) : list OTP.effect :=
  [OTP.SetError
     (if includes errorMessage "inactive" || includes errorMessage "deactivated"
      then deactivated_text else errorMessage);
   OTP.SetLoading false].

Section Login.

(** [JSON.stringify] on a parsed value. *)
Variable JSON_stringify : json -> string.

(** [String(v)] for a value that is not a string. *)
Variable ToString : json -> string.

(** The message of the TypeError thrown by [email.split] for an [email]
    that is not a string. *)
Variable type_error_message : option json -> string.

Definition to_string (v : json) : string :=
  match v with
  | JStr s => s
  | _ => ToString v
  end.

(** [user.name || user.email.split('@')[0]], for a [user] that is not
    [null]; [None] is the TypeError thrown when the name is falsy and the
    email is not a string. *)
Definition userName (user : json) : option string :=
  let name := opt_prop user "name" in
  if truthy name then Some (to_string (default JNull name))
  else
    match opt_prop user "email" with
    | Some (JStr e) => Some (before_at e)
    | _ => None
    end.

Definition welcomeEmoji (role : option json) : string :=
  if is_str role "ADMIN" then "👑"
  else if is_str role "OFFICER" then "📋"
  else "🎯".

(** The route chosen from the role. *)
Definition role_route (role : option json) : string :=
  if is_str role "ADMIN" then "/admin/dashboard"
  else if is_str role "OFFICER" then "/officer/dashboard"
  else if is_str role "CANDIDATE" then "/candidate/dashboard"
  else "/".

(** The record stored under [welcomeMessage]. *)
Definition welcome_record (name : string) (role : option json) (now : Z) : json :=
  JObj [("message",
         JStr ("Welcome back, " +:+ name +:+ "! " +:+ welcomeEmoji role));
        ("timestamp", JNum now)].

(** HomePage, the password branch of [onUnifiedLogin] after its [await],
    settling at time [now].  A failed request passes the response
    interceptor before it reaches the [catch].  Once the checks on the
    response have passed, [user] is truthy and its properties can be read
    without a throw. *)
Definition login_settled (now : Z) (result : login_result) (ls : storage)
    : storage * list OTP.effect :=
  match result with
  | LoginFailed err =>
      let out := ApiClient.onRejected ls err in
      (ApiClient.out_storage out,
       (OTP.interceptor_timers out ++
        login_catch (OTP.error_or_message (ApiClient.caught out err)
                       "Login failed. Please try again."))%list)
  | LoginOk response =>
      let token := opt_prop response "token" in
      let user := opt_prop response "user" in
      if negb (truthy token) || negb (truthy user) then
        (ls, [OTP.SetError "Invalid response from server"; OTP.SetLoading false])
      else
        let user := default JNull user in
        let role := opt_prop user "role" in
        let status := opt_prop user "status" in
        if is_str role "OFFICER" && is_str status "INACTIVE" then
          (removeItem "user" (removeItem "token" ls),
           [OTP.SetError deactivated_text; OTP.SetLoading false])
        else
          let ls := setItem "token" (to_string (default JNull token)) ls in
          let ls := setItem "user" (JSON_stringify user) ls in
          match userName user with
          | None =>
              (ls, login_catch
                     (or_str (Some (type_error_message (opt_prop user "email")))
                        "Login failed. Please try again."))
          | Some name =>
              (setItem "welcomeMessage"
                 (JSON_stringify (welcome_record name role now)) ls,
               [OTP.Navigate (role_route role) None true])
          end
  end.

End Login.

End Session.

(* ===================================================================== *)
(** ** Ballot casting wizard: mounting and loading the ballot             *)
(* ===================================================================== *)

Module VotingLoad.
Import JS Browser VotingPage.

(** The page before its mount effect has run. *)
Definition initial (ls : storage) : state :=
  mk_state "" true false None ∅ 0 ls.

(** [Timer] is a [setTimeout] of the response interceptor. *)
Inductive effect :=
| ToastError (msg : string)
| Navigate (to : string)
| Timer (ms : Z) (c : ApiClient.callback)
| GetBallot (token : string).

(** The timers the response interceptor has scheduled. *)
Definition interceptor_timers (out : ApiClient.outcome) : list effect :=
  map (fun t => Timer t.1 t.2) (ApiClient.out_timers out).

(** The body of the ballot response; either list may be missing. *)
Record ballot_response := mk_ballot_response {
  resp_positions : option (list Position);
  resp_candidates : option (list Candidate)
}.

(** How the ballot request settles; a [null] body is [LoadOk None]. *)
Inductive load_result :=
| LoadOk (body : option ballot_response)
| LoadFailed (err : axios_error).

Definition setBallotToken (t : string) (st : state) : state :=
  mk_state t (loading st) (submitting st) (ballotData st)
           (votes st) (currentStep st) (localStorage st).

Definition setLoading (b : bool) (st : state) : state :=
  mk_state (ballotToken st) b (submitting st) (ballotData st)
           (votes st) (currentStep st) (localStorage st).

Definition setBallotData (b : BallotData) (st : state) : state :=
  mk_state (ballotToken st) (loading st) (submitting st) (Some b)
           (votes st) (currentStep st) (localStorage st).

(** The mount effect up to the [await] inside [loadBallot]:
    [location_token] is [location.state?.ballotToken]. *)
Definition mount (location_token : option string) (st : state)
    : state * list effect :=
  let token :=
    if truthy_str location_token then location_token
    else getItem "ballotToken" (localStorage st) in
  if negb (truthy_str token) then
    (st, [ToastError "No ballot token found. Please verify your identity first.";
          Navigate "/verify"])
  else
    (setLoading true (setBallotToken (default "" token) st),
     [GetBallot (default "" token)]).

(** [loadBallot] after its [await]: the success path, the [catch] and the
    [finally].  A [null] body throws on its first property read and ends
    in the [catch] without an HTTP status.  A failed request passes the
    response interceptor before it reaches the [catch]. *)
Definition loadBallot_settled (result : load_result) (st : state)
    : state * list effect :=
  match result with
  | LoadOk (Some body) =>
      let b := mk_ballot (default [] (resp_positions body))
                         (default [] (resp_candidates body)) in
      let no_candidates :=
        match resp_positions body, resp_candidates body with
        | Some ps, Some cs => Nat.ltb 0 (length ps) && Nat.eqb (length cs) 0
        | _, _ => false
        end in
      (setLoading false (setBallotData b st),
       if no_candidates
       then [ToastError "No approved candidates available for voting yet."]
       else [])
  | LoadOk None =>
      (setLoading false st, [ToastError "Failed to load ballot"])
  | LoadFailed err =>
      let out := ApiClient.onRejected (localStorage st) err in
      let st := set_localStorage (ApiClient.out_storage out) st in
      let err := ApiClient.caught out err in
      if status_is err 401 || status_is err 400 then
        (setLoading false
           (set_localStorage (removeItem "ballotToken" (localStorage st)) st),
         (interceptor_timers out ++
          [ToastError "Invalid or expired ballot token. Please verify again.";
           Navigate "/verify"])%list)
      else
        (setLoading false st,
         (interceptor_timers out ++ [ToastError "Failed to load ballot"])%list)
  end.

End VotingLoad.

(* ===================================================================== *)
(** ** Voter OTP page                                                     *)
(* ===================================================================== *)

Module VoterOTPPage.
Import JS Browser.

Inductive request :=
| ConfirmOTP (regNo otp : string).

(** [Timer] is a [setTimeout] of the response interceptor. *)
Inductive effect :=
| SetRegNo (regNo : string)
| SetLoading (b : bool)
| ToastError (msg : string)
| ToastSuccess (msg : string)
| Send (r : request)
| Timer (ms : Z) (c : ApiClient.callback)
| Navigate (to : string) (state_ballotToken : option json) (replace : bool).

(** The timers the response interceptor has scheduled. *)
Definition interceptor_timers (out : ApiClient.outcome) : list effect :=
  map (fun t => Timer t.1 t.2) (ApiClient.out_timers out).

(** The mount effect: [stateRegNo] is [location.state?.regNo]. *)
Definition mount (stateRegNo : option string) : list effect :=
  if truthy_str stateRegNo then [SetRegNo (default "" stateRegNo)]
  else [ToastError "Please enter your registration number first";
        Navigate "/login" None true].

(** How the confirmation request settles. *)
Inductive confirm_result :=
| ConfirmOk (response : json)
| ConfirmFailed (err : axios_error).

Section Verify.

(** [String(v)] for a value that is not a string. *)
Variable ToString : json -> string.

(** [String.prototype.trim] and [String.prototype.toUpperCase]. *)
Variable trim : string -> string.
Variable toUpperCase : string -> string.

(** [onVerifyOTP]: the storage left and the effects in order.  A failed
    request passes the response interceptor before it reaches the
    [catch]. *)
Definition onVerifyOTP (regNo otp : string) (result : confirm_result)
    (ls : storage) : storage * list effect :=
  if (regNo =? "") || (otp =? "") then
    (ls, [ToastError "Registration number and OTP are required"])
  else
    let sent :=
      [SetLoading true;
       Send (ConfirmOTP (OTP.normalize trim toUpperCase regNo) otp)] in
    match result with
    | ConfirmOk response =>
        let token := Session.opt_prop response "ballotToken" in
        if truthy token then
          (setItem "ballotToken"
             (Session.to_string ToString (default JNull token)) ls,
           (sent ++
            [ToastSuccess "Verification successful! Redirecting to voting...";
             Navigate "/vote" token false;
             SetLoading false])%list)
        else
          (ls, (sent ++ [ToastError "Invalid response from server";
                         SetLoading false])%list)
    | ConfirmFailed err =>
        let out := ApiClient.onRejected ls err in
        (ApiClient.out_storage out,
         (sent ++ interceptor_timers out ++
          [ToastError (OTP.error_or_message (ApiClient.caught out err)
                         "Invalid OTP");
           SetLoading false])%list)
    end.

(** [handleResendOTP] for the page's [regNo]: the storage left and the
    effects in order; [result] is how the request settles when it is sent
    ([None]: success). *)
Definition handleResendOTP (regNo : string) (result : option axios_error)
    (ls : storage) : storage * list OTP.effect :=
  if regNo =? "" then (ls, [OTP.ToastError "Registration number is required"])
  else
    let sent := OTP.Send (OTP.RequestOTP (OTP.normalize trim toUpperCase regNo)) in
    match result with
    | None => (ls, [sent; OTP.ToastSuccess "New OTP sent to your phone via SMS!"])
    | Some err =>
        let out := ApiClient.onRejected ls err in
        (ApiClient.out_storage out,
         (sent :: OTP.interceptor_timers out ++
          OTP.handleResendOTP_catch (ApiClient.caught out err))%list)
    end.

End Verify.

End VoterOTPPage.

(* ===================================================================== *)
(** ** Audit log modal: paging                                            *)
(* ===================================================================== *)

Module AuditLogModal.

Record state := mk_state {
  page : Z;
  totalPages : Z
}.

(** The state the modal starts in. *)
Definition initial : state := mk_state 1 1.

(** The pager is rendered, below the list of logs, when [totalPages > 1];
    clicks are modelled wherever that holds. *)
Definition pager_rendered (st : state) : bool := (1 <? totalPages st)%Z.

Definition previous_disabled (st : state) : bool := (page st =? 1)%Z.
Definition next_disabled (st : state) : bool := (page st =? totalPages st)%Z.

Inductive event :=
| ClickPrevious
| ClickNext
| Fetched (totalPages : option Z).

(** [setPage(p => Math.max(1, p - 1))], [setPage(p => Math.min(totalPages,
    p + 1))], and [if (data.totalPages) setTotalPages(data.totalPages)]. *)
Definition step (st : state) (e : event) : state :=
  match e with
  | ClickPrevious =>
      if pager_rendered st && negb (previous_disabled st)
      then mk_state (Z.max 1 (page st - 1)) (totalPages st) else st
  | ClickNext =>
      if pager_rendered st && negb (next_disabled st)
      then mk_state (Z.min (totalPages st) (page st + 1)) (totalPages st) else st
  | Fetched (Some n) =>
      if (n =? 0)%Z then st else mk_state (page st) n
  | Fetched None => st
  end.

Inductive reachable : state -> Prop :=
| reach_initial : reachable initial
| reach_step st e : reachable st -> reachable (step st e).

End AuditLogModal.

(* ===================================================================== *)
(** ** Officer dashboard                                                  *)
(* ===================================================================== *)

Module OfficerDashboard.
Import JS Browser.

(** The fields of a nomination the dashboard's logic reads. *)
Record Nomination := mk_nomination {
  nom_id : string;
  nom_status : string
}.

Definition with_status (s : string) (nominations : list Nomination)
    : list Nomination :=
  List.filter (fun n => nom_status n =? s) nominations.

Definition pendingNominations := with_status "SUBMITTED".
Definition approvedNominations := with_status "APPROVED".
Definition rejectedNominations := with_status "REJECTED".

Section Mount.

(** [JSON.parse]; [None] stands for the SyntaxError it throws. *)
Variable JSON_parse : string -> option json.

(** The deactivation check at the start of the mount effect.  The result
    is the storage left and whether the effect has returned after
    navigating to /login; [None] is an exception, which nothing catches. *)
Definition deactivation_check (ls : storage) : option (storage * bool) :=
  let userStr := getItem "user" ls in
  if truthy_str userStr then
    user ← JSON_parse (default "" userStr);
    status ← get_prop user "status";
    if is_str status "INACTIVE"
    then Some (removeItem "user" (removeItem "token" ls), true)
    else Some (ls, false)
  else Some (ls, false).

End Mount.

Inductive effect :=
| ToastError (msg : string)
| ToastSuccess (msg : string)
| Confirm (question : string)
| Approve (id : string)
| Reject (id reason : string)
| FetchNominations.

(** [handleApprove]: [confirmed] is the answer of the [confirm] dialog,
    [result] how the request settles for the handler: [None] is success,
    and otherwise it is the error the [catch] receives, after the response
    interceptor. *)
Definition handleApprove (id : string) (confirmed : bool)
    (result : option axios_error) : list effect :=
  Confirm "Are you sure you want to approve this nomination?" ::
  if negb confirmed then []
  else
    Approve id ::
    match result with
    | None => [ToastSuccess "Nomination approved successfully"; FetchNominations]
    | Some err =>
        [ToastError (or_str (data_error err) "Failed to approve nomination")]
    end.

Section Reject.

(** [String.prototype.trim] *)
Variable trim : string -> string.

(** [handleReject] on the [rejectReason] object: the effects in order and
    the [rejectReason] left; [confirmed] and [result] are as in
    [handleApprove]. *)
Definition handleReject (id : string) (rejectReason : gmap string string)
    (confirmed : bool) (result : option axios_error)
    : gmap string string * list effect :=
  let reason := trim <$> rejectReason !! id in
  if negb (truthy_str reason) then
    (rejectReason, [ToastError "Please provide a reason for rejection"])
  else if negb confirmed then
    (rejectReason, [Confirm "Are you sure you want to reject this nomination?"])
  else
    match result with
    | None =>
        (<[id := ""]> rejectReason,
         [Confirm "Are you sure you want to reject this nomination?";
          Reject id (default "" reason);
          ToastSuccess "Nomination rejected successfully";
          FetchNominations])
    | Some err =>
        (rejectReason,
         [Confirm "Are you sure you want to reject this nomination?";
          Reject id (default "" reason);
          ToastError (or_str (data_error err) "Failed to reject nomination")])
    end.

End Reject.

End OfficerDashboard.

(* ===================================================================== *)
(** ** Addresses of uploaded files                                        *)
(* ===================================================================== *)

Module ImageUtils.
Import JS.

Fixpoint drop (n : nat) (s : string) : string :=
  match n, s with
  | S n', String _ s' => drop n' s'
  | _, _ => s
  end.

(** [s.replace(pat, rep)] for a string pattern: the first occurrence. *)
Fixpoint replace (s pat rep : string) {struct s} : string :=
  if startsWith s pat then rep +:+ drop (String.length pat) s
  else
    match s with
    | EmptyString => EmptyString
    | String a s' => String a (replace s' pat rep)
    end.

Section Env.

(** [import.meta.env.VITE_API_URL] *)
Variable VITE_API_URL : option string.

Definition getBackendBaseUrl : string :=
  if truthy_str VITE_API_URL
  then replace (default "" VITE_API_URL) "/api" ""
  else "http://localhost:5000".

Definition getFileUrl (filePath : option string) : option string :=
  if negb (truthy_str filePath) then None
  else
    let filePath := default "" filePath in
    if startsWith filePath "http://" || startsWith filePath "https://"
    then Some filePath
    else
      let normalizedPath :=
        if startsWith filePath "/" then filePath else "/" +:+ filePath in
      Some (getBackendBaseUrl +:+ normalizedPath).

End Env.

End ImageUtils.

(* ===================================================================== *)
(** ** Dates as literal times                                             *)
(* ===================================================================== *)

Module DateUtils.
Import JS.

Definition is_digit (a : ascii) : bool :=
  let n := nat_of_ascii a in Nat.leb 48 n && Nat.leb n 57.

(** [\d{n}] at the start of [s]: the digits and the rest. *)
Fixpoint take_digits (n : nat) (s : string) : option (string * string) :=
  match n with
  | 0 => Some (EmptyString, s)
  | S n' =>
      match s with
      | String a s' =>
          if is_digit a then
            match take_digits n' s' with
            | Some (d, rest) => Some (String a d, rest)
            | None => None
            end
          else None
      | EmptyString => None
      end
  end.

(** One literal character at the start of [s]. *)
Definition expect (c : ascii) (s : string) : option string :=
  match s with
  | String a s' => if Ascii.eqb a c then Some s' else None
  | EmptyString => None
  end.

(** The capture groups 1 to 6 of the ISO pattern. *)
Record iso_match := mk_iso {
  year : string;
  month : string;
  day : string;
  hour : string;
  minute : string;
  second : option string
}.

(** [s.match(/^(\d{4})-(\d{2})-(\d{2})T(\d{2}):(\d{2})(?::(\d{2}))? .../)]:
    everything after the minutes is optional, so the match succeeds as soon
    as the minutes are read, and the seconds are captured when [:dd]
    follows. *)
Definition isoMatch (s : string) : option iso_match :=
  '(y, s) ← take_digits 4 s;
  s ← expect "-" s;
  '(mo, s) ← take_digits 2 s;
  s ← expect "-" s;
  '(d, s) ← take_digits 2 s;
  s ← expect "T" s;
  '(h, s) ← take_digits 2 s;
  s ← expect ":" s;
  '(mi, s) ← take_digits 2 s;
  Some (mk_iso y mo d h mi (s' ← expect ":" s; fst <$> take_digits 2 s')).

(** [parseInt(s, 10)] on a string of digits. *)
Definition parseInt_digits (s : string) : Z :=
  let fix go (acc : Z) (s : string) : Z :=
    match s with
    | EmptyString => acc
    | String a s' => go (10 * acc + (Z.of_nat (nat_of_ascii a) - 48))%Z s'
    end in
  go 0%Z s.

(** [hours >= 12 ? 'PM' : 'AM'] and [hours % 12 || 12] *)
Definition ampm (hours : Z) : string := if (12 <=? hours)%Z then "PM" else "AM".

Definition displayHours (hours : Z) : Z :=
  let r := (hours mod 12)%Z in if (r =? 0)%Z then 12%Z else r.

(** [String(n).padStart(2, '0')] *)
Definition pad2 (n : Z) : string :=
  let s := num_to_string n in
  if Nat.ltb (String.length s) 2 then "0" +:+ s else s.

(** The local-time components of a valid [Date]; [Month] is zero-based. *)
Record date_parts := mk_date {
  FullYear : Z;
  Month : Z;
  Date : Z;
  Hours : Z;
  Minutes : Z;
  Seconds : Z
}.

(** The formatting shared by the two [Date] branches of [formatDate]. *)
Definition format_parts (d : date_parts) : string :=
  pad2 (Month d + 1) +:+ "/" +:+ pad2 (Date d) +:+ "/" +:+
  num_to_string (FullYear d) +:+ ", " +:+
  num_to_string (displayHours (Hours d)) +:+ ":" +:+ pad2 (Minutes d) +:+ ":" +:+
  pad2 (Seconds d) +:+ " " +:+ ampm (Hours d).

(** The ISO branch of [formatDate]; the two-character groups are already
    of length 2, so [padStart] leaves them as they are. *)
Definition format_iso (m : iso_match) : string :=
  let hours := parseInt_digits (hour m) in
  month m +:+ "/" +:+ day m +:+ "/" +:+ year m +:+ ", " +:+
  num_to_string (displayHours hours) +:+ ":" +:+ minute m +:+ ":" +:+
  or_str (second m) "00" +:+ " " +:+ ampm hours.

(** The date and time as written in a matched string, seconds filled in
    with [00] when they are missing. *)
Definition literal (m : iso_match) : string :=
  year m +:+ "-" +:+ month m +:+ "-" +:+ day m +:+ "T" +:+ hour m +:+ ":"
  +:+ minute m +:+ ":" +:+ or_str (second m) "00".

(** The characters [\d] matches. *)
Definition digit_chars : list ascii :=
  ["0"; "1"; "2"; "3"; "4"; "5"; "6"; "7"; "8"; "9"]%char.

Section Dates.

(** [new Date(s)]: the local-time components, or [None] for an invalid
    date. *)
Variable Date_parse : string -> option date_parts.

(** [formatDate] on a string or on a valid [Date] object. *)
Definition formatDate (dateString : string + date_parts) : string :=
  match dateString with
  | inl s =>
      match isoMatch s with
      | Some m => format_iso m
      | None =>
          match Date_parse s with
          | Some d => format_parts d
          | None => "Invalid Date"
          end
      end
  | inr d => format_parts d
  end.

(** The numbers returned by [parseDateAsLocal]; [None] is NaN. *)
Record local_parts := mk_local {
  l_year : option Z;
  l_month : option Z;
  l_day : option Z;
  l_hour : option Z;
  l_minute : option Z;
  l_second : option Z
}.

Definition parseDateAsLocal (s : string) : local_parts :=
  match isoMatch s with
  | Some m =>
      mk_local (Some (parseInt_digits (year m)))
               (Some (parseInt_digits (month m)))
               (Some (parseInt_digits (day m)))
               (Some (parseInt_digits (hour m)))
               (Some (parseInt_digits (minute m)))
               (Some (parseInt_digits (or_str (second m) "00")))
  | None =>
      match Date_parse s with
      | Some d =>
          mk_local (Some (FullYear d)) (Some (Month d + 1)%Z) (Some (Date d))
                   (Some (Hours d)) (Some (Minutes d)) (Some (Seconds d))
      | None => mk_local None None None None None None
      end
  end.

(** [`${n}`] and [String(n).padStart(2, '0')] on a number that may be
    NaN. *)
Definition show (n : option Z) : string :=
  match n with
  | Some z => num_to_string z
  | None => "NaN"
  end.

Definition show2 (n : option Z) : string :=
  match n with
  | Some z => pad2 z
  | None => "NaN"
  end.

(** The timestamp string built from the parts. *)
Definition timestamp (p : local_parts) : string :=
  show (l_year p) +:+ "-" +:+ show2 (l_month p) +:+ "-" +:+ show2 (l_day p)
  +:+ "T" +:+ show2 (l_hour p) +:+ ":" +:+ show2 (l_minute p) +:+ ":" +:+
  show2 (l_second p).

(** [isDateInRange], with the parts of [new Date()] as [now]; strings are
    compared code unit by code unit. *)
Definition isDateInRange (now : date_parts) (rangeStart rangeEnd : string)
    : bool :=
  let nowTimestamp :=
    timestamp (mk_local (Some (FullYear now)) (Some (Month now + 1)%Z)
                 (Some (Date now)) (Some (Hours now)) (Some (Minutes now))
                 (Some (Seconds now))) in
  let startTimestamp := timestamp (parseDateAsLocal rangeStart) in
  let endTimestamp := timestamp (parseDateAsLocal rangeEnd) in
  String.leb startTimestamp nowTimestamp && String.leb nowTimestamp endTimestamp.

End Dates.

End DateUtils.

(* ===================================================================== *)
(** ** Creating a position: the check on the four dates                   *)
(* ===================================================================== *)

Module CreatePosition.

Record dates := mk_dates {
  nominationOpens : string;
  nominationCloses : string;
  votingOpens : string;
  votingCloses : string
}.

Section Refine.

(** [new Date(s)] as a number of milliseconds; [None] is NaN. *)
Variable Date_time : string -> option Z.

(** [a > b] on two dates; a comparison with NaN is false. *)
Definition later (a b : option Z) : bool :=
  match a, b with
  | Some x, Some y => (y <? x)%Z
  | _, _ => false
  end.

(** The refinement of [createPositionSchema] on the date fields. *)
Definition dates_valid (d : dates) : bool :=
  let nomOpens := Date_time (nominationOpens d) in
  let nomCloses := Date_time (nominationCloses d) in
  let voteOpens := Date_time (votingOpens d) in
  let voteCloses := Date_time (votingCloses d) in
  later nomCloses nomOpens && later voteCloses voteOpens
  && later voteOpens nomCloses.

End Refine.

End CreatePosition.

(* ===================================================================== *)
(** ** Route guard: when a page is rendered                               *)
(* ===================================================================== *)

Module Admission.
Import JS Browser ProtectedRoute.

Section Rendered.

Variable JSON_parse : string -> option json.

(** What the guard's [try] block needs in order to render the page: a
    non-empty token, a non-empty user text that parses to a value other
    than [null], a status other than INACTIVE, and the required role. *)
Definition admitted (requiredRole : option Role) (ls : storage) : Prop :=
  exists t u user status role,
    ls !! "token" = Some t /\ t ≠ "" /\
    ls !! "user" = Some u /\ u ≠ "" /\
    JSON_parse u = Some user /\
    get_prop user "status" = Some status /\
    is_str status "INACTIVE" = false /\
    get_prop user "role" = Some role /\
    forall r, requiredRole = Some r -> is_str role (role_name r) = true.

End Rendered.

End Admission.

(* ===================================================================== *)
(** ** Ballot casting wizard: what the reachable states keep              *)
(* ===================================================================== *)

Module WizardInvariants.
Import JS Browser VotingPage.

(** The outcomes of the vote request after which [handleSubmit] removes
    the ballot token: success, and a 400 whose error says "already used". *)
Definition token_spent (res : cast_result) : bool :=
  match res with
  | CastOk => true
  | CastFailed err _ =>
      status_is err 400 &&
      match data_error err with
      | Some e => includes e "already used"
      | None => false
      end
  end.

(** Every recorded selection names a candidate the ballot lists for that
    position. *)
Definition selections_listed (b : BallotData) (v : selection) : Prop :=
  forall p c, v !! p = Some c ->
    exists cand, cand ∈ candidates b /\ cand_id cand = c /\
                 cand_position_id cand = p.

End WizardInvariants.

(* ===================================================================== *)
(** ** Concrete inputs used by the examples                               *)
(* ===================================================================== *)

Module Samples.
Import JS Browser.

(** JSON text of a user record with the given role and status. *)
Definition user_text (role status : string) : string :=
  "{" +:+ dquote +:+ "role" +:+ dquote +:+ ":" +:+ dquote +:+ role
  +:+ dquote +:+ "," +:+ dquote +:+ "status" +:+ dquote +:+ ":" +:+ dquote
  +:+ status +:+ dquote +:+ "}".

Definition user_value (role status : string) : json :=
  JObj [("role", JStr role); ("status", JStr status)].

(** A stored session: a token and the JSON text of the user. *)
Definition session (role status : string) : storage :=
  setItem "user" (user_text role status) (setItem "token" "eyJhbGciOi" ∅).

(** [JSON.parse] on the user records above; any other text is rejected. *)
Definition parse_user (text : string) : option json :=
  assoc text
    (r ← ["ADMIN"; "OFFICER"; "CANDIDATE"];
     s ← ["ACTIVE"; "INACTIVE"];
     [(user_text r s, user_value r s)]).

(** A 429 response of the OTP endpoint with both fields present. *)
Definition rate_limited : axios_error :=
  mk_error
    (Some (mk_response 429
       (Some (mk_data (Some "Too many OTP requests")
                      (Some "Try again in 45 seconds") (Some 45%Z)))))
    "Request failed with status code 429".

(** A 429 response without a body. *)
Definition rate_limited_bare : axios_error :=
  mk_error (Some (mk_response 429 None)) "Request failed with status code 429".

(** The unified login form filled with a registration number only. *)
Definition voter_form : OTP.UnifiedLoginFormData :=
  OTP.mk_form (Some "") (Some "") (Some "  m24b13/054 ").

(** JSON text of a welcome record, and [JSON.parse] on such texts. *)
Definition welcome_text (msg : string) (timestamp : Z) : string :=
  "{" +:+ dquote +:+ "message" +:+ dquote +:+ ":" +:+ dquote +:+ msg
  +:+ dquote +:+ "," +:+ dquote +:+ "timestamp" +:+ dquote +:+ ":"
  +:+ num_to_string timestamp +:+ "}".

Definition welcome_value (msg : string) (timestamp : Z) : json :=
  JObj [("message", JStr msg); ("timestamp", JNum timestamp)].

(** The record written by a login at 1700000000000 ms. *)
Definition parse_welcome (text : string) : option json :=
  if text =? welcome_text "Welcome back, Ann!" 1700000000000
  then Some (welcome_value "Welcome back, Ann!" 1700000000000)
  else None.

(** Numeric coercion is not needed for a numeric timestamp. *)
Definition no_coercion (v : json) : option Z := None.

(** The output of a build of the front end: the entry document and, in
    the directory [assets], the bundled script and style sheet.
    [express.static] over it answers GET and HEAD requests only: the root
    with the entry document, a listed file with that file, and the
    directory path without its final slash with a redirect. *)
Definition dist_files : list string :=
  ["/index.html"; "/assets/index-4f3a9c.js"; "/assets/index-9c1b22.css"].

Definition dist_directories : list string := ["/assets"].

Definition serve_dist (req : Server.request) : Server.static_result :=
  if negb ((Server.method req =? "GET") || (Server.method req =? "HEAD"))
  then Server.PassesOn
  else if Server.path req =? "/" then Server.Sends "dist/index.html"
  else if bool_decide (Server.path req ∈ dist_files)
  then Server.Sends ("dist" +:+ Server.path req)
  else if bool_decide (Server.path req ∈ dist_directories)
  then Server.Redirects (Server.path req +:+ "/")
  else Server.PassesOn.

(** A ballot with two positions, one candidate each. *)
Definition two_positions : VotingPage.BallotData :=
  VotingPage.mk_ballot
    [VotingPage.mk_position "p1" "President";
     VotingPage.mk_position "p2" "Secretary"]
    [VotingPage.mk_candidate "c1" "Ann" "p1";
     VotingPage.mk_candidate "c2" "Bob" "p2"].

(** A ballot with a single position. *)
Definition one_position : VotingPage.BallotData :=
  VotingPage.mk_ballot
    [VotingPage.mk_position "p1" "President"]
    [VotingPage.mk_candidate "c1" "Ann" "p1"].

(** One [key:string] member of a JSON object text. *)
Definition member (k v : string) : string :=
  dquote +:+ k +:+ dquote +:+ ":" +:+ dquote +:+ v +:+ dquote.

(** The user record of a login response, and its JSON text. *)
Definition login_user (role status : string) : json :=
  JObj [("email", JStr "ann@example.org"); ("name", JStr "Ann");
        ("role", JStr role); ("status", JStr status)].

Definition login_user_text (role status : string) : string :=
  "{" +:+ member "email" "ann@example.org" +:+ "," +:+ member "name" "Ann"
  +:+ "," +:+ member "role" role +:+ "," +:+ member "status" status +:+ "}".

Definition login_response (role status : string) : json :=
  JObj [("token", JStr "eyJhbGciOi"); ("user", login_user role status)].

(** [JSON.stringify] on user records and welcome records of these shapes. *)
Definition stringify (v : json) : string :=
  match v with
  | JObj [("email", JStr "ann@example.org"); ("name", JStr "Ann");
          ("role", JStr role); ("status", JStr status)] =>
      login_user_text role status
  | JObj [("message", JStr msg); ("timestamp", JNum t)] => welcome_text msg t
  | _ => "null"
  end.

(** [JSON.parse] on the texts a login of Ann as an admin at 1700000000000
    ms writes. *)
Definition parse_login (text : string) : option json :=
  if text =? login_user_text "ADMIN" "ACTIVE"
  then Some (login_user "ADMIN" "ACTIVE")
  else if text =? login_user_text "ADMIN" "INACTIVE"
  then Some (login_user "ADMIN" "INACTIVE")
  else if text =? welcome_text "Welcome back, Ann! 👑" 1700000000000
  then Some (welcome_value "Welcome back, Ann! 👑" 1700000000000)
  else None.

(** [String(v)] is not needed where every value read is a string. *)
Definition no_string (v : json) : string := "".

(** The message of the TypeError that [email.split] throws. *)
Definition split_error (email : option json) : string :=
  match email with
  | None => "Cannot read properties of undefined (reading 'split')"
  | Some JNull => "Cannot read properties of null (reading 'split')"
  | Some _ => "response.user.email.split is not a function"
  end.

(** [new Date(s).getTime()] on the four dates of a position form. *)
Definition date_time (s : string) : option Z :=
  if s =? "2025-11-01T08:00" then Some 1761984000000%Z
  else if s =? "2025-11-07T18:00" then Some 1762538400000%Z
  else if s =? "2025-11-10T08:00" then Some 1762761600000%Z
  else if s =? "2025-11-12T18:00" then Some 1762970400000%Z
  else None.

(** [new Date(s)] is not consulted for strings in ISO form. *)
Definition no_date (s : string) : option DateUtils.date_parts := None.

(** 26 November 2025, 19:48:30 local time. *)
Definition sample_now : DateUtils.date_parts :=
  DateUtils.mk_date 2025 10 26 19 48 30.

End Samples.

(* ===================================================================== *)
(** * Properties                                                          *)
(* ===================================================================== *)

(** ** The string built-ins *)

Section JSFacts.
Import JS.

(** [startsWith] is the prefix test. *)
Lemma startsWith_spec (s p : string) :
  startsWith s p = true <-> exists rest, s = p +:+ rest.
Proof.
  revert s. induction p as [|c p IH]; intros s; simpl.
  - split; [intros _; by exists s | reflexivity].
  - destruct s as [|d s]; [split; [discriminate | intros [rest H]; discriminate]|].
    rewrite andb_true_iff, Ascii.eqb_eq, IH. split.
    + intros [-> [rest ->]]. by exists rest.
    + intros [rest H]. injection H as -> ->. split; [reflexivity | by exists rest].
Qed.

(** [includes] is the substring test. *)
Lemma includes_spec (s p : string) :
  includes s p = true <-> exists before rest, s = before +:+ p +:+ rest.
Proof.
  induction s as [|d s IH]; simpl.
  - rewrite orb_false_r, startsWith_spec. split.
    + intros [rest H]. by exists "", rest.
    + intros (before & rest & H). destruct before as [|a before];
        [by exists rest | discriminate].
  - rewrite orb_true_iff, startsWith_spec, IH. split.
    + intros [[rest H] | (before & rest & ->)].
      * by exists "", rest.
      * by exists (String d before), rest.
    + intros (before & rest & H). destruct before as [|a before].
      * left. by exists rest.
      * right. injection H as -> ->. by exists before, rest.
Qed.

(** What [trimStart] returns does not begin with white space. *)
Lemma trimStart_head (s : string) (a : ascii) (rest : string) :
  trimStart s = String a rest -> is_ws a = false.
Proof.
  induction s as [|b s IH]; simpl; [discriminate|].
  destruct (is_ws b) eqn:Hb; [exact IH|].
  intros H. injection H as <- _. exact Hb.
Qed.

Lemma trimStart_idempotent (s : string) : trimStart (trimStart s) = trimStart s.
Proof.
  induction s as [|b s IH]; simpl; [reflexivity|].
  destruct (is_ws b) eqn:Hb; [exact IH|]. simpl. by rewrite Hb.
Qed.

Lemma upper_ascii_idempotent (a : ascii) :
  upper_ascii (upper_ascii a) = upper_ascii a.
Proof. destruct a as [[] [] [] [] [] [] [] []]; reflexivity. Qed.

(** Uppercasing keeps the length and is idempotent. *)
Lemma toUpperCase_length (s : string) :
  String.length (toUpperCase_ascii s) = String.length s.
Proof.
  unfold toUpperCase_ascii. induction s as [|a s IH]; simpl; [reflexivity|].
  by rewrite IH.
Qed.

Lemma toUpperCase_idempotent (s : string) :
  toUpperCase_ascii (toUpperCase_ascii s) = toUpperCase_ascii s.
Proof.
  unfold toUpperCase_ascii. induction s as [|a s IH]; simpl; [reflexivity|].
  by rewrite upper_ascii_idempotent, IH.
Qed.

End JSFacts.

(** ** The response interceptor *)

Section ApiClientFacts.
Import JS Browser ApiClient.

Lemma removeItem_lookup (k : string) (ls : storage) :
  removeItem k ls !! k = None.
Proof. unfold removeItem. apply lookup_delete_eq. Qed.

Lemma removeItem_lookup_ne (k k' : string) (ls : storage) :
  k ≠ k' -> removeItem k ls !! k' = ls !! k'.
Proof. intros Hne. unfold removeItem. by apply lookup_delete_ne. Qed.

(** The storage left by the interceptor on a 401 does not depend on the
    error text. *)
Lemma onRejected_401_storage (ls : storage) (err : axios_error) :
  status_is err 401 = true ->
  out_storage (onRejected ls err) = removeItem "user" (removeItem "token" ls).
Proof.
  intros H401. unfold onRejected. rewrite H401.
  destruct (indicates_expired _); [reflexivity|].
  destruct (indicates_deactivation _); reflexivity.
Qed.

(** Every 401 clears both session keys. *)
Lemma onRejected_401_clears_session (ls : storage) (err : axios_error) :
  status_is err 401 = true ->
  out_storage (onRejected ls err) !! "token" = None /\
  out_storage (onRejected ls err) !! "user" = None.
Proof.
  intros H401. rewrite (onRejected_401_storage _ _ H401). split.
  - rewrite removeItem_lookup_ne by discriminate. apply removeItem_lookup.
  - apply removeItem_lookup.
Qed.

(** A 401 that reports an expired or invalid token schedules the move to
    the login page 100 ms later. *)
Lemma onRejected_expired_redirects (ls : storage) (err : axios_error) :
  status_is err 401 = true ->
  indicates_expired (or_str (data_error err) "") = true ->
  out_timers (onRejected ls err) = [(100%Z, SetLocationHref "/login")].
Proof.
  intros H401 Hexp. unfold onRejected. rewrite H401, Hexp. reflexivity.
Qed.

(** A 401 that only reports deactivation schedules no redirect. *)
Lemma onRejected_deactivation_stays (ls : storage) (err : axios_error) :
  status_is err 401 = true ->
  indicates_expired (or_str (data_error err) "") = false ->
  indicates_deactivation (or_str (data_error err) "") = true ->
  out_timers (onRejected ls err) = [] /\
  out_reject (onRejected ls err) = RejectOriginal.
Proof.
  intros H401 Hexp Hdea. unfold onRejected. rewrite H401, Hexp, Hdea.
  split; reflexivity.
Qed.

(** Responses with another status leave storage and timers alone. *)
Lemma onRejected_other_status (ls : storage) (err : axios_error) :
  status_is err 401 = false ->
  onRejected ls err = mk_outcome ls [] RejectOriginal.
Proof. intros H. unfold onRejected. rewrite H. reflexivity. Qed.

(** C1 (the deactivation clause fails on the code).  On a 401 whose error
    text is "Account has been deactivated", a text the interceptor itself
    classifies as a deactivation and not as an expired token, the stored
    user record is removed together with the token, although no redirect is
    scheduled: the two [removeItem] calls run before the error text is
    looked at. *)
Theorem C1_deactivation_401_removes_user :
  let ls := Samples.session "OFFICER" "INACTIVE" in
  let err := unauthorized "Account has been deactivated" in
  let out := onRejected ls err in
  ls !! "user" = Some (Samples.user_text "OFFICER" "INACTIVE") /\
  status_is err 401 = true /\
  indicates_expired "Account has been deactivated" = false /\
  indicates_deactivation "Account has been deactivated" = true /\
  out_storage out !! "user" = None /\
  out_storage out !! "token" = None /\
  out_timers out = [] /\
  out_reject out = RejectOriginal.
Proof. vm_compute. repeat split; reflexivity. Qed.

(** The example of the specification for an expired token does hold. *)
Example token_expired_401 :
  let out :=
    onRejected (Samples.session "ADMIN" "ACTIVE") (unauthorized "Token expired") in
  out_storage out = ∅ /\
  out_timers out = [(100%Z, SetLocationHref "/login")].
Proof. vm_compute. split; reflexivity. Qed.

End ApiClientFacts.

(** ** The ballot casting wizard *)

Section VotingPageFacts.
Import JS Browser VotingPage.

Lemma handleVoteChange_fresh (p c : string) (v : selection) :
  v !! p = None -> handleVoteChange p c v = <[p:=c]> v.
Proof.
  intros Hnone. unfold handleVoteChange.
  rewrite bool_decide_eq_false_2; [reflexivity | congruence].
Qed.

Lemma handleVoteChange_same (p c : string) (v : selection) :
  v !! p = Some c -> handleVoteChange p c v = delete p v.
Proof.
  intros Hsome. unfold handleVoteChange.
  by rewrite bool_decide_eq_true_2.
Qed.

(** Selecting another candidate replaces the recorded one. *)
Lemma handleVoteChange_other (p c c' : string) (v : selection) :
  v !! p = Some c' -> c ≠ c' -> handleVoteChange p c v !! p = Some c.
Proof.
  intros Hsome Hne. unfold handleVoteChange.
  rewrite bool_decide_eq_false_2 by congruence.
  apply lookup_insert_eq.
Qed.

(** A toggle touches no other position. *)
Lemma handleVoteChange_frame (p q c : string) (v : selection) :
  p ≠ q -> handleVoteChange p c v !! q = v !! q.
Proof.
  intros Hne. unfold handleVoteChange. case_bool_decide.
  - by apply lookup_delete_ne.
  - by apply lookup_insert_ne.
Qed.

(** C4.  Starting from a selection map without an entry for the position,
    toggling a candidate records it, and toggling the same candidate again
    leaves the position without a selection; the map is back to what it
    was. *)
Theorem C4_toggle_twice_clears (p c : string) (v : selection) :
  v !! p = None ->
  handleVoteChange p c v !! p = Some c /\
  handleVoteChange p c (handleVoteChange p c v) !! p = None /\
  handleVoteChange p c (handleVoteChange p c v) = v.
Proof.
  intros Hnone.
  rewrite (handleVoteChange_fresh p c v Hnone).
  assert (Hrec : <[p:=c]> v !! p = Some c) by apply lookup_insert_eq.
  rewrite (handleVoteChange_same p c _ Hrec).
  assert (Hback : delete p (<[p:=c]> v) = v).
  { rewrite delete_insert_eq. by apply delete_id. }
  rewrite Hback. auto.
Qed.

Lemma C4_toggle_twice_clears_witness :
  (∅ : selection) !! "p1" = None /\
  handleVoteChange "p1" "c1" (handleVoteChange "p1" "c1" ∅) !! "p1" = None.
Proof.
  split; [reflexivity |].
  apply (C4_toggle_twice_clears "p1" "c1" ∅). reflexivity.
Defined.

(** Handlers other than the navigation ones keep the position index. *)
Lemma handleSubmit_currentStep (confirmed : bool) (st : state) :
  currentStep (handleSubmit confirmed st).1.1 = currentStep st.
Proof.
  unfold handleSubmit. destruct (ballotData st) as [b|]; [|reflexivity].
  destruct (negb (Nat.eqb _ 0)); [reflexivity|].
  destruct confirmed; reflexivity.
Qed.

(** The [catch] of [handleSubmit] changes the submitting flag and the
    storage only. *)
Lemma handleSubmit_catch_frame (err : axios_error) (closed : list string)
    (st : state) :
  let st' := (handleSubmit_catch err closed st).1 in
  ballotData st' = ballotData st /\ loading st' = loading st /\
  votes st' = votes st /\ currentStep st' = currentStep st.
Proof.
  unfold handleSubmit_catch.
  destruct (status_is err 400); simpl; [|auto].
  destruct (data_error err) as [e|]; simpl; [|auto].
  destruct (includes e "already used"); simpl; [auto|].
  destruct (includes e "not open for voting"); simpl; [|auto].
  destruct (Nat.ltb 0 (length closed)); simpl; auto.
Qed.

Lemma handleSubmit_settled_frame (res : cast_result) (st : state) :
  let st' := (handleSubmit_settled res st).1 in
  ballotData st' = ballotData st /\ loading st' = loading st /\
  votes st' = votes st /\ currentStep st' = currentStep st.
Proof.
  unfold handleSubmit_settled. destruct res as [|err closed]; simpl; [auto|].
  apply (handleSubmit_catch_frame _ closed
           (set_localStorage _ st)).
Qed.

Lemma handleSubmit_settled_currentStep (res : cast_result) (st : state) :
  currentStep (handleSubmit_settled res st).1 = currentStep st.
Proof. apply handleSubmit_settled_frame. Qed.

Lemma handleNext_currentStep (st : state) :
  currentStep (handleNext st) = currentStep st \/
  currentStep (handleNext st) = currentStep st + 1.
Proof.
  unfold handleNext. destruct (Nat.ltb _ _); [right|left]; reflexivity.
Qed.

Lemma handlePrevious_currentStep (st : state) :
  currentStep (handlePrevious st) <= currentStep st.
Proof.
  unfold handlePrevious. destruct (Nat.ltb _ _); simpl; lia.
Qed.

(** What a truthy [votes[id]] means: a non-empty own entry, or no own
    entry under a name that [Object.prototype] defines. *)
Lemma isVoted_true (v : selection) (id : string) :
  isVoted v id = true <->
  truthy_str (v !! id) = true \/ (v !! id = None /\ inherited id = true).
Proof.
  unfold isVoted, read. destruct (v !! id) as [c|]; simpl.
  - split; [by left | intros [H | [H _]]; [exact H | discriminate]].
  - destruct (inherited id); split; try discriminate.
    + intros _. by right.
    + reflexivity.
    + intros [H | [_ H]]; discriminate.
Qed.

(** Under a name that [Object.prototype] does not define, [votes[id]] is
    truthy exactly when there is a non-empty own entry. *)
Lemma isVoted_own (v : selection) (id : string) :
  inherited id = false -> isVoted v id = truthy_str (v !! id).
Proof.
  intros Hid. unfold isVoted, read. destruct (v !! id) as [c|]; simpl;
    [reflexivity|]. by rewrite Hid.
Qed.

(** The Next Position button is enabled exactly when [votes] reads as
    truthy under the id of the position on screen. *)
Lemma next_enabled_iff (st : state) :
  next_disabled st = false <->
  exists p, currentPosition st = Some p /\ isVoted (votes st) (pos_id p) = true.
Proof.
  unfold next_disabled.
  destruct (currentPosition st) as [p|].
  - rewrite negb_false_iff. split.
    + intros H. by exists p.
    + intros (q & Hq & H). by injection Hq as <-.
  - split; [discriminate | intros (q & Hq & _); discriminate].
Qed.

(** A progress step button moves to its position whatever has been
    selected. *)
Lemma step_button_moves (st : state) (i : nat) :
  wizard_rendered st = true -> i < totalPositions st ->
  currentStep (step st (ClickStep i)) = i.
Proof.
  intros Hr Hi. simpl. rewrite Hr. simpl.
  apply Nat.ltb_lt in Hi. rewrite Hi. reflexivity.
Qed.

(** C3 (amended).  Whenever an event moves the wizard to a later position,
    either it is a click on the Next Position button, [votes] reads as
    truthy under the id of the position on screen and the index grows by
    one, or it is a click on one of the progress step buttons, which moves
    to the clicked index.  Where the id of the position on screen is not a
    name that [Object.prototype] defines, the truthy read is a recorded
    selection. *)
Theorem C3_forward_navigation (st : state) (e : event) :
  currentStep st < currentStep (step st e) ->
  (e = ClickNext /\
   (exists p, currentPosition st = Some p /\
      isVoted (votes st) (pos_id p) = true /\
      (inherited (pos_id p) = false -> has_selection st = true)) /\
   currentStep (step st e) = currentStep st + 1) \/
  (exists i, e = ClickStep i /\ currentStep (step st e) = i).
Proof.
  destruct e as [c | | | i | confirmed | res]; simpl; intros Hlt.
  - exfalso. destruct (currentPosition st) as [p|]; [|lia].
    destruct (_ && _); simpl in Hlt; lia.
  - left. destruct (next_rendered st); simpl in Hlt; [|lia].
    destruct (next_disabled st) eqn:Hdis; simpl in Hlt; [lia|].
    split; [reflexivity|]. split.
    { apply next_enabled_iff in Hdis as (p & Hp & Hvoted).
      exists p. split; [exact Hp|]. split; [exact Hvoted|].
      intros Hid. unfold has_selection. rewrite Hp.
      by rewrite <- (isVoted_own _ _ Hid). }
    destruct (handleNext_currentStep st) as [Heq|Heq]; simpl; lia.
  - exfalso. destruct (_ && _); [|lia].
    pose proof (handlePrevious_currentStep st). lia.
  - right. exists i. split; [reflexivity|].
    destruct (_ && _); simpl in *; [reflexivity|lia].
  - exfalso. destruct (_ && _); [|lia].
    rewrite handleSubmit_currentStep in Hlt. lia.
  - exfalso. destruct (submitting st); [|lia].
    rewrite handleSubmit_settled_currentStep in Hlt. lia.
Qed.

Lemma C3_forward_navigation_witness :
  let st := step (loaded "tok" Samples.two_positions ∅) (ClickCandidate "c1") in
  currentStep st < currentStep (step st ClickNext) /\
  ((ClickNext = ClickNext /\
    (exists p, currentPosition st = Some p /\
       isVoted (votes st) (pos_id p) = true /\
       (inherited (pos_id p) = false -> has_selection st = true)) /\
    currentStep (step st ClickNext) = currentStep st + 1) \/
   (exists i, ClickNext = ClickStep i /\ currentStep (step st ClickNext) = i)).
Proof.
  intros st.
  assert (Hlt : currentStep st < currentStep (step st ClickNext))
    by (vm_compute; lia).
  split; [exact Hlt | exact (C3_forward_navigation st ClickNext Hlt)].
Defined.

(** C3 (as stated, refuted).  On the freshly loaded two-position ballot the
    first position has no selection, yet a click on the second progress
    step button moves the wizard from position 0 to position 1. *)
Lemma C3_step_button_skips_unvoted :
  let st := loaded "tok" Samples.two_positions ∅ in
  reachable "tok" Samples.two_positions ∅ st /\
  has_selection st = false /\
  currentStep st = 0 /\
  currentStep (step st (ClickStep 1)) = 1.
Proof.
  intros st. split; [constructor|]. vm_compute. repeat split; reflexivity.
Qed.

(** C2 (amended).  The Submit Vote button is enabled exactly when no
    submission is in flight and the number of positions with a recorded
    selection equals the number of positions of the ballot; the vote
    request is sent only after the confirmation dialog has been accepted;
    and when the request succeeds the stored ballot token is removed. *)
Theorem C2_submit_gate (st : state) :
  (submit_disabled st = false <->
   submitting st = false /\ votedCount st = totalPositions st) /\
  (forall confirmed, (handleSubmit confirmed st).2 = true -> confirmed = true) /\
  (forall t vd, CastVote t vd ∉ (handleSubmit false st).1.2) /\
  localStorage (handleSubmit_settled CastOk st).1 !! "ballotToken" = None.
Proof.
  split; [|split; [|split]].
  - unfold submit_disabled. rewrite orb_false_iff, negb_false_iff, Nat.eqb_eq.
    reflexivity.
  - intros confirmed. unfold handleSubmit.
    destruct (ballotData st) as [b|]; [|discriminate].
    destruct (negb (Nat.eqb _ 0)); [discriminate|].
    destruct confirmed; [reflexivity|discriminate].
  - intros t vd. unfold handleSubmit.
    destruct (ballotData st) as [b|]; simpl; [|apply not_elem_of_nil].
    destruct (negb (Nat.eqb _ 0)); simpl;
      (apply not_elem_of_cons; split; [discriminate | apply not_elem_of_nil]).
  - simpl. apply removeItem_lookup.
Qed.

Lemma C2_submit_gate_witness :
  let st := step (loaded "tok" Samples.one_position
                    (setItem "ballotToken" "tok" ∅)) (ClickCandidate "c1") in
  submit_disabled st = false /\
  localStorage (handleSubmit_settled CastOk st).1 !! "ballotToken" = None.
Proof.
  intros st. destruct (C2_submit_gate st) as [Hiff [_ [_ Hremoved]]].
  split; [apply Hiff; split; reflexivity | exact Hremoved].
Defined.

(** C2 (as stated, refuted).  On a one-position ballot, after the voter has
    selected the candidate and accepted the confirmation dialog, the
    request is in flight: one position out of one has a selection, and the
    Submit Vote button is disabled. *)
Lemma C2_disabled_while_submitting :
  let st0 := loaded "tok" Samples.one_position (setItem "ballotToken" "tok" ∅) in
  let st := step (step st0 (ClickCandidate "c1")) (ClickSubmit true) in
  reachable "tok" Samples.one_position (setItem "ballotToken" "tok" ∅) st /\
  votedCount st = 1 /\ totalPositions st = 1 /\
  submit_rendered st = true /\
  submit_disabled st = true.
Proof.
  intros st0 st. split; [do 2 constructor; constructor|].
  vm_compute. repeat split; reflexivity.
Qed.

(** *** Invariants of the reachable wizard states *)

Lemma handleSubmit_frame (confirmed : bool) (st : state) :
  let st' := (handleSubmit confirmed st).1.1 in
  ballotData st' = ballotData st /\ loading st' = loading st /\
  votes st' = votes st /\ currentStep st' = currentStep st.
Proof.
  unfold handleSubmit. destruct (ballotData st) as [b|] eqn:Hb; simpl; [|auto].
  destruct (negb (Nat.eqb _ 0)); simpl; [auto|].
  destruct confirmed; simpl; auto.
Qed.

Lemma wizard_inv_step (b : BallotData) (st : state) (e : event) :
  wizard_inv b st -> wizard_inv b (step st e).
Proof.
  intros (Hb & Hload & Hkeys & Hidx).
  destruct e as [c | | | i | confirmed | res]; simpl.
  - destruct (currentPosition st) as [p|] eqn:Hp;
      [|by repeat split].
    destruct (_ && _); [|by repeat split].
    repeat split; simpl; try assumption.
    intros q d Hq.
    destruct (decide (pos_id p = q)) as [<-|Hne].
    + unfold currentPosition in Hp. rewrite Hb in Hp. simpl in Hp.
      apply list_elem_of_fmap. exists p. split; [reflexivity|].
      by apply list_elem_of_lookup_2 in Hp.
    + rewrite handleVoteChange_frame in Hq by exact Hne. by eapply Hkeys.
  - destruct (_ && _); [|by repeat split].
    unfold handleNext, totalPositions. rewrite Hb.
    destruct (Nat.ltb _ _) eqn:Hlt; [|by repeat split].
    repeat split; simpl; try assumption.
    apply Nat.ltb_lt in Hlt. right. lia.
  - destruct (_ && _); [|by repeat split].
    unfold handlePrevious.
    destruct (Nat.ltb _ _) eqn:Hlt; [|by repeat split].
    repeat split; simpl; try assumption. lia.
  - unfold totalPositions. rewrite Hb.
    destruct (wizard_rendered st); simpl; [|by repeat split].
    destruct (Nat.ltb _ _) eqn:Hlt; [|by repeat split].
    repeat split; simpl; try assumption.
    apply Nat.ltb_lt in Hlt. by right.
  - destruct (_ && _); [|by repeat split].
    unfold wizard_inv.
    destruct (handleSubmit_frame confirmed st) as (-> & -> & -> & ->).
    by repeat split.
  - destruct (submitting st); [|by repeat split].
    unfold wizard_inv.
    destruct (handleSubmit_settled_frame res st) as (-> & -> & -> & ->).
    by repeat split.
Qed.

Lemma reachable_inv (token : string) (b : BallotData) (ls : storage)
    (st : state) :
  reachable token b ls st -> wizard_inv b st.
Proof.
  induction 1 as [|st e _ IH].
  - repeat split; simpl; [|by left]. intros p c Hp.
    by rewrite lookup_empty in Hp.
  - by apply wizard_inv_step.
Qed.

(** When the ballot lists each position once, the count that enables the
    Submit Vote button is reached exactly when every position of the
    ballot has an entry in [votes]. *)
Lemma reachable_count_all_positions (token : string) (b : BallotData)
    (ls : storage) (st : state) :
  reachable token b ls st ->
  NoDup (map pos_id (positions b)) ->
  (votedCount st = totalPositions st <->
   forall pos, pos ∈ positions b -> is_Some (votes st !! pos_id pos)).
Proof.
  intros Hreach Hnodup.
  destruct (reachable_inv _ _ _ _ Hreach) as (Hb & _ & Hkeys & _).
  unfold votedCount, totalPositions. rewrite Hb.
  set (ids := map pos_id (positions b)) in *.
  assert (Hsub : dom (votes st) ⊆ (list_to_set ids : gset string)).
  { intros p Hp. apply elem_of_dom in Hp as [c Hc].
    apply elem_of_list_to_set. by eapply Hkeys. }
  assert (Hlen : size (list_to_set ids : gset string) = length (positions b)).
  { rewrite size_list_to_set by exact Hnodup. unfold ids.
    apply length_map. }
  rewrite <- size_dom, <- Hlen. split.
  - intros Hsize pos Hpos.
    assert (Heq : dom (votes st) = list_to_set ids)
      by (apply set_subseteq_size_eq; [exact Hsub | lia]).
    apply elem_of_dom. rewrite Heq. apply elem_of_list_to_set.
    apply list_elem_of_fmap. by exists pos.
  - intros Hall. f_equal. apply set_eq. intros p. split; [apply Hsub|].
    intros Hp. apply elem_of_list_to_set in Hp.
    apply list_elem_of_fmap in Hp as (pos & -> & Hpos).
    apply elem_of_dom. by apply Hall.
Qed.

End VotingPageFacts.

(** ** The route guard *)

Section ProtectedRouteFacts.
Import JS Browser ProtectedRoute.

Variable JSON_parse : string -> option json.

Lemma truthy_str_Some (s : string) : s ≠ "" -> truthy_str (Some s) = true.
Proof.
  intros Hne. simpl. apply negb_true_iff. by apply String.eqb_neq.
Qed.

Lemma is_str_role_name (r r' : Role) :
  is_str (Some (JStr (role_name r))) (role_name r') = bool_decide (r = r').
Proof. destruct r, r'; reflexivity. Qed.

Lemma clear_session_lookup (ls : storage) :
  clear_session ls !! "token" = None /\ clear_session ls !! "user" = None.
Proof.
  unfold clear_session, removeItem. split.
  - rewrite lookup_delete_ne by discriminate. apply lookup_delete_eq.
  - apply lookup_delete_eq.
Qed.

(** The guard with a token and a user text in storage comes down to the
    [try] block and its [catch]. *)
Lemma ProtectedRoute_session (requiredRole : option Role) (ls : storage)
    (t u : string) :
  ls !! "token" = Some t -> t ≠ "" -> ls !! "user" = Some u -> u ≠ "" ->
  ProtectedRoute JSON_parse requiredRole ls =
  match guarded JSON_parse requiredRole u ls with
  | Some r => r
  | None => (Navigate "/login", clear_session ls)
  end.
Proof.
  intros Ht Htne Hu Hune. unfold ProtectedRoute, getItem.
  rewrite Ht, Hu, (truthy_str_Some t Htne), (truthy_str_Some u Hune).
  reflexivity.
Qed.

(** No token or no user text: login, storage untouched. *)
Lemma ProtectedRoute_no_session (requiredRole : option Role) (ls : storage) :
  truthy_str (ls !! "token") = false \/ truthy_str (ls !! "user") = false ->
  ProtectedRoute JSON_parse requiredRole ls = (Navigate "/login", ls).
Proof.
  intros Hmiss. unfold ProtectedRoute, getItem.
  destruct Hmiss as [H|H]; rewrite H; simpl; [reflexivity|].
  by rewrite orb_true_r.
Qed.

(** A user text that does not parse: storage cleared, login. *)
Lemma ProtectedRoute_malformed (requiredRole : option Role) (ls : storage)
    (t u : string) :
  ls !! "token" = Some t -> t ≠ "" -> ls !! "user" = Some u -> u ≠ "" ->
  JSON_parse u = None ->
  ProtectedRoute JSON_parse requiredRole ls =
  (Navigate "/login", clear_session ls).
Proof.
  intros Ht Htne Hu Hune Hparse.
  rewrite (ProtectedRoute_session _ _ _ _ Ht Htne Hu Hune).
  unfold guarded. rewrite Hparse. reflexivity.
Qed.

(** A session that is not inactive, on a page of another role: the
    dashboard of the session's own role, storage untouched. *)
Lemma ProtectedRoute_wrong_role (required actual : Role) (ls : storage)
    (t u : string) (user : json) (status : option json) :
  ls !! "token" = Some t -> t ≠ "" -> ls !! "user" = Some u -> u ≠ "" ->
  JSON_parse u = Some user ->
  get_prop user "status" = Some status -> is_str status "INACTIVE" = false ->
  get_prop user "role" = Some (Some (JStr (role_name actual))) ->
  actual ≠ required ->
  ProtectedRoute JSON_parse (Some required) ls =
  (Navigate (dashboard actual), ls).
Proof.
  intros Ht Htne Hu Hune Hparse Hstatus Hactive Hrole Hne.
  rewrite (ProtectedRoute_session _ _ _ _ Ht Htne Hu Hune).
  unfold guarded. rewrite Hparse. simpl. rewrite Hstatus. simpl.
  rewrite Hrole. simpl. rewrite Hactive.
  change (role_name actual =? role_name required)
    with (is_str (Some (JStr (role_name actual))) (role_name required)).
  rewrite is_str_role_name, bool_decide_eq_false_2 by done.
  destruct actual; reflexivity.
Qed.

(** A matching role, or a page without a required role, renders the page. *)
Lemma ProtectedRoute_right_role (required : Role) (ls : storage)
    (t u : string) (user : json) (status : option json) :
  ls !! "token" = Some t -> t ≠ "" -> ls !! "user" = Some u -> u ≠ "" ->
  JSON_parse u = Some user ->
  get_prop user "status" = Some status -> is_str status "INACTIVE" = false ->
  get_prop user "role" = Some (Some (JStr (role_name required))) ->
  ProtectedRoute JSON_parse (Some required) ls = (Children, ls).
Proof.
  intros Ht Htne Hu Hune Hparse Hstatus Hactive Hrole.
  rewrite (ProtectedRoute_session _ _ _ _ Ht Htne Hu Hune).
  unfold guarded. rewrite Hparse. simpl. rewrite Hstatus. simpl.
  rewrite Hrole. simpl. rewrite Hactive.
  change (role_name required =? role_name required)
    with (is_str (Some (JStr (role_name required))) (role_name required)).
  rewrite is_str_role_name, bool_decide_eq_true_2 by done.
  reflexivity.
Qed.

(** An inactive officer sees the deactivation notice on every page, with
    the session left in storage. *)
Lemma ProtectedRoute_inactive_officer (requiredRole : option Role)
    (ls : storage) (t u : string) (user : json) :
  ls !! "token" = Some t -> t ≠ "" -> ls !! "user" = Some u -> u ≠ "" ->
  JSON_parse u = Some user ->
  get_prop user "status" = Some (Some (JStr "INACTIVE")) ->
  get_prop user "role" = Some (Some (JStr "OFFICER")) ->
  ProtectedRoute JSON_parse requiredRole ls = (AccountDeactivated, ls).
Proof.
  intros Ht Htne Hu Hune Hparse Hstatus Hrole.
  rewrite (ProtectedRoute_session _ _ _ _ Ht Htne Hu Hune).
  unfold guarded. rewrite Hparse. simpl. rewrite Hstatus. simpl.
  rewrite Hrole. reflexivity.
Qed.

(** C5 (amended).  With no token or no user text in storage the guard
    redirects to /login; with a user text that does not parse it clears the
    token and the user and redirects to /login; and with a session whose
    status is not INACTIVE and whose role differs from the role the page
    requires it redirects to the dashboard of the session's own role. *)
Theorem C5_route_guard (ls : storage) :
  (forall requiredRole,
     truthy_str (ls !! "token") = false \/ truthy_str (ls !! "user") = false ->
     ProtectedRoute JSON_parse requiredRole ls = (Navigate "/login", ls)) /\
  (forall requiredRole t u,
     ls !! "token" = Some t -> t ≠ "" -> ls !! "user" = Some u -> u ≠ "" ->
     JSON_parse u = None ->
     ProtectedRoute JSON_parse requiredRole ls =
       (Navigate "/login", clear_session ls) /\
     clear_session ls !! "token" = None /\
     clear_session ls !! "user" = None) /\
  (forall required actual t u user status,
     ls !! "token" = Some t -> t ≠ "" -> ls !! "user" = Some u -> u ≠ "" ->
     JSON_parse u = Some user ->
     get_prop user "status" = Some status ->
     is_str status "INACTIVE" = false ->
     get_prop user "role" = Some (Some (JStr (role_name actual))) ->
     actual ≠ required ->
     ProtectedRoute JSON_parse (Some required) ls =
       (Navigate (dashboard actual), ls)).
Proof.
  split; [|split].
  - intros requiredRole. apply ProtectedRoute_no_session.
  - intros requiredRole t u Ht Htne Hu Hune Hparse. split.
    + by apply (ProtectedRoute_malformed requiredRole ls t u).
    + apply clear_session_lookup.
  - intros required actual t u user status. apply ProtectedRoute_wrong_role.
Qed.

(** C10.  With a token and a user text in storage, when the user's status
    is INACTIVE and their role is anything but OFFICER, the guard of every
    page removes the token and the user from storage and redirects to
    /login; the deactivation notice is what an inactive officer gets. *)
Theorem C10_inactive_non_officer (requiredRole : option Role) (ls : storage)
    (t u : string) (user : json) (role : option json) :
  ls !! "token" = Some t -> t ≠ "" -> ls !! "user" = Some u -> u ≠ "" ->
  JSON_parse u = Some user ->
  get_prop user "status" = Some (Some (JStr "INACTIVE")) ->
  get_prop user "role" = Some role ->
  is_str role "OFFICER" = false ->
  let out := ProtectedRoute JSON_parse requiredRole ls in
  out.1 = Navigate "/login" /\
  out.1 ≠ AccountDeactivated /\
  out.2 !! "token" = None /\
  out.2 !! "user" = None.
Proof.
  intros Ht Htne Hu Hune Hparse Hstatus Hrole Hnot out. subst out.
  rewrite (ProtectedRoute_session _ _ _ _ Ht Htne Hu Hune).
  unfold guarded. rewrite Hparse. simpl. rewrite Hstatus. simpl.
  rewrite Hrole. simpl. rewrite Hnot. simpl.
  split; [reflexivity|]. split; [discriminate|]. apply clear_session_lookup.
Qed.

End ProtectedRouteFacts.

Section ProtectedRouteExamples.
Import JS Browser ProtectedRoute.

Lemma C5_route_guard_witness :
  ProtectedRoute Samples.parse_user (Some ADMIN) ∅ = (Navigate "/login", ∅) /\
  ProtectedRoute Samples.parse_user (Some ADMIN)
    (setItem "user" "{not json" (setItem "token" "eyJhbGciOi" ∅))
  = (Navigate "/login", ∅) /\
  ProtectedRoute Samples.parse_user (Some ADMIN)
    (Samples.session "CANDIDATE" "ACTIVE")
  = (Navigate "/candidate/dashboard", Samples.session "CANDIDATE" "ACTIVE").
Proof.
  split; [|split].
  - apply (proj1 (C5_route_guard Samples.parse_user ∅)). left. reflexivity.
  - pose proof (proj1 (proj2 (C5_route_guard Samples.parse_user
      (setItem "user" "{not json" (setItem "token" "eyJhbGciOi" ∅))))
      (Some ADMIN) "eyJhbGciOi" "{not json") as H.
    destruct H as [H _]; [reflexivity|discriminate|reflexivity|discriminate
                         |reflexivity|].
    rewrite H. reflexivity.
  - apply (proj2 (proj2 (C5_route_guard Samples.parse_user
      (Samples.session "CANDIDATE" "ACTIVE")))
      ADMIN CANDIDATE "eyJhbGciOi" (Samples.user_text "CANDIDATE" "ACTIVE")
      (Samples.user_value "CANDIDATE" "ACTIVE") (Some (JStr "ACTIVE")));
    try reflexivity; discriminate.
Defined.

(** C5 (as stated, refuted).  An inactive officer who visits an admin page
    has a role that differs from the required one, and is shown the
    deactivation notice instead of being sent to /officer/dashboard; an
    inactive admin who visits the officer page is sent to /login, not to
    /admin/dashboard. *)
Lemma C5_inactive_session_not_sent_to_dashboard :
  ProtectedRoute Samples.parse_user (Some ADMIN)
    (Samples.session "OFFICER" "INACTIVE")
  = (AccountDeactivated, Samples.session "OFFICER" "INACTIVE") /\
  ProtectedRoute Samples.parse_user (Some OFFICER)
    (Samples.session "ADMIN" "INACTIVE")
  = (Navigate "/login", ∅).
Proof. split; vm_compute; reflexivity. Qed.

Lemma C10_inactive_non_officer_witness :
  let out :=
    ProtectedRoute Samples.parse_user (Some ADMIN)
      (Samples.session "ADMIN" "INACTIVE") in
  out.1 = Navigate "/login" /\
  out.1 ≠ AccountDeactivated /\
  out.2 !! "token" = None /\
  out.2 !! "user" = None.
Proof.
  apply (C10_inactive_non_officer Samples.parse_user (Some ADMIN)
           (Samples.session "ADMIN" "INACTIVE")
           "eyJhbGciOi" (Samples.user_text "ADMIN" "INACTIVE")
           (Samples.user_value "ADMIN" "INACTIVE") (Some (JStr "ADMIN")));
    try reflexivity; discriminate.
Defined.

End ProtectedRouteExamples.

(** ** Unified login and the voter OTP requests *)

Section OTPFacts.
Import JS Browser OTP.

Lemma or_str_nonempty (x : option string) (d : string) :
  d ≠ "" -> or_str x d ≠ "".
Proof.
  intros Hd. destruct x as [s|]; simpl; [|exact Hd].
  destruct (s =? "") eqn:E; [exact Hd|]. by apply String.eqb_neq.
Qed.

(** The default of the hint is never empty, so neither is the hint. *)
Lemma errorHint429_nonempty (err : axios_error) : errorHint429 err ≠ "".
Proof. unfold errorHint429. apply or_str_nonempty. discriminate. Qed.

(** With both fields in the body the message is [error. hint]. *)
Lemma rate_limit_message_fields (r : http_response) (e h : string)
    (n : option Z) (msg : string) :
  data r = Some (mk_data (Some e) (Some h) n) -> e ≠ "" -> h ≠ "" ->
  rate_limit_message (mk_error (Some r) msg) = e +:+ ". " +:+ h.
Proof.
  intros Hdata He Hh.
  unfold rate_limit_message, errorMessage429, errorHint429,
    data_error, data_hint. simpl. rewrite Hdata. simpl.
  apply String.eqb_neq in He, Hh. rewrite He, Hh. reflexivity.
Qed.

(** Without a body both defaults are used, with a delay of 60 seconds. *)
Example rate_limit_message_defaults :
  rate_limit_message Samples.rate_limited_bare
  = "Too many requests. Please wait 60 seconds before trying again".
Proof. reflexivity. Qed.

(** The timers of the interceptor are neither messages nor requests nor
    router navigation. *)
Lemma interceptor_timers_silent (out : ApiClient.outcome) (l : list effect) :
  displayed (interceptor_timers out ++ l) = displayed l /\
  requests (interceptor_timers out ++ l) = requests l /\
  navigation (interceptor_timers out ++ l) = navigation l.
Proof.
  unfold interceptor_timers.
  induction (ApiClient.out_timers out) as [|t ts IH]; simpl; [auto|exact IH].
Qed.

Lemma onUnifiedLogin_catch_navigation (err : axios_error) :
  navigation (onUnifiedLogin_catch err) = None.
Proof. unfold onUnifiedLogin_catch. destruct (status_is err 429); reflexivity. Qed.

Lemma onUnifiedLogin_catch_requests (err : axios_error) :
  requests (onUnifiedLogin_catch err) = [].
Proof. unfold onUnifiedLogin_catch. destruct (status_is err 429); reflexivity. Qed.

Section UnifiedLoginFacts.

Variable trim : string -> string.
Variable toUpperCase : string -> string.
Variable toLowerCase : string -> string.

(** The voter branch is the one taken. *)
Lemma onUnifiedLogin_voter (d : UnifiedLoginFormData) (r : string)
    (otp_result : option axios_error) (ls : storage) :
  regNo d = Some r -> hasRegNo trim d = true ->
  hasEmailPassword trim d = false ->
  onUnifiedLogin trim toUpperCase toLowerCase d otp_result ls =
  match otp_result with
  | None =>
      (ls, [SetError ""; SetLoading true;
            Send (RequestOTP (toUpperCase (trim r)));
            ToastSuccess "OTP sent to your phone! Check your SMS.";
            Navigate "/login/otp" (Some (toUpperCase (trim r))) true])
  | Some err =>
      let out := ApiClient.onRejected ls err in
      (ApiClient.out_storage out,
       ([SetError ""; SetLoading true; Send (RequestOTP (toUpperCase (trim r)))]
        ++ interceptor_timers out
        ++ onUnifiedLogin_catch (ApiClient.caught out err))%list)
  end.
Proof.
  intros Hr Hreg Hpw. unfold onUnifiedLogin. rewrite Hpw, Hreg, Hr.
  reflexivity.
Qed.

(** C6 (amended).  A submission of the unified login form with a
    registration number and no email/password pair sends exactly one
    request, the OTP request for the trimmed and uppercased registration
    number; when that request succeeds the client navigates to /login/otp
    with the same normalized number in the navigation state. *)
Theorem C6_voter_branch (d : UnifiedLoginFormData) (r : string)
    (ls : storage) :
  regNo d = Some r -> hasRegNo trim d = true ->
  hasEmailPassword trim d = false ->
  (forall otp_result,
     requests (onUnifiedLogin trim toUpperCase toLowerCase d otp_result ls).2
     = [RequestOTP (toUpperCase (trim r))]) /\
  navigation (onUnifiedLogin trim toUpperCase toLowerCase d None ls).2
  = Some ("/login/otp", Some (toUpperCase (trim r))).
Proof.
  intros Hr Hreg Hpw. split.
  - intros otp_result. rewrite (onUnifiedLogin_voter d r _ ls Hr Hreg Hpw).
    destruct otp_result as [err|]; simpl; [|reflexivity].
    rewrite (proj1 (proj2 (interceptor_timers_silent _ _))).
    by rewrite onUnifiedLogin_catch_requests.
  - rewrite (onUnifiedLogin_voter d r _ ls Hr Hreg Hpw). reflexivity.
Qed.

End UnifiedLoginFacts.

Lemma C6_voter_branch_witness :
  requests (onUnifiedLogin trim_ascii toUpperCase_ascii toLowerCase_ascii
              Samples.voter_form None ∅).2
  = [RequestOTP "M24B13/054"] /\
  navigation (onUnifiedLogin trim_ascii toUpperCase_ascii toLowerCase_ascii
                Samples.voter_form None ∅).2
  = Some ("/login/otp", Some "M24B13/054").
Proof.
  pose proof (C6_voter_branch trim_ascii toUpperCase_ascii toLowerCase_ascii
                Samples.voter_form "  m24b13/054 " ∅
                eq_refl eq_refl eq_refl) as [Hreq Hnav].
  split; [exact (Hreq None) | exact Hnav].
Defined.

(** C6 (as stated, refuted).  The same submission, when the OTP request is
    answered with 429, sends the request but does not navigate to
    /login/otp; the response interceptor leaves a 429 alone. *)
Lemma C6_no_navigation_when_rate_limited :
  let d := Samples.voter_form in
  let out := onUnifiedLogin trim_ascii toUpperCase_ascii toLowerCase_ascii
               d (Some Samples.rate_limited) ∅ in
  hasRegNo trim_ascii d = true /\ hasEmailPassword trim_ascii d = false /\
  requests out.2 = [RequestOTP "M24B13/054"] /\
  navigation out.2 = None /\
  ApiClient.onRejected ∅ Samples.rate_limited
  = ApiClient.mk_outcome ∅ [] ApiClient.RejectOriginal.
Proof. vm_compute. repeat split; reflexivity. Qed.

(** C8 (amended).  On a 429 response, the unified login form, the voter tab
    of the login page and the resend action of the OTP page display one
    message, the error text, a full stop and a space, and the hint (each
    with its default); the request form of the verification page displays
    the error text and the hint as two messages. *)
Theorem C8_rate_limit_display (s : site) (err : axios_error) :
  status_is err 429 = true ->
  (s = HomeUnifiedLogin \/ s = LoginPageVoterTab \/ s = OtpPageResend ->
   displayed (on_failure s err)
   = [or_str (data_error err) "Too many requests" +:+ ". " +:+
      or_str (data_hint err)
        ("Please wait " +:+ num_to_string (retry_seconds err)
         +:+ " seconds before trying again")]) /\
  displayed (on_failure VerificationRequest err)
  = [or_str (data_error err) "Too many requests";
     or_str (data_hint err)
        ("Please wait " +:+ num_to_string (retry_seconds err)
         +:+ " seconds before trying again")].
Proof.
  intros H429. split.
  - intros [-> | [-> | ->]]; simpl;
      unfold onUnifiedLogin_catch, onVoterLogin_catch, handleResendOTP_catch;
      rewrite H429; reflexivity.
  - simpl. unfold onRequestOTP_catch. rewrite H429.
    pose proof (errorHint429_nonempty err) as Hne.
    apply String.eqb_neq in Hne. rewrite Hne. reflexivity.
Qed.

Lemma C8_rate_limit_display_witness :
  displayed (on_failure OtpPageResend Samples.rate_limited)
  = ["Too many OTP requests. Try again in 45 seconds"].
Proof.
  exact (proj1 (C8_rate_limit_display OtpPageResend Samples.rate_limited
                  eq_refl) (or_intror (or_intror eq_refl))).
Defined.

(** C8 (as stated, refuted).  On the verification page a 429 answer to the
    initial request is displayed as two messages, and a 429 answer to the
    resend action as the error text alone; neither is the concatenation. *)
Lemma C8_verification_page_not_concatenated :
  status_is Samples.rate_limited 429 = true /\
  rate_limit_message Samples.rate_limited
  = "Too many OTP requests. Try again in 45 seconds" /\
  displayed (on_failure VerificationRequest Samples.rate_limited)
  = ["Too many OTP requests"; "Try again in 45 seconds"] /\
  displayed (on_failure VerificationResend Samples.rate_limited)
  = ["Too many OTP requests"].
Proof. vm_compute. repeat split; reflexivity. Qed.

End OTPFacts.

(** ** The welcome banner *)

Section DashboardFacts.
Import JS Browser Dashboard.

Variable JSON_parse : string -> option json.
Variable ToNumber : json -> option Z.

(** A single pending dismissal fires once its time has come. *)
Lemma advance_single (later due : Z) (w : option json) (ls : storage) :
  advance later (mk_state w ls [(due, DismissWelcome)]) =
  if (due <=? later)%Z
  then mk_state None (removeItem "welcomeMessage" ls) []
  else mk_state w ls [(due, DismissWelcome)].
Proof.
  unfold advance. simpl. destruct (due <=? later)%Z; reflexivity.
Qed.

(** What the mount effect does with a well-formed record. *)
Lemma welcomeEffect_record (now t : Z) (ls : storage) (text : string)
    (welcome : json) (msg : option json) :
  ls !! "welcomeMessage" = Some text -> text ≠ "" ->
  JSON_parse text = Some welcome ->
  get_prop welcome "message" = Some msg ->
  get_prop welcome "timestamp" = Some (Some (JNum t)) ->
  welcomeEffect JSON_parse ToNumber now (mounted ls) =
  if (now - t <? 30000)%Z
  then mk_state msg ls [((now + 10000)%Z, DismissWelcome)]
  else mk_state None (removeItem "welcomeMessage" ls) [].
Proof.
  intros Hls Hne Hparse Hmsg Hts.
  unfold welcomeEffect, getItem, mounted. simpl. rewrite Hls.
  apply String.eqb_neq in Hne. simpl. rewrite Hne. simpl.
  unfold read_welcome. rewrite Hparse. simpl. rewrite Hts. simpl.
  rewrite Hmsg. simpl. unfold is_recent. simpl.
  destruct (now - t <? 30000)%Z; reflexivity.
Qed.

(** A record that does not parse is deleted and nothing is shown. *)
Lemma welcomeEffect_malformed (now : Z) (ls : storage) (text : string) :
  ls !! "welcomeMessage" = Some text -> text ≠ "" ->
  JSON_parse text = None ->
  welcomeEffect JSON_parse ToNumber now (mounted ls) =
  mk_state None (removeItem "welcomeMessage" ls) [].
Proof.
  intros Hls Hne Hparse.
  unfold welcomeEffect, getItem, mounted. simpl. rewrite Hls.
  apply String.eqb_neq in Hne. simpl. rewrite Hne. simpl.
  unfold read_welcome. rewrite Hparse. reflexivity.
Qed.

(** Without a record the effect does nothing. *)
Lemma welcomeEffect_absent (now : Z) (ls : storage) :
  ls !! "welcomeMessage" = None ->
  welcomeEffect JSON_parse ToNumber now (mounted ls) = mounted ls.
Proof.
  intros Hls. unfold welcomeEffect, getItem. simpl. rewrite Hls. reflexivity.
Qed.

(** C7.  A welcome record with message [m] and timestamp [t], read by the
    mount effect at time [now]: the banner is shown exactly when
    [now - t] is below 30000 ms; an older record is removed from storage
    without being shown; a shown banner stays until 10000 ms have passed
    and from then on is off the screen and out of storage. *)
Theorem C7_welcome_banner (now t : Z) (ls : storage) (text m : string)
    (welcome : json) :
  ls !! "welcomeMessage" = Some text -> text ≠ "" ->
  JSON_parse text = Some welcome ->
  get_prop welcome "message" = Some (Some (JStr m)) -> m ≠ "" ->
  get_prop welcome "timestamp" = Some (Some (JNum t)) ->
  let st := welcomeEffect JSON_parse ToNumber now (mounted ls) in
  (banner_shown st = true <-> (now - t < 30000)%Z) /\
  ((30000 <= now - t)%Z ->
     banner_shown st = false /\
     localStorage st !! "welcomeMessage" = None /\
     timers st = []) /\
  ((now - t < 30000)%Z ->
     welcomeMessage st = Some (JStr m) /\
     (forall later, (now <= later < now + 10000)%Z ->
        banner_shown (advance later st) = true) /\
     (forall later, (now + 10000 <= later)%Z ->
        banner_shown (advance later st) = false /\
        localStorage (advance later st) !! "welcomeMessage" = None)).
Proof.
  intros Hls Hne Hparse Hmsg Hm Hts st. subst st.
  rewrite (welcomeEffect_record now t ls text welcome _ Hls Hne Hparse Hmsg Hts).
  assert (Hshown : truthy (Some (JStr m)) = true).
  { simpl. apply negb_true_iff. by apply String.eqb_neq. }
  destruct (now - t <? 30000)%Z eqn:Hage.
  - apply Z.ltb_lt in Hage. split; [|split].
    + unfold banner_shown. simpl welcomeMessage. rewrite Hshown. tauto.
    + intros Hold. lia.
    + intros _. split; [reflexivity|]. split.
      * intros later [_ Hlater]. rewrite advance_single.
        assert (Hnot : (now + 10000 <=? later)%Z = false)
          by (apply Z.leb_gt; lia).
        rewrite Hnot. exact Hshown.
      * intros later Hlater. rewrite advance_single.
        assert (Hdue : (now + 10000 <=? later)%Z = true)
          by (apply Z.leb_le; lia).
        rewrite Hdue. split; [reflexivity|]. apply removeItem_lookup.
  - apply Z.ltb_ge in Hage. split; [|split].
    + unfold banner_shown. simpl. split; [discriminate | lia].
    + intros _. split; [reflexivity|].
      split; [apply removeItem_lookup | reflexivity].
    + intros Hrecent. lia.
Qed.

End DashboardFacts.

Section DashboardExamples.
Import JS Browser Dashboard.

Lemma C7_welcome_banner_witness :
  let ls : storage :=
    setItem "welcomeMessage"
      (Samples.welcome_text "Welcome back, Ann!" 1700000000000) ∅ in
  let st :=
    welcomeEffect Samples.parse_welcome Samples.no_coercion 1700000005000
      (mounted ls) in
  banner_shown st = true /\
  banner_shown (advance 1700000014999 st) = true /\
  banner_shown (advance 1700000015000 st) = false /\
  localStorage (advance 1700000015000 st) !! "welcomeMessage" = None.
Proof.
  intros ls st.
  pose proof (C7_welcome_banner Samples.parse_welcome Samples.no_coercion
    1700000005000 1700000000000 ls
    (Samples.welcome_text "Welcome back, Ann!" 1700000000000)
    "Welcome back, Ann!"
    (Samples.welcome_value "Welcome back, Ann!" 1700000000000)) as H.
  destruct H as [Hiff [_ Hrecent]];
    [reflexivity | discriminate | reflexivity | reflexivity | discriminate
    | reflexivity |].
  destruct Hrecent as [_ [Hstay Hgone]]; [lia|].
  split; [apply Hiff; lia|].
  split; [apply Hstay; lia|].
  apply Hgone. lia.
Defined.

(** A record read 30 seconds after it was written is deleted unseen. *)
Example welcome_record_expired :
  let ls : storage :=
    setItem "welcomeMessage"
      (Samples.welcome_text "Welcome back, Ann!" 1700000000000) ∅ in
  welcomeEffect Samples.parse_welcome Samples.no_coercion 1700000030000
    (mounted ls)
  = mk_state None ∅ [].
Proof. vm_compute. reflexivity. Qed.

End DashboardExamples.

(** ** The static file server *)

Section ServerFacts.
Import JS Server.

Variable serve_static : request -> static_result.

(** A file name that ends in [.html] ends neither in [.js] nor in [.css]. *)
Lemma endsWith_html_not_script (file : string) :
  endsWith file ".html" = true ->
  endsWith file ".js" = false /\ endsWith file ".css" = false.
Proof.
  unfold endsWith.
  change (String.rev ".html") with "lmth.".
  change (String.rev ".js") with "sj.".
  change (String.rev ".css") with "ssc.".
  destruct (String.rev file) as [|a rest]; cbn [startsWith]; [discriminate|].
  intros H. apply andb_true_iff in H as [Ha _].
  apply Ascii.eqb_eq in Ha. subst a. split; reflexivity.
Qed.

Lemma setHeaders_html (file : string) :
  endsWith file ".html" = true ->
  setHeaders file None = Some "public, max-age=0, must-revalidate".
Proof.
  intros Hhtml. destruct (endsWith_html_not_script file Hhtml) as [Hjs Hcss].
  unfold setHeaders. rewrite Hhtml, Hjs, Hcss. reflexivity.
Qed.

Lemma setHeaders_script (file : string) :
  endsWith file ".js" = true \/ endsWith file ".css" = true ->
  setHeaders file None = Some "public, max-age=31536000, immutable".
Proof.
  intros Hscript. unfold setHeaders.
  assert (H : endsWith file ".js" || endsWith file ".css" = true)
    by (apply orb_true_iff; exact Hscript).
  rewrite H. reflexivity.
Qed.

(** For other files the hook sets no header. *)
Lemma setHeaders_other (file : string) :
  endsWith file ".html" = false -> endsWith file ".js" = false ->
  endsWith file ".css" = false ->
  setHeaders file None = None.
Proof.
  intros Hhtml Hjs Hcss. unfold setHeaders. rewrite Hhtml, Hjs, Hcss.
  reflexivity.
Qed.

(** Other files keep the header [express.static] derives from [maxAge]. *)
Lemma cacheControl_other (file : string) :
  endsWith file ".html" = false -> endsWith file ".js" = false ->
  endsWith file ".css" = false ->
  cacheControl file = "public, max-age=31536000".
Proof.
  intros Hhtml Hjs Hcss. unfold cacheControl.
  by rewrite (setHeaders_other file Hhtml Hjs Hcss).
Qed.


End ServerFacts.

Section ServerExamples.
Import JS Server.



End ServerExamples.

(* ===================================================================== *)
(** * Further properties of the code                                      *)
(* ===================================================================== *)

(** Refutes membership of an element in an explicit list of other
    elements. *)
Ltac no_member H :=
  repeat (apply elem_of_cons in H as [H|H]; [discriminate|]);
  by apply elem_of_nil in H.

(** ** Trimming and uppercasing *)

Section NormalizeFacts.
Import JS.

Lemma append_assoc (s t u : string) : (s +:+ t) +:+ u = s +:+ t +:+ u.
Proof.
  induction s as [|a s IH]; [reflexivity|].
  change ((String a s +:+ t) +:+ u) with (String a ((s +:+ t) +:+ u)).
  by rewrite IH.
Qed.

Lemma rev_app_append (s t : string) :
  String.rev_app s t = String.rev s +:+ t.
Proof.
  unfold String.rev. revert t. induction s as [|a s IH]; intros t; simpl.
  - reflexivity.
  - rewrite (IH (String a t)), (IH (String a "")).
    rewrite append_assoc. reflexivity.
Qed.

Lemma rev_cons (a : ascii) (s : string) :
  String.rev (String a s) = String.rev s +:+ String a "".
Proof. unfold String.rev at 1. simpl. apply rev_app_append. Qed.

Lemma append_empty_r (s : string) : s +:+ "" = s.
Proof.
  induction s as [|a s IH]; [reflexivity|].
  change (String a s +:+ "") with (String a (s +:+ "")). by rewrite IH.
Qed.

Lemma rev_snoc (s : string) (a : ascii) :
  String.rev (s +:+ String a "") = String a (String.rev s).
Proof.
  induction s as [|b s IH]; [reflexivity|].
  change (String b s +:+ String a "") with (String b (s +:+ String a "")).
  rewrite !rev_cons, IH. reflexivity.
Qed.

Lemma rev_involutive (s : string) : String.rev (String.rev s) = s.
Proof.
  induction s as [|a s IH]; [reflexivity|].
  rewrite rev_cons, rev_snoc, IH. reflexivity.
Qed.

Lemma map_string_append (f : ascii -> ascii) (s t : string) :
  map_string f (s +:+ t) = map_string f s +:+ map_string f t.
Proof.
  induction s as [|a s IH]; [reflexivity|].
  change (String a s +:+ t) with (String a (s +:+ t)). simpl.
  rewrite IH. reflexivity.
Qed.

Lemma map_string_rev (f : ascii -> ascii) (s : string) :
  map_string f (String.rev s) = String.rev (map_string f s).
Proof.
  induction s as [|a s IH]; [reflexivity|].
  simpl map_string at 2. rewrite !rev_cons, map_string_append, IH.
  reflexivity.
Qed.

Lemma is_ws_upper (a : ascii) : is_ws (upper_ascii a) = is_ws a.
Proof. destruct a as [[] [] [] [] [] [] [] []]; reflexivity. Qed.

Lemma trimStart_upper (s : string) :
  trimStart (toUpperCase_ascii s) = toUpperCase_ascii (trimStart s).
Proof.
  unfold toUpperCase_ascii. induction s as [|a s IH]; [reflexivity|].
  simpl. rewrite is_ws_upper. destruct (is_ws a); [exact IH | reflexivity].
Qed.

(** Uppercasing and trimming commute. *)
Lemma trim_upper (s : string) : trim_ascii (toUpperCase_ascii s) = toUpperCase_ascii (trim_ascii s).
Proof.
  unfold trim_ascii, trimEnd. rewrite trimStart_upper.
  unfold toUpperCase_ascii.
  rewrite <- (map_string_rev upper_ascii (trimStart s)).
  change (map_string upper_ascii) with toUpperCase_ascii.
  rewrite trimStart_upper. unfold toUpperCase_ascii.
  by rewrite map_string_rev.
Qed.

Lemma trimStart_snoc (s : string) (a : ascii) :
  is_ws a = false ->
  trimStart (s +:+ String a "") = trimStart s +:+ String a "".
Proof.
  intros Ha. induction s as [|b s IH].
  - simpl. by rewrite Ha.
  - change (String b s +:+ String a "") with (String b (s +:+ String a "")).
    simpl. destruct (is_ws b); [exact IH | reflexivity].
Qed.

(** Trimming the end keeps a first character that is not white space. *)
Lemma trimEnd_cons (a : ascii) (s : string) :
  is_ws a = false ->
  trimEnd (String a s) = String a (trimEnd s).
Proof.
  intros Ha. unfold trimEnd.
  rewrite rev_cons, (trimStart_snoc _ _ Ha), rev_snoc. reflexivity.
Qed.

Lemma trimEnd_idempotent (s : string) : trimEnd (trimEnd s) = trimEnd s.
Proof.
  unfold trimEnd. by rewrite rev_involutive, trimStart_idempotent.
Qed.

Lemma trim_idempotent (s : string) : trim_ascii (trim_ascii s) = trim_ascii s.
Proof.
  unfold trim_ascii.
  assert (H : trimStart (trimEnd (trimStart s)) = trimEnd (trimStart s)).
  { destruct (trimStart s) as [|a r] eqn:E; [reflexivity|].
    pose proof (trimStart_head s a r E) as Ha.
    rewrite (trimEnd_cons a r Ha). simpl. by rewrite Ha. }
  rewrite H. apply trimEnd_idempotent.
Qed.

Lemma toUpperCase_empty (s : string) : toUpperCase_ascii s = "" -> s = "".
Proof. destruct s; [reflexivity | discriminate]. Qed.

Lemma is_ascii_append (s t : string) :
  is_ascii (s +:+ t) = is_ascii s && is_ascii t.
Proof.
  induction s as [|a s IH]; [reflexivity|].
  change (String a s +:+ t) with (String a (s +:+ t)). simpl.
  by rewrite IH, andb_assoc.
Qed.

Lemma is_ascii_rev (s : string) : is_ascii (String.rev s) = is_ascii s.
Proof.
  induction s as [|a s IH]; [reflexivity|].
  rewrite rev_cons, is_ascii_append, IH. simpl.
  by rewrite andb_true_r, andb_comm.
Qed.

Lemma is_ascii_trimStart (s : string) :
  is_ascii s = true -> is_ascii (trimStart s) = true.
Proof.
  induction s as [|a s IH]; simpl; [reflexivity|].
  intros H. destruct (is_ws a); [|exact H].
  apply andb_true_iff in H as [_ H]. by apply IH.
Qed.

Lemma is_ascii_trim (s : string) :
  is_ascii s = true -> is_ascii (trim_ascii s) = true.
Proof.
  intros H. unfold trim_ascii, trimEnd.
  rewrite is_ascii_rev. apply is_ascii_trimStart.
  rewrite is_ascii_rev. by apply is_ascii_trimStart.
Qed.

Lemma is_ascii_char_upper (a : ascii) :
  is_ascii_char (upper_ascii a) = is_ascii_char a.
Proof. destruct a as [[] [] [] [] [] [] [] []]; reflexivity. Qed.

Lemma is_ascii_toUpperCase (s : string) :
  is_ascii (toUpperCase_ascii s) = is_ascii s.
Proof.
  unfold toUpperCase_ascii. induction s as [|a s IH]; simpl; [reflexivity|].
  by rewrite is_ascii_char_upper, IH.
Qed.

(** On ASCII text, trimming and uppercasing twice is the same as once. *)
Lemma normalize_ascii_idempotent (r : string) :
  toUpperCase_ascii (trim_ascii (toUpperCase_ascii (trim_ascii r)))
  = toUpperCase_ascii (trim_ascii r).
Proof. by rewrite trim_upper, toUpperCase_idempotent, trim_idempotent. Qed.

Section Builtins.

(** [String.prototype.trim] and [String.prototype.toUpperCase], which on
    ASCII text compute what [trim_ascii] and [toUpperCase_ascii] do. *)
Variable trim : string -> string.
Variable toUpperCase : string -> string.
Hypothesis trim_on_ascii :
  forall s, is_ascii s = true -> trim s = trim_ascii s.
Hypothesis toUpperCase_on_ascii :
  forall s, is_ascii s = true -> toUpperCase s = toUpperCase_ascii s.

Lemma normalize_on_ascii (r : string) :
  is_ascii r = true ->
  OTP.normalize trim toUpperCase r = toUpperCase_ascii (trim_ascii r) /\
  is_ascii (OTP.normalize trim toUpperCase r) = true.
Proof.
  intros Hr. unfold OTP.normalize.
  rewrite (trim_on_ascii r Hr).
  rewrite (toUpperCase_on_ascii _ (is_ascii_trim r Hr)).
  split; [reflexivity|].
  rewrite is_ascii_toUpperCase. by apply is_ascii_trim.
Qed.

(** The normalized form of an ASCII registration number is a fixed point
    of [normalize]. *)
Lemma normalize_idempotent (r : string) :
  is_ascii r = true ->
  OTP.normalize trim toUpperCase (OTP.normalize trim toUpperCase r)
  = OTP.normalize trim toUpperCase r.
Proof.
  intros Hr. destruct (normalize_on_ascii r Hr) as [Heq Hascii].
  rewrite (proj1 (normalize_on_ascii _ Hascii)), Heq.
  apply normalize_ascii_idempotent.
Qed.

Lemma normalize_nonempty (r : string) :
  is_ascii r = true -> trim r ≠ "" -> OTP.normalize trim toUpperCase r ≠ "".
Proof.
  intros Hr Hne. rewrite (proj1 (normalize_on_ascii r Hr)).
  rewrite (trim_on_ascii r Hr) in Hne.
  intros Hnorm. apply Hne. by apply toUpperCase_empty.
Qed.

End Builtins.

End NormalizeFacts.

(** ** The interceptors *)

Section InterceptorFacts.
Import JS Browser.

(** An error has one status. *)
Lemma status_is_unique (err : axios_error) (n m : Z) :
  status_is err n = true -> n ≠ m -> status_is err m = false.
Proof.
  unfold status_is. destruct (response err) as [r|]; [|discriminate].
  intros Hn Hne. apply Z.eqb_eq in Hn. apply Z.eqb_neq. congruence.
Qed.

(** The interceptor leaves every storage key but [token] and [user]. *)
Lemma onRejected_storage_frame (ls : storage) (err : axios_error) (k : string) :
  k ≠ "token" -> k ≠ "user" ->
  ApiClient.out_storage (ApiClient.onRejected ls err) !! k = ls !! k.
Proof.
  intros Ht Hu. destruct (status_is err 401) eqn:H401.
  - rewrite (onRejected_401_storage ls err H401). unfold removeItem.
    rewrite lookup_delete_ne by done. by rewrite lookup_delete_ne.
  - by rewrite (onRejected_other_status ls err H401).
Qed.

(** The error that reaches the caller's [catch]: the original one, unless
    the status is 401 and the text is taken for an expired token. *)
Lemma caught_replaced (ls : storage) (err : axios_error) :
  status_is err 401 = true ->
  ApiClient.indicates_expired (or_str (data_error err) "") = true ->
  ApiClient.caught (ApiClient.onRejected ls err) err
  = mk_error None "Your session has expired. Please log in again.".
Proof.
  intros H401 Hexp. unfold ApiClient.onRejected. by rewrite H401, Hexp.
Qed.

Lemma caught_original (ls : storage) (err : axios_error) :
  status_is err 401 = false \/
  ApiClient.indicates_expired (or_str (data_error err) "") = false ->
  ApiClient.caught (ApiClient.onRejected ls err) err = err.
Proof.
  intros H. unfold ApiClient.onRejected.
  destruct (status_is err 401); [|reflexivity].
  destruct H as [H|H]; [discriminate|]. rewrite H.
  destruct (ApiClient.indicates_deactivation _); reflexivity.
Qed.

(** The two steps of the request interceptor are independent. *)
Lemma onRequest_unfold (now : Z) (ls : storage) (c : ApiRequest.config) :
  ApiRequest.onRequest now ls c =
  ApiRequest.mk_config (ApiRequest.method c)
    (if truthy_str (ls !! "token")
     then <["Authorization" := "Bearer " +:+ default "" (ls !! "token")]>
            (ApiRequest.headers c)
     else ApiRequest.headers c)
    (if ApiRequest.is_get c
     then Some (<["_t" := JNum now]> (default ∅ (ApiRequest.params c)))
     else ApiRequest.params c).
Proof.
  unfold ApiRequest.onRequest, getItem, ApiRequest.is_get.
  destruct c as [m h p]. simpl.
  destruct (truthy_str (ls !! "token")); simpl;
    destruct m as [m|]; simpl; try reflexivity;
    destruct ((m =? "get") || (m =? "GET")); reflexivity.
Qed.

(** X1.  The request interceptor leaves the method alone, changes no header
    but Authorization and no parameter but [_t]: with a non-empty stored
    token the Authorization header becomes "Bearer " followed by the token,
    without one the headers are untouched; a request whose method is
    [get] or [GET] gets [_t] set to the current time, any other request
    keeps its parameters. *)
Theorem X1_request_interceptor_frame (now : Z) (ls : storage)
    (c : ApiRequest.config) :
  let c' := ApiRequest.onRequest now ls c in
  ApiRequest.method c' = ApiRequest.method c /\
  (forall k, k ≠ "Authorization" ->
     ApiRequest.headers c' !! k = ApiRequest.headers c !! k) /\
  (forall t, ls !! "token" = Some t -> t ≠ "" ->
     ApiRequest.headers c' !! "Authorization" = Some ("Bearer " +:+ t)) /\
  (truthy_str (ls !! "token") = false ->
     ApiRequest.headers c' = ApiRequest.headers c) /\
  (ApiRequest.is_get c = true ->
     exists p, ApiRequest.params c' = Some p /\
       p !! "_t" = Some (JNum now) /\
       forall k, k ≠ "_t" -> p !! k = default ∅ (ApiRequest.params c) !! k) /\
  (ApiRequest.is_get c = false ->
     ApiRequest.params c' = ApiRequest.params c).
Proof.
  intros c'. subst c'. rewrite onRequest_unfold. simpl.
  split; [reflexivity|].
  split.
  { intros k Hk. destruct (truthy_str _); [|reflexivity].
    by apply lookup_insert_ne. }
  split.
  { intros t Ht Hne. rewrite Ht, (truthy_str_Some t Hne). simpl.
    apply lookup_insert_eq. }
  split.
  { intros Hno. by rewrite Hno. }
  split.
  - intros Hget. rewrite Hget. eexists. split; [reflexivity|].
    split; [apply lookup_insert_eq|].
    intros k Hk. by apply lookup_insert_ne.
  - intros Hget. by rewrite Hget.
Qed.

Lemma X1_request_interceptor_frame_witness :
  let c := ApiRequest.mk_config (Some "GET") ∅ None in
  let c' := ApiRequest.onRequest 1700000000000
              (setItem "token" "eyJhbGciOi" ∅) c in
  ApiRequest.headers c' !! "Authorization" = Some "Bearer eyJhbGciOi" /\
  exists p, ApiRequest.params c' = Some p /\
            p !! "_t" = Some (JNum 1700000000000).
Proof.
  intros c c'.
  destruct (X1_request_interceptor_frame 1700000000000
              (setItem "token" "eyJhbGciOi" ∅) c)
    as (_ & _ & Hauth & _ & Hget & _).
  split.
  - apply (Hauth "eyJhbGciOi"); [reflexivity | discriminate].
  - destruct (Hget eq_refl) as (p & Hp & Ht & _). by exists p.
Defined.

(** X2.  Whatever the error, the response interceptor touches no storage
    key other than [token] and [user], never adds a key, schedules at most
    one timer, a move to /login after 100 ms, and does nothing at all when
    the status is not 401. *)
Theorem X2_response_interceptor_bounds (ls : storage) (err : axios_error) :
  let out := ApiClient.onRejected ls err in
  (forall k, k ≠ "token" -> k ≠ "user" ->
     ApiClient.out_storage out !! k = ls !! k) /\
  ApiClient.out_storage out ⊆ ls /\
  (ApiClient.out_timers out = [] \/
   ApiClient.out_timers out = [(100%Z, ApiClient.SetLocationHref "/login")]) /\
  (status_is err 401 = false ->
     out = ApiClient.mk_outcome ls [] ApiClient.RejectOriginal).
Proof.
  simpl. destruct (status_is err 401) eqn:H401.
  - rewrite (onRejected_401_storage ls err H401).
    split; [|split; [|split]].
    + intros k Ht Hu. unfold removeItem.
      rewrite lookup_delete_ne by done. by rewrite lookup_delete_ne.
    + unfold removeItem. etrans; apply delete_subseteq.
    + unfold ApiClient.onRejected. rewrite H401.
      destruct (ApiClient.indicates_expired _); [by right|].
      destruct (ApiClient.indicates_deactivation _); [by left | by right].
    + discriminate.
  - rewrite (onRejected_other_status ls err H401). simpl.
    split; [reflexivity|]. split; [reflexivity|]. split; [by left | reflexivity].
Qed.

Lemma X2_response_interceptor_bounds_witness :
  let err := mk_error (Some (mk_response 500 None)) "Request failed" in
  ApiClient.onRejected (Samples.session "ADMIN" "ACTIVE") err
  = ApiClient.mk_outcome (Samples.session "ADMIN" "ACTIVE") []
      ApiClient.RejectOriginal.
Proof.
  intros err.
  apply (X2_response_interceptor_bounds (Samples.session "ADMIN" "ACTIVE") err).
  reflexivity.
Defined.

(** After a 401 has gone through the interceptor the session keys are
    gone. *)
Lemma onRejected_401_no_token (ls : storage) (err : axios_error) :
  status_is err 401 = true ->
  truthy_str (ApiClient.out_storage (ApiClient.onRejected ls err) !! "token")
  = false.
Proof.
  intros H401.
  destruct (onRejected_401_clears_session ls err H401) as [Ht _].
  by rewrite Ht.
Qed.

(** X3.  Once the response interceptor has handled a 401, whatever its
    error text, the route guard of every page redirects to /login: it
    finds no token, so it never gets to show the deactivation notice. *)
Theorem X3_guard_after_401 (JSON_parse : string -> option json)
    (requiredRole : option ProtectedRoute.Role) (ls : storage)
    (err : axios_error) :
  status_is err 401 = true ->
  let ls' := ApiClient.out_storage (ApiClient.onRejected ls err) in
  ProtectedRoute.ProtectedRoute JSON_parse requiredRole ls'
  = (ProtectedRoute.Navigate "/login", ls').
Proof.
  intros H401 ls'. apply ProtectedRoute_no_session. left.
  by apply onRejected_401_no_token.
Qed.

Lemma X3_guard_after_401_witness :
  ProtectedRoute.ProtectedRoute Samples.parse_user (Some ProtectedRoute.OFFICER)
    (ApiClient.out_storage
       (ApiClient.onRejected (Samples.session "OFFICER" "INACTIVE")
          (ApiClient.unauthorized "Account has been deactivated")))
  = (ProtectedRoute.Navigate "/login", ∅).
Proof.
  rewrite (X3_guard_after_401 Samples.parse_user (Some ProtectedRoute.OFFICER)
             (Samples.session "OFFICER" "INACTIVE")
             (ApiClient.unauthorized "Account has been deactivated") eq_refl).
  reflexivity.
Defined.

End InterceptorFacts.

(** ** More on the route guard *)

Section GuardFacts.
Import JS Browser ProtectedRoute.

Variable JSON_parse : string -> option json.

Lemma truthy_str_inv (o : option string) :
  truthy_str o = true -> exists s, o = Some s /\ s ≠ "".
Proof.
  destruct o as [s|]; simpl; [|discriminate].
  intros H. exists s. split; [reflexivity|].
  apply String.eqb_neq. by apply negb_true_iff.
Qed.

Lemma guarded_children_inv (requiredRole : option Role) (u : string)
    (ls ls' : storage) :
  guarded JSON_parse requiredRole u ls = Some (Children, ls') ->
  ls' = ls /\
  exists user status role,
    JSON_parse u = Some user /\
    get_prop user "status" = Some status /\
    is_str status "INACTIVE" = false /\
    get_prop user "role" = Some role /\
    forall r, requiredRole = Some r -> is_str role (role_name r) = true.
Proof.
  unfold guarded.
  destruct (JSON_parse u) as [user|] eqn:Hparse; simpl; [|discriminate].
  destruct (get_prop user "status") as [status|] eqn:Hstatus; simpl;
    [|discriminate].
  destruct (get_prop user "role") as [role|] eqn:Hrl; simpl; [|discriminate].
  destruct (is_str status "INACTIVE") eqn:Hinactive.
  { destruct (is_str role "OFFICER"); discriminate. }
  destruct requiredRole as [required|].
  - destruct (is_str role (role_name required)) eqn:Hrole; simpl.
    + intros H. injection H as <-. split; [reflexivity|].
      exists user, status, role.
      split; [reflexivity|]. split; [exact Hstatus|].
      split; [exact Hinactive|]. split; [exact Hrl|].
      intros r Hr. by injection Hr as <-.
    + destruct (is_str role "ADMIN"); [discriminate|].
      destruct (is_str role "OFFICER"); [discriminate|].
      destruct (is_str role "CANDIDATE"); discriminate.
  - intros H. injection H as <-. split; [reflexivity|].
    exists user, status, role.
    split; [reflexivity|]. split; [exact Hstatus|].
    split; [exact Hinactive|]. split; [exact Hrl|].
    intros r Hr. discriminate.
Qed.

Lemma admitted_children (requiredRole : option Role) (ls : storage) :
  Admission.admitted JSON_parse requiredRole ls ->
  ProtectedRoute JSON_parse requiredRole ls = (Children, ls).
Proof.
  intros (t & u & user & status & role & Ht & Htne & Hu & Hune & Hparse
          & Hstatus & Hactive & Hrole & Hreq).
  rewrite (ProtectedRoute_session JSON_parse _ _ _ _ Ht Htne Hu Hune).
  unfold guarded. rewrite Hparse. simpl. rewrite Hstatus. simpl.
  rewrite Hrole. simpl. rewrite Hactive.
  destruct requiredRole as [required|]; [|reflexivity].
  by rewrite (Hreq required eq_refl).
Qed.

Lemma children_admitted (requiredRole : option Role) (ls : storage) :
  (ProtectedRoute JSON_parse requiredRole ls).1 = Children ->
  Admission.admitted JSON_parse requiredRole ls.
Proof.
  unfold ProtectedRoute, getItem.
  destruct (truthy_str (ls !! "token")) eqn:Htok; simpl; [|discriminate].
  destruct (truthy_str (ls !! "user")) eqn:Husr; simpl; [|discriminate].
  destruct (truthy_str_inv _ Htok) as (t & Ht & Htne).
  destruct (truthy_str_inv _ Husr) as (u & Hu & Hune).
  rewrite Hu. simpl.
  destruct (guarded JSON_parse requiredRole u ls) as [[el ls']|] eqn:Hg;
    simpl; [|discriminate].
  intros ->.
  destruct (guarded_children_inv _ _ _ _ Hg)
    as (_ & user & status & role & H1 & H2 & H3 & H4 & H5).
  by exists t, u, user, status, role.
Qed.

(** The storage the guard leaves is the one it found or that one without
    the session keys, and the latter only together with the move to
    /login. *)
Lemma ProtectedRoute_storage (requiredRole : option Role) (ls : storage) :
  let out := ProtectedRoute JSON_parse requiredRole ls in
  out.2 = ls \/ (out.2 = clear_session ls /\ out.1 = Navigate "/login").
Proof.
  unfold ProtectedRoute, getItem.
  destruct (negb _ || negb _); simpl; [by left|].
  unfold guarded.
  destruct (JSON_parse _) as [user|]; simpl; [|by right].
  destruct (get_prop user "status") as [status|]; simpl; [|by right].
  destruct (get_prop user "role") as [role|]; simpl; [|by right].
  destruct (is_str status "INACTIVE").
  { destruct (is_str role "OFFICER"); simpl; [by left | by right]. }
  destruct requiredRole as [required|]; [|by left].
  destruct (negb _); [|by left].
  destruct (is_str role "ADMIN"); [by left|].
  destruct (is_str role "OFFICER"); [by left|].
  destruct (is_str role "CANDIDATE"); by left.
Qed.

(** X4.  The guard renders the protected page exactly when storage holds a
    non-empty token and a non-empty user text that parses to a value other
    than null whose status is not INACTIVE and whose role is the required
    one (any role when the page requires none); it then leaves storage as
    it is. *)
Theorem X4_guard_admits_iff (requiredRole : option Role) (ls : storage) :
  ((ProtectedRoute JSON_parse requiredRole ls).1 = Children <->
   Admission.admitted JSON_parse requiredRole ls) /\
  ((ProtectedRoute JSON_parse requiredRole ls).1 = Children ->
   (ProtectedRoute JSON_parse requiredRole ls).2 = ls).
Proof.
  split; [split|].
  - apply children_admitted.
  - intros H. by rewrite (admitted_children _ _ H).
  - intros H. apply children_admitted in H.
    by rewrite (admitted_children _ _ H).
Qed.

(** X5.  The guard never writes to storage: it leaves it unchanged or
    removes the [token] and [user] keys, removes them only when it
    redirects to /login, and never touches another key. *)
Theorem X5_guard_storage_frame (requiredRole : option Role) (ls : storage) :
  let out := ProtectedRoute JSON_parse requiredRole ls in
  (out.2 = ls \/ (out.2 = clear_session ls /\ out.1 = Navigate "/login")) /\
  out.2 ⊆ ls /\
  (forall k, k ≠ "token" -> k ≠ "user" -> out.2 !! k = ls !! k).
Proof.
  intros out. subst out.
  destruct (ProtectedRoute_storage requiredRole ls) as [Heq | [Heq Hnav]];
    simpl in *; rewrite Heq.
  - split; [by left|]. split; [reflexivity|]. reflexivity.
  - split; [right; by rewrite Hnav|]. split.
    + unfold clear_session, removeItem. etrans; apply delete_subseteq.
    + intros k Ht Hu. unfold clear_session, removeItem.
      rewrite lookup_delete_ne by done. by rewrite lookup_delete_ne.
Qed.

(** X6.  Rendering the guard again on the storage it left gives the same
    element and changes nothing more. *)
Theorem X6_guard_rerender (requiredRole : option Role) (ls : storage) :
  let out := ProtectedRoute JSON_parse requiredRole ls in
  ProtectedRoute JSON_parse requiredRole out.2 = out.
Proof.
  intros out. subst out.
  destruct (ProtectedRoute_storage requiredRole ls) as [Heq | [Heq Hnav]];
    simpl in *.
  - rewrite Heq. by destruct (ProtectedRoute JSON_parse requiredRole ls).
  - rewrite Heq, ProtectedRoute_no_session.
    + destruct (ProtectedRoute JSON_parse requiredRole ls) as [el ls'].
      simpl in *. by subst.
    + left. destruct (clear_session_lookup ls) as [Ht _]. by rewrite Ht.
Qed.

(** X7.  After either logout handler has run, the guard of every page
    redirects to /login and leaves the storage as the logout left it. *)
Theorem X7_logout_then_guard (requiredRole : option Role) (ls : storage) :
  let ls1 := (Session.TopBar_handleLogout ls).1 in
  let ls2 := (Session.AccountDeactivated_handleLogout ls).1 in
  ProtectedRoute JSON_parse requiredRole ls1 = (Navigate "/login", ls1) /\
  ProtectedRoute JSON_parse requiredRole ls2 = (Navigate "/login", ls2) /\
  ls1 !! "welcomeMessage" = None.
Proof.
  simpl. split; [|split].
  - apply ProtectedRoute_no_session. left. unfold removeItem.
    rewrite !lookup_delete_ne by discriminate. by rewrite lookup_delete_eq.
  - apply ProtectedRoute_no_session. left. unfold removeItem.
    rewrite lookup_delete_ne by discriminate. by rewrite lookup_delete_eq.
  - apply removeItem_lookup.
Qed.

(** X8.  Whenever the guard renders a page, the deactivation check that
    the officer dashboard repeats on mount finds nothing to do: it neither
    throws nor clears the session nor navigates away. *)
Theorem X8_officer_check_redundant (requiredRole : option Role)
    (ls : storage) :
  (ProtectedRoute JSON_parse requiredRole ls).1 = Children ->
  OfficerDashboard.deactivation_check JSON_parse ls = Some (ls, false).
Proof.
  intros H. apply children_admitted in H.
  destruct H as (t & u & user & status & role & Ht & Htne & Hu & Hune & Hparse
                 & Hstatus & Hactive & _).
  unfold OfficerDashboard.deactivation_check, getItem.
  rewrite Hu, (truthy_str_Some u Hune). simpl.
  rewrite Hparse. simpl. rewrite Hstatus. simpl. by rewrite Hactive.
Qed.

End GuardFacts.

Section GuardExamples.
Import JS Browser ProtectedRoute.

Lemma X4_guard_admits_iff_witness :
  (ProtectedRoute Samples.parse_user (Some ADMIN)
     (Samples.session "ADMIN" "ACTIVE")).1 = Children /\
  (ProtectedRoute Samples.parse_user (Some ADMIN)
     (Samples.session "ADMIN" "ACTIVE")).2 = Samples.session "ADMIN" "ACTIVE".
Proof.
  destruct (X4_guard_admits_iff Samples.parse_user (Some ADMIN)
              (Samples.session "ADMIN" "ACTIVE")) as [Hiff Hls].
  assert (H : (ProtectedRoute Samples.parse_user (Some ADMIN)
                 (Samples.session "ADMIN" "ACTIVE")).1 = Children).
  { apply Hiff.
    exists "eyJhbGciOi", (Samples.user_text "ADMIN" "ACTIVE"),
      (Samples.user_value "ADMIN" "ACTIVE"), (Some (JStr "ACTIVE")),
      (Some (JStr "ADMIN")).
    repeat split; try reflexivity; try discriminate.
    intros r Hr. injection Hr as <-. reflexivity. }
  split; [exact H | exact (Hls H)].
Defined.

Lemma X5_guard_storage_frame_witness :
  let ls := setItem "welcomeMessage" "hello" (Samples.session "ADMIN" "INACTIVE") in
  (ProtectedRoute Samples.parse_user (Some ADMIN) ls).2 !! "welcomeMessage"
  = Some "hello".
Proof.
  intros ls.
  destruct (X5_guard_storage_frame Samples.parse_user (Some ADMIN) ls)
    as (_ & _ & Hframe).
  rewrite (Hframe "welcomeMessage"); [reflexivity | discriminate..].
Defined.

Lemma X8_officer_check_redundant_witness :
  OfficerDashboard.deactivation_check Samples.parse_user
    (Samples.session "OFFICER" "ACTIVE")
  = Some (Samples.session "OFFICER" "ACTIVE", false).
Proof.
  apply (X8_officer_check_redundant Samples.parse_user (Some OFFICER)).
  reflexivity.
Defined.

End GuardExamples.

(** ** Logging in *)

Section LoginFacts.
Import JS Browser Session.

Variable JSON_parse : string -> option json.
Variable JSON_stringify : json -> string.
Variable ToString : json -> string.
Variable type_error_message : option json -> string.

Abbreviation login := (login_settled JSON_stringify ToString type_error_message).

(** A truthy value is not [null], so reading its properties cannot throw. *)
Lemma get_prop_truthy (v : json) (k : string) :
  truthy (Some v) = true -> get_prop v k = Some (opt_prop v k).
Proof. destruct v; simpl; intros H; try reflexivity; discriminate. Qed.

Lemma truthy_JStr (s : string) : s ≠ "" -> truthy (Some (JStr s)) = true.
Proof. intros H. simpl. apply negb_true_iff. by apply String.eqb_neq. Qed.

Lemma role_route_dashboard (r : ProtectedRoute.Role) :
  role_route (Some (JStr (ProtectedRoute.role_name r)))
  = ProtectedRoute.dashboard r.
Proof. destruct r; reflexivity. Qed.

(** What a login does when the response passes every check. *)
Lemma login_settled_ok (now : Z) (response user : json) (t name : string)
    (ls : storage) :
  opt_prop response "token" = Some (JStr t) -> t ≠ "" ->
  opt_prop response "user" = Some user -> truthy (Some user) = true ->
  is_str (opt_prop user "role") "OFFICER"
    && is_str (opt_prop user "status") "INACTIVE" = false ->
  userName ToString user = Some name ->
  login now (LoginOk response) ls =
  (setItem "welcomeMessage"
     (JSON_stringify (welcome_record name (opt_prop user "role") now))
     (setItem "user" (JSON_stringify user) (setItem "token" t ls)),
   [OTP.Navigate (role_route (opt_prop user "role")) None true]).
Proof.
  intros Htok Htne Husr Hutr Hnot Hname. unfold login_settled.
  rewrite Htok, Husr, (truthy_JStr t Htne), Hutr. simpl.
  rewrite Hnot, Hname. reflexivity.
Qed.

(** X9.  After a login whose response carries a non-empty token and a user
    with one of the three roles who is not INACTIVE and has a truthy name
    or a string email (so that the greeting can be computed), the client
    navigates to the dashboard of that role, and the route guard of that
    dashboard, reading back what the login stored, renders the page. *)
Theorem X9_login_then_guard (now : Z) (response user : json) (t name : string)
    (r : ProtectedRoute.Role) (ls : storage) :
  opt_prop response "token" = Some (JStr t) -> t ≠ "" ->
  opt_prop response "user" = Some user -> truthy (Some user) = true ->
  opt_prop user "role" = Some (JStr (ProtectedRoute.role_name r)) ->
  is_str (opt_prop user "status") "INACTIVE" = false ->
  userName ToString user = Some name ->
  JSON_stringify user ≠ "" -> JSON_parse (JSON_stringify user) = Some user ->
  let out := login now (LoginOk response) ls in
  OTP.navigation out.2 = Some (ProtectedRoute.dashboard r, None) /\
  ProtectedRoute.ProtectedRoute JSON_parse (Some r) out.1
  = (ProtectedRoute.Children, out.1).
Proof.
  intros Htok Htne Husr Hutr Hrole Hactive Hname Hne Hround out. subst out.
  rewrite (login_settled_ok now response user t name ls Htok Htne Husr Hutr)
    by (try assumption; rewrite Hactive; apply andb_false_r).
  rewrite Hrole. simpl. split.
  - by rewrite role_route_dashboard.
  - apply admitted_children.
    exists t, (JSON_stringify user), user, (opt_prop user "status"),
      (Some (JStr (ProtectedRoute.role_name r))).
    unfold setItem.
    split; [rewrite !lookup_insert_ne by discriminate;
            apply lookup_insert_eq|].
    split; [exact Htne|].
    split; [rewrite lookup_insert_ne by discriminate;
            apply lookup_insert_eq|].
    split; [exact Hne|]. split; [exact Hround|].
    split; [by apply get_prop_truthy|]. split; [exact Hactive|].
    split; [rewrite <- Hrole; by apply get_prop_truthy|].
    intros r' Hr'. injection Hr' as <-.
    destruct r; reflexivity.
Qed.

(** X10.  A login answered with an officer whose status is INACTIVE leaves
    no session behind, even where one was stored before: both session
    keys are absent afterwards, the deactivation text is the one message
    shown, and there is no navigation. *)
Theorem X10_login_inactive_officer (now : Z) (response user : json)
    (ls : storage) :
  truthy (opt_prop response "token") = true ->
  opt_prop response "user" = Some user -> truthy (Some user) = true ->
  is_str (opt_prop user "role") "OFFICER" = true ->
  is_str (opt_prop user "status") "INACTIVE" = true ->
  let out := login now (LoginOk response) ls in
  out.1 !! "token" = None /\ out.1 !! "user" = None /\
  OTP.displayed out.2 = [deactivated_text] /\
  OTP.navigation out.2 = None.
Proof.
  intros Htok Husr Hutr Hrole Hstatus out. subst out.
  unfold login_settled. rewrite Htok, Husr, Hutr. simpl.
  rewrite Hrole, Hstatus. simpl.
  split; [|split; [|split]]; try reflexivity.
  - unfold removeItem. rewrite lookup_delete_ne by discriminate.
    apply lookup_delete_eq.
  - apply removeItem_lookup.
Qed.

(** X11.  A login answered with an INACTIVE admin who has a truthy name or
    a string email (so that the greeting can be computed) is not refused:
    the session is stored and the client navigates to /admin/dashboard.
    The guard of the admin dashboard then removes the stored session again
    and redirects to /login. *)
Theorem X11_login_inactive_admin_bounced (now : Z) (response user : json)
    (t name : string) (ls : storage) :
  opt_prop response "token" = Some (JStr t) -> t ≠ "" ->
  opt_prop response "user" = Some user -> truthy (Some user) = true ->
  opt_prop user "role" = Some (JStr "ADMIN") ->
  opt_prop user "status" = Some (JStr "INACTIVE") ->
  userName ToString user = Some name ->
  JSON_stringify user ≠ "" -> JSON_parse (JSON_stringify user) = Some user ->
  let out := login now (LoginOk response) ls in
  out.1 !! "token" = Some t /\
  OTP.navigation out.2 = Some ("/admin/dashboard", None) /\
  ProtectedRoute.ProtectedRoute JSON_parse (Some ProtectedRoute.ADMIN) out.1
  = (ProtectedRoute.Navigate "/login", ProtectedRoute.clear_session out.1).
Proof.
  intros Htok Htne Husr Hutr Hrole Hstatus Hname Hne Hround out. subst out.
  rewrite (login_settled_ok now response user t name ls Htok Htne Husr Hutr)
    by (try assumption; by rewrite Hrole).
  rewrite Hrole. simpl. unfold setItem.
  split; [rewrite !lookup_insert_ne by discriminate; apply lookup_insert_eq|].
  split; [reflexivity|].
  rewrite (ProtectedRoute_session JSON_parse _ _ t (JSON_stringify user));
    [| rewrite !lookup_insert_ne by discriminate; apply lookup_insert_eq
     | exact Htne
     | rewrite lookup_insert_ne by discriminate; apply lookup_insert_eq
     | exact Hne].
  unfold ProtectedRoute.guarded. rewrite Hround. simpl.
  rewrite !(get_prop_truthy user _ Hutr), Hstatus, Hrole. reflexivity.
Qed.

(** X12.  The welcome record a successful login writes at time [now] is
    read back by the dashboard's mount effect at time [later]: the banner
    with the text "Welcome back, <name>! <emoji>" is on screen exactly
    when [later - now] is below 30000 ms. *)
Theorem X12_login_then_banner (ToNumber : json -> option Z) (now later : Z)
    (response user : json) (t name : string) (ls : storage) :
  opt_prop response "token" = Some (JStr t) -> t ≠ "" ->
  opt_prop response "user" = Some user -> truthy (Some user) = true ->
  is_str (opt_prop user "role") "OFFICER"
    && is_str (opt_prop user "status") "INACTIVE" = false ->
  userName ToString user = Some name ->
  let record := welcome_record name (opt_prop user "role") now in
  JSON_stringify record ≠ "" ->
  JSON_parse (JSON_stringify record) = Some record ->
  let out := login now (LoginOk response) ls in
  let st := Dashboard.welcomeEffect JSON_parse ToNumber later
              (Dashboard.mounted out.1) in
  (Dashboard.banner_shown st = true <-> (later - now < 30000)%Z) /\
  ((later - now < 30000)%Z ->
     Dashboard.welcomeMessage st
     = Some (JStr ("Welcome back, " +:+ name +:+ "! "
                   +:+ welcomeEmoji (opt_prop user "role")))).
Proof.
  intros Htok Htne Husr Hutr Hnot Hname record Hne Hround out st.
  subst out st.
  rewrite (login_settled_ok now response user t name ls Htok Htne Husr Hutr
             Hnot Hname).
  simpl fst.
  rewrite (welcomeEffect_record JSON_parse ToNumber later now _
             (JSON_stringify record) record
             (Some (JStr ("Welcome back, " +:+ name +:+ "! "
                          +:+ welcomeEmoji (opt_prop user "role")))));
    [| apply lookup_insert_eq | exact Hne | exact Hround
     | reflexivity | reflexivity].
  destruct (later - now <? 30000)%Z eqn:Hage.
  - apply Z.ltb_lt in Hage. split; [|by intros _].
    unfold Dashboard.banner_shown. simpl. tauto.
  - apply Z.ltb_ge in Hage. split; [|intros H; lia].
    unfold Dashboard.banner_shown. simpl. split; [discriminate | lia].
Qed.

(** X13.  When the login request fails, or its response lacks a truthy
    token or user, one error message is shown and the router is not asked
    to navigate.  A malformed response and a failure with a status other
    than 401 leave storage exactly as it was; a failure with status 401 has
    passed the response interceptor, and storage is what the interceptor
    left: the token and the user are removed. *)
Theorem X13_login_failure (now : Z) (result : login_result) (ls : storage) :
  (forall response, result = LoginOk response ->
     truthy (opt_prop response "token") = false \/
     truthy (opt_prop response "user") = false) ->
  let out := login now result ls in
  (forall response, result = LoginOk response -> out.1 = ls) /\
  (forall err, result = LoginFailed err ->
     out.1 = ApiClient.out_storage (ApiClient.onRejected ls err) /\
     (status_is err 401 = false -> out.1 = ls) /\
     (status_is err 401 = true ->
        out.1 = removeItem "user" (removeItem "token" ls))) /\
  OTP.navigation out.2 = None /\
  exists msg, OTP.displayed out.2 = [msg].
Proof.
  intros Hbad out. subst out. destruct result as [response | err].
  - unfold login_settled.
    assert (Hcond : negb (truthy (opt_prop response "token"))
                    || negb (truthy (opt_prop response "user")) = true).
    { destruct (Hbad response eq_refl) as [H|H]; rewrite H; simpl;
        [reflexivity | apply orb_true_r]. }
    rewrite Hcond. simpl. split; [reflexivity|].
    split; [intros err H; discriminate|]. split; [reflexivity|]. by eexists.
  - simpl. split; [intros response H; discriminate|]. split.
    + intros err' H. injection H as <-. split; [reflexivity|]. split.
      * intros H401. by rewrite (onRejected_other_status ls err H401).
      * intros H401. by rewrite (onRejected_401_storage ls err H401).
    + destruct (interceptor_timers_silent (ApiClient.onRejected ls err)
                  (login_catch
                     (OTP.error_or_message
                        (ApiClient.caught (ApiClient.onRejected ls err) err)
                        "Login failed. Please try again.")))
        as (Hdisp & _ & Hnav).
      rewrite Hdisp, Hnav. split; [reflexivity|]. by eexists.
Qed.

(** X14.  When the response is accepted but the user has neither a truthy
    name nor a string email, the handler throws after it has stored the
    token and the user: the session stays in storage, yet no welcome
    record is written, an error is shown and the client does not
    navigate. *)
Theorem X14_login_throws_after_storing (now : Z) (response user : json)
    (t : string) (ls : storage) :
  opt_prop response "token" = Some (JStr t) -> t ≠ "" ->
  opt_prop response "user" = Some user -> truthy (Some user) = true ->
  is_str (opt_prop user "role") "OFFICER"
    && is_str (opt_prop user "status") "INACTIVE" = false ->
  userName ToString user = None ->
  let out := login now (LoginOk response) ls in
  out.1 !! "token" = Some t /\
  out.1 !! "user" = Some (JSON_stringify user) /\
  out.1 !! "welcomeMessage" = ls !! "welcomeMessage" /\
  OTP.navigation out.2 = None /\
  exists msg, OTP.displayed out.2 = [msg].
Proof.
  intros Htok Htne Husr Hutr Hnot Hname out. subst out.
  unfold login_settled.
  rewrite Htok, Husr, (truthy_JStr t Htne), Hutr. simpl.
  rewrite Hnot, Hname. simpl. unfold setItem.
  split; [rewrite lookup_insert_ne by discriminate; apply lookup_insert_eq|].
  split; [apply lookup_insert_eq|].
  split; [by rewrite !lookup_insert_ne by discriminate|].
  split; [reflexivity|]. by eexists.
Qed.

End LoginFacts.

Section LoginExamples.
Import JS Browser Session.

Abbreviation sample_login :=
  (login_settled Samples.stringify Samples.no_string Samples.split_error).

Lemma X9_login_then_guard_witness :
  let out := sample_login 1700000000000
               (LoginOk (Samples.login_response "ADMIN" "ACTIVE")) ∅ in
  OTP.navigation out.2 = Some ("/admin/dashboard", None) /\
  ProtectedRoute.ProtectedRoute Samples.parse_login
    (Some ProtectedRoute.ADMIN) out.1
  = (ProtectedRoute.Children, out.1).
Proof.
  apply (X9_login_then_guard Samples.parse_login Samples.stringify
           Samples.no_string _ 1700000000000
           (Samples.login_response "ADMIN" "ACTIVE")
           (Samples.login_user "ADMIN" "ACTIVE") "eyJhbGciOi" "Ann"
           ProtectedRoute.ADMIN ∅);
    try reflexivity; discriminate.
Defined.

Lemma X10_login_inactive_officer_witness :
  let out := sample_login 1700000000000
               (LoginOk (Samples.login_response "OFFICER" "INACTIVE"))
               (Samples.session "OFFICER" "ACTIVE") in
  out.1 !! "token" = None /\ out.1 !! "user" = None /\
  OTP.displayed out.2 = [deactivated_text] /\
  OTP.navigation out.2 = None.
Proof.
  apply (X10_login_inactive_officer Samples.stringify Samples.no_string _
           1700000000000 (Samples.login_response "OFFICER" "INACTIVE")
           (Samples.login_user "OFFICER" "INACTIVE"));
    reflexivity.
Defined.

Lemma X11_login_inactive_admin_bounced_witness :
  let out := sample_login 1700000000000
               (LoginOk (Samples.login_response "ADMIN" "INACTIVE")) ∅ in
  out.1 !! "token" = Some "eyJhbGciOi" /\
  OTP.navigation out.2 = Some ("/admin/dashboard", None) /\
  ProtectedRoute.ProtectedRoute Samples.parse_login
    (Some ProtectedRoute.ADMIN) out.1
  = (ProtectedRoute.Navigate "/login", ProtectedRoute.clear_session out.1).
Proof.
  apply (X11_login_inactive_admin_bounced Samples.parse_login Samples.stringify
           Samples.no_string _ 1700000000000
           (Samples.login_response "ADMIN" "INACTIVE")
           (Samples.login_user "ADMIN" "INACTIVE") "eyJhbGciOi" "Ann" ∅);
    try reflexivity; discriminate.
Defined.

Lemma X12_login_then_banner_witness :
  let out := sample_login 1700000000000
               (LoginOk (Samples.login_response "ADMIN" "ACTIVE")) ∅ in
  let st := Dashboard.welcomeEffect Samples.parse_login Samples.no_coercion
              1700000005000 (Dashboard.mounted out.1) in
  Dashboard.banner_shown st = true.
Proof.
  intros out st.
  apply (X12_login_then_banner Samples.parse_login Samples.stringify
           Samples.no_string _ Samples.no_coercion 1700000000000 1700000005000
           (Samples.login_response "ADMIN" "ACTIVE")
           (Samples.login_user "ADMIN" "ACTIVE") "eyJhbGciOi" "Ann" ∅);
    try reflexivity; discriminate.
Defined.

Lemma X13_login_failure_witness :
  let err := mk_error (Some (mk_response 401
                 (Some (mk_data (Some "Invalid credentials") None None))))
               "Request failed with status code 401" in
  let out := sample_login 1700000000000 (LoginFailed err)
               (Samples.session "ADMIN" "ACTIVE") in
  out.1 = ∅ /\ OTP.displayed out.2 = ["Invalid credentials"].
Proof.
  intros err out.
  destruct (X13_login_failure Samples.stringify Samples.no_string
              Samples.split_error 1700000000000 (LoginFailed err)
              (Samples.session "ADMIN" "ACTIVE"))
    as (_ & Hfail & _); [intros response H; discriminate|].
  destruct (Hfail err eq_refl) as (_ & _ & H401).
  split; [|reflexivity].
  fold out in H401. rewrite (H401 eq_refl). reflexivity.
Defined.

Lemma X14_login_throws_after_storing_witness :
  let user := Samples.user_value "CANDIDATE" "ACTIVE" in
  let out := sample_login 1700000000000
               (LoginOk (JObj [("token", JStr "eyJhbGciOi"); ("user", user)]))
               ∅ in
  out.1 !! "token" = Some "eyJhbGciOi" /\
  out.1 !! "user" = Some (Samples.stringify user) /\
  out.1 !! "welcomeMessage" = (∅ : storage) !! "welcomeMessage" /\
  OTP.navigation out.2 = None /\
  exists msg, OTP.displayed out.2 = [msg].
Proof.
  intros user.
  apply (X14_login_throws_after_storing Samples.stringify Samples.no_string _
           1700000000000 (JObj [("token", JStr "eyJhbGciOi"); ("user", user)])
           user "eyJhbGciOi" ∅);
    try reflexivity; discriminate.
Defined.

End LoginExamples.

(** ** More on the ballot casting wizard *)

Section WizardFacts.
Import JS Browser VotingPage WizardInvariants.

(** The timers of the interceptor are not router navigation. *)
Lemma load_timers_no_navigate (out : ApiClient.outcome) (to : string)
    (l : list VotingLoad.effect) :
  VotingLoad.Navigate to ∈ (VotingLoad.interceptor_timers out ++ l)%list <->
  VotingLoad.Navigate to ∈ l.
Proof.
  unfold VotingLoad.interceptor_timers.
  induction (ApiClient.out_timers out) as [|t ts IH]; simpl; [reflexivity|].
  rewrite elem_of_cons, IH. split; [intros [H|H]; [discriminate|exact H]|].
  intros H. by right.
Qed.

(** X15.  However the ballot request settles, [loadBallot] ends with the
    loading flag off and the selections unchanged.  A failed request passes
    the response interceptor first.  The stored ballot token is removed,
    and the voter sent back to /verify, exactly when the error that reaches
    the [catch] has status 400 or 401: a 400, or a 401 whose text the
    interceptor does not take for an expired token.  Apart from that,
    storage is what the interceptor left, which differs from the storage
    before in the token and the user at most. *)
Theorem X15_loadBallot_settled (result : VotingLoad.load_result) (st : state) :
  let out := VotingLoad.loadBallot_settled result st in
  let intercepted :=
    match result with
    | VotingLoad.LoadFailed err =>
        ApiClient.out_storage (ApiClient.onRejected (localStorage st) err)
    | VotingLoad.LoadOk _ => localStorage st
    end in
  let rejected :=
    match result with
    | VotingLoad.LoadFailed err =>
        status_is err 400 ||
        (status_is err 401 &&
         negb (ApiClient.indicates_expired (or_str (data_error err) "")))
    | VotingLoad.LoadOk _ => false
    end in
  loading out.1 = false /\
  votes out.1 = votes st /\
  localStorage out.1 =
    (if rejected then removeItem "ballotToken" intercepted else intercepted) /\
  (VotingLoad.Navigate "/verify" ∈ out.2 <-> rejected = true) /\
  (forall k, k ≠ "ballotToken" -> k ≠ "token" -> k ≠ "user" ->
     localStorage out.1 !! k = localStorage st !! k).
Proof.
  destruct result as [[body|] | err]; cbv zeta.
  - simpl. repeat split; try reflexivity; [|discriminate].
    intros Hin. destruct body as [[ps|] [cs|]]; simpl in Hin;
      try destruct (Nat.ltb 0 (length ps) && Nat.eqb (length cs) 0);
      no_member Hin.
  - simpl. repeat split; try reflexivity; [|discriminate].
    intros Hin. no_member Hin.
  - unfold VotingLoad.loadBallot_settled.
    set (out := ApiClient.onRejected (localStorage st) err).
    assert (Hstatus :
      status_is (ApiClient.caught out err) 401
      || status_is (ApiClient.caught out err) 400
      = status_is err 400 ||
        (status_is err 401 &&
         negb (ApiClient.indicates_expired (or_str (data_error err) "")))).
    { subst out. destruct (status_is err 401) eqn:H401.
      - rewrite (status_is_unique err 401 400 H401) by discriminate.
        destruct (ApiClient.indicates_expired _) eqn:Hexp.
        + by rewrite (caught_replaced _ _ H401 Hexp).
        + rewrite (caught_original _ err (or_intror Hexp)), H401.
          reflexivity.
      - rewrite (caught_original _ err (or_introl H401)), H401. simpl.
        by rewrite orb_false_r. }
    rewrite Hstatus.
    destruct (status_is err 400 || _); simpl.
    + split; [reflexivity|]. split; [reflexivity|]. split; [reflexivity|].
      split.
      * split; [reflexivity|]. intros _. apply load_timers_no_navigate.
        apply elem_of_cons. right. apply elem_of_cons. by left.
      * intros k Hb Ht Hu. unfold removeItem.
        rewrite lookup_delete_ne by done.
        by apply onRejected_storage_frame.
    + split; [reflexivity|]. split; [reflexivity|]. split; [reflexivity|].
      split.
      * split; [|discriminate]. intros Hin.
        apply load_timers_no_navigate in Hin. no_member Hin.
      * intros k Hb Ht Hu. by apply onRejected_storage_frame.
Qed.

(** A ballot request answered with 401 "Token expired" reaches the [catch]
    as an error without a status: the session keys are gone, the stored
    ballot token stays, and the voter is not sent to /verify by the
    page. *)
Example loadBallot_token_expired :
  let st := VotingLoad.initial (setItem "ballotToken" "bt-1"
                                  (Samples.session "ADMIN" "ACTIVE")) in
  VotingLoad.loadBallot_settled
    (VotingLoad.LoadFailed (ApiClient.unauthorized "Token expired")) st
  = (VotingLoad.setLoading false
       (set_localStorage (setItem "ballotToken" "bt-1" ∅) st),
     [VotingLoad.Timer 100 (ApiClient.SetLocationHref "/login");
      VotingLoad.ToastError "Failed to load ballot"]).
Proof. vm_compute. reflexivity. Qed.

(** X16.  On mount the ballot token is taken from the navigation state
    and, failing that, from storage.  With a token the page asks for the
    ballot with exactly that token, and a response that carries positions
    and candidates brings the page into the loaded state; without one it
    sends no request and goes back to /verify. *)
Theorem X16_mount_then_load (location_token : option string) (ls : storage) :
  let token :=
    if truthy_str location_token then location_token
    else ls !! "ballotToken" in
  let m := VotingLoad.mount location_token (VotingLoad.initial ls) in
  (forall t, token = Some t -> t ≠ "" ->
     m.2 = [VotingLoad.GetBallot t] /\
     forall ps cs,
       (VotingLoad.loadBallot_settled
          (VotingLoad.LoadOk
             (Some (VotingLoad.mk_ballot_response (Some ps) (Some cs))))
          m.1).1
       = loaded t (mk_ballot ps cs) ls) /\
  (truthy_str token = false ->
     m.1 = VotingLoad.initial ls /\
     m.2 = [VotingLoad.ToastError
              "No ballot token found. Please verify your identity first.";
            VotingLoad.Navigate "/verify"]).
Proof.
  intros token m. subst token m. unfold VotingLoad.mount, getItem. simpl.
  split.
  - intros t Ht Hne. rewrite Ht, (truthy_str_Some t Hne). simpl.
    split; [reflexivity|]. intros ps cs. reflexivity.
  - intros Hno. rewrite Hno. simpl. split; reflexivity.
Qed.

Lemma X16_mount_then_load_witness :
  let ls : storage := setItem "ballotToken" "stored-token" ∅ in
  (VotingLoad.mount (Some "fresh-token") (VotingLoad.initial ls)).2
  = [VotingLoad.GetBallot "fresh-token"] /\
  (VotingLoad.mount None (VotingLoad.initial ∅)).2
  = [VotingLoad.ToastError
       "No ballot token found. Please verify your identity first.";
     VotingLoad.Navigate "/verify"].
Proof.
  intros ls. split.
  - apply (proj1 (X16_mount_then_load (Some "fresh-token") ls) "fresh-token");
      [reflexivity | discriminate].
  - apply (proj2 (X16_mount_then_load None ∅)). reflexivity.
Defined.

(** What the [catch] and the [finally] of [handleSubmit] leave. *)
Lemma handleSubmit_catch_storage (err : axios_error) (closed : list string)
    (st : state) :
  let out := handleSubmit_catch err closed st in
  submitting out.1 = false /\
  localStorage out.1 =
    (if token_spent (CastFailed err closed)
     then removeItem "ballotToken" (localStorage st) else localStorage st).
Proof.
  unfold handleSubmit_catch. simpl.
  destruct (status_is err 400); simpl; [|split; reflexivity].
  destruct (data_error err) as [e|]; simpl; [|split; reflexivity].
  destruct (includes e "already used"); simpl; [split; reflexivity|].
  destruct (includes e "not open for voting"); simpl; [|split; reflexivity].
  destruct (Nat.ltb 0 (length closed)); split; reflexivity.
Qed.

(** The interceptor changes nothing in whether the ballot token is
    spent: it only replaces errors of status 401. *)
Lemma token_spent_caught (ls : storage) (err : axios_error)
    (closed : list string) :
  token_spent (CastFailed (ApiClient.caught (ApiClient.onRejected ls err) err)
                 closed)
  = token_spent (CastFailed err closed).
Proof.
  destruct (status_is err 401) eqn:H401.
  - simpl. rewrite (status_is_unique err 401 400 H401) by discriminate.
    destruct (ApiClient.indicates_expired (or_str (data_error err) ""))
      eqn:Hexp.
    + by rewrite (caught_replaced _ _ H401 Hexp).
    + rewrite (caught_original _ err (or_intror Hexp)).
      by rewrite (status_is_unique err 401 400 H401) by discriminate.
  - by rewrite (caught_original _ err (or_introl H401)).
Qed.

(** X17.  When the vote request settles the submitting flag is cleared and
    the selections are kept.  A failed request passes the response
    interceptor first, and storage starts from what the interceptor left,
    which differs from the storage before in the token and the user at
    most.  From there the stored ballot token is removed exactly after a
    success or a 400 whose error says "already used". *)
Theorem X17_cast_settled (res : cast_result) (st : state) :
  let out := handleSubmit_settled res st in
  let intercepted :=
    match res with
    | CastFailed err _ =>
        ApiClient.out_storage (ApiClient.onRejected (localStorage st) err)
    | CastOk => localStorage st
    end in
  submitting out.1 = false /\
  votes out.1 = votes st /\
  localStorage out.1 =
    (if token_spent res then removeItem "ballotToken" intercepted
     else intercepted) /\
  (forall k, k ≠ "ballotToken" -> k ≠ "token" -> k ≠ "user" ->
     localStorage out.1 !! k = localStorage st !! k).
Proof.
  destruct res as [|err closed]; cbv zeta.
  - simpl. split; [reflexivity|]. split; [reflexivity|].
    split; [reflexivity|]. intros k Hb _ _. by apply removeItem_lookup_ne.
  - split; [apply handleSubmit_catch_storage|].
    split; [apply handleSubmit_settled_frame|].
    unfold handleSubmit_settled. cbv zeta. cbn [fst].
    set (out := ApiClient.onRejected (localStorage st) err).
    destruct (handleSubmit_catch_storage (ApiClient.caught out err) closed
                (set_localStorage (ApiClient.out_storage out) st))
      as [_ Hls].
    cbv zeta in Hls. rewrite Hls. subst out.
    rewrite token_spent_caught. cbn [localStorage set_localStorage].
    split; [reflexivity|].
    intros k Hb Ht Hu. clear Hls.
    destruct (token_spent (CastFailed err closed));
      [rewrite removeItem_lookup_ne by done|];
      by apply onRejected_storage_frame.
Qed.

(** Only a click on a candidate changes the selections, and it records a
    candidate listed for the position on screen. *)
Lemma selections_listed_step (b : BallotData) (st : state) (e : event) :
  wizard_inv b st -> selections_listed b (votes st) ->
  selections_listed b (votes (step st e)).
Proof.
  intros (Hb & _ & _ & _) Hlisted.
  destruct e as [c | | | i | confirmed | res]; simpl.
  - destruct (currentPosition st) as [p|] eqn:Hp; [|exact Hlisted].
    destruct (wizard_rendered st); simpl; [|exact Hlisted].
    case_bool_decide as Hc; [|exact Hlisted]. simpl.
    intros q d Hq. destruct (decide (pos_id p = q)) as [<-|Hne].
    + unfold handleVoteChange in Hq. case_bool_decide as Hsame.
      * by rewrite lookup_delete_eq in Hq.
      * rewrite lookup_insert_eq in Hq. injection Hq as <-.
        apply list_elem_of_fmap in Hc as (cand & -> & Hcand).
        unfold positionCandidates in Hcand. rewrite Hb, Hp in Hcand.
        apply list_elem_of_filter in Hcand as [Hpos Hin].
        by exists cand.
    + rewrite handleVoteChange_frame in Hq by exact Hne. by apply Hlisted.
  - destruct (_ && _); [|exact Hlisted].
    unfold handleNext. destruct (Nat.ltb _ _); exact Hlisted.
  - destruct (_ && _); [|exact Hlisted].
    unfold handlePrevious. destruct (Nat.ltb _ _); exact Hlisted.
  - destruct (_ && _); exact Hlisted.
  - destruct (_ && _); [|exact Hlisted].
    destruct (handleSubmit_frame confirmed st) as (_ & _ & Hv & _).
    simpl in Hv. by rewrite Hv.
  - destruct (submitting st); [|exact Hlisted].
    destruct (handleSubmit_settled_frame res st) as (_ & _ & Hv & _).
    simpl in Hv. by rewrite Hv.
Qed.

Lemma reachable_selections_listed (token : string) (b : BallotData)
    (ls : storage) (st : state) :
  reachable token b ls st -> selections_listed b (votes st).
Proof.
  induction 1 as [|st e Hreach IH].
  - intros p c Hp. simpl in Hp. by rewrite lookup_empty in Hp.
  - apply selections_listed_step; [|exact IH].
    by eapply reachable_inv.
Qed.

(** X18.  In every state the voter can reach from a loaded ballot, the
    ballot is the loaded one, each recorded selection belongs to a position
    of the ballot and names a candidate the ballot lists for that very
    position, and, when the ballot has a position, one position is on
    screen. *)
Theorem X18_wizard_invariant (token : string) (b : BallotData) (ls : storage)
    (st : state) :
  reachable token b ls st ->
  ballotData st = Some b /\
  (forall p c, votes st !! p = Some c ->
     p ∈ map pos_id (positions b) /\
     exists cand, cand ∈ candidates b /\ cand_id cand = c /\
                  cand_position_id cand = p) /\
  (positions b ≠ [] -> is_Some (currentPosition st)).
Proof.
  intros Hreach.
  destruct (reachable_inv _ _ _ _ Hreach) as (Hb & _ & Hkeys & Hidx).
  pose proof (reachable_selections_listed _ _ _ _ Hreach) as Hlisted.
  split; [exact Hb|]. split.
  - intros p c Hp. split; [by eapply Hkeys | by apply Hlisted].
  - intros Hne. unfold currentPosition. rewrite Hb. simpl.
    apply lookup_lt_is_Some.
    destruct Hidx as [-> | Hlt]; [|exact Hlt].
    destruct (positions b); [done | simpl; lia].
Qed.

Lemma X18_wizard_invariant_witness :
  let st := step (step (loaded "tok" Samples.two_positions ∅)
                    (ClickCandidate "c1")) (ClickStep 1) in
  ballotData st = Some Samples.two_positions /\
  is_Some (currentPosition st).
Proof.
  intros st.
  destruct (X18_wizard_invariant "tok" Samples.two_positions ∅ st)
    as (Hb & _ & Hpos).
  { do 2 constructor. constructor. }
  split; [exact Hb | apply Hpos; discriminate].
Defined.

(** X19.  On a ballot that lists each position once, in every reachable
    state the number of recorded selections equals the number of positions
    exactly when every position of the ballot has a recorded selection. *)
Theorem X19_count_means_complete (token : string) (b : BallotData)
    (ls : storage) (st : state) :
  reachable token b ls st ->
  NoDup (map pos_id (positions b)) ->
  (votedCount st = totalPositions st <->
   forall pos, pos ∈ positions b -> is_Some (votes st !! pos_id pos)).
Proof. apply reachable_count_all_positions. Qed.

Lemma X19_count_means_complete_witness :
  let st := step (step (step (loaded "tok" Samples.two_positions ∅)
                    (ClickCandidate "c1")) ClickNext) (ClickCandidate "c2") in
  Forall (fun pos => is_Some (votes st !! pos_id pos))
    (positions Samples.two_positions).
Proof.
  intros st. apply Forall_forall.
  apply (X19_count_means_complete "tok" Samples.two_positions ∅ st).
  - do 3 constructor. constructor.
  - simpl. apply NoDup_cons. split; [intros H; no_member H|].
    apply NoDup_singleton.
  - reflexivity.
Defined.

(** X20.  A click on a candidate changes the entry of its position only.
    On a position without a selection it adds one entry; on the selected
    candidate it removes one; on another candidate of the same position it
    replaces the choice and keeps the number of entries. *)
Theorem X20_handleVoteChange_effect (p c : string) (v : selection) :
  (forall q, p ≠ q -> handleVoteChange p c v !! q = v !! q) /\
  (v !! p = None ->
     handleVoteChange p c v !! p = Some c /\
     size (handleVoteChange p c v) = S (size v)) /\
  (v !! p = Some c ->
     handleVoteChange p c v !! p = None /\
     S (size (handleVoteChange p c v)) = size v) /\
  (forall c', v !! p = Some c' -> c ≠ c' ->
     handleVoteChange p c v !! p = Some c /\
     size (handleVoteChange p c v) = size v).
Proof.
  split; [intros q; apply handleVoteChange_frame|].
  split; [|split].
  - intros Hnone. rewrite (handleVoteChange_fresh p c v Hnone).
    split; [apply lookup_insert_eq | by apply map_size_insert_None].
  - intros Hsome. rewrite (handleVoteChange_same p c v Hsome).
    split; [apply lookup_delete_eq|].
    rewrite map_size_delete_Some by (by exists c).
    assert (size v ≠ 0); [|lia].
    intros Hz. apply map_size_empty_iff in Hz. subst v.
    by rewrite lookup_empty in Hsome.
  - intros c' Hsome Hne. split; [by eapply handleVoteChange_other|].
    unfold handleVoteChange. rewrite bool_decide_eq_false_2 by congruence.
    apply map_size_insert_Some. by exists c'.
Qed.

Lemma X20_handleVoteChange_effect_witness :
  let v : selection := <["p1" := "c1"]> ∅ in
  handleVoteChange "p1" "c9" v !! "p1" = Some "c9" /\
  size (handleVoteChange "p1" "c9" v) = size v.
Proof.
  intros v.
  apply (proj2 (proj2 (proj2 (X20_handleVoteChange_effect "p1" "c9" v))) "c1");
    [reflexivity | discriminate].
Defined.

(** When no position is missing, [votes] reads as truthy under the id of
    every position. *)
Lemma missingPositions_nil (b : BallotData) (v : selection) :
  length (missingPositions b v) = 0 ->
  forall pos, pos ∈ positions b -> isVoted v (pos_id pos) = true.
Proof.
  intros Hlen pos Hpos. apply length_zero_iff_nil in Hlen.
  destruct (isVoted v (pos_id pos)) eqn:Hvoted; [reflexivity|].
  exfalso. assert (Hin : In pos (missingPositions b v)).
  { apply filter_In. split; [by apply list_elem_of_In|]. by rewrite Hvoted. }
  by rewrite Hlen in Hin.
Qed.

(** X21.  Whenever [handleSubmit] puts the vote request in flight, the
    confirmation dialog has been accepted, [votes] reads as truthy under
    the id of every position of the ballot (a recorded non-empty selection
    wherever the id is not a name that [Object.prototype] defines), the
    request carries the page's ballot token and the recorded selections,
    and the submitting flag is on. *)
Theorem X21_submit_sends_complete_ballot (confirmed : bool) (st : state)
    (b : BallotData) :
  ballotData st = Some b ->
  (handleSubmit confirmed st).2 = true ->
  confirmed = true /\
  (forall pos, pos ∈ positions b ->
     isVoted (votes st) (pos_id pos) = true /\
     (inherited (pos_id pos) = false ->
      exists c, votes st !! pos_id pos = Some c /\ c ≠ "")) /\
  CastVote (ballotToken st) (votes st) ∈ (handleSubmit confirmed st).1.2 /\
  submitting (handleSubmit confirmed st).1.1 = true.
Proof.
  intros Hb. unfold handleSubmit. rewrite Hb.
  destruct (negb (Nat.eqb (length (missingPositions b (votes st))) 0))
    eqn:Hmiss; simpl; [discriminate|].
  destruct confirmed; simpl; [|discriminate]. intros _.
  apply negb_false_iff, Nat.eqb_eq in Hmiss.
  split; [reflexivity|]. split.
  - intros pos Hpos.
    pose proof (missingPositions_nil b (votes st) Hmiss pos Hpos) as Hvoted.
    split; [exact Hvoted|]. intros Hid.
    rewrite (isVoted_own _ _ Hid) in Hvoted. by apply truthy_str_inv.
  - split; [apply elem_of_cons; right; apply elem_of_cons; by left|].
    reflexivity.
Qed.

Lemma X21_submit_sends_complete_ballot_witness :
  let st := step (loaded "tok" Samples.one_position ∅) (ClickCandidate "c1") in
  CastVote "tok" (<["p1" := "c1"]> ∅) ∈ (handleSubmit true st).1.2.
Proof.
  intros st.
  apply (X21_submit_sends_complete_ballot true st Samples.one_position);
    reflexivity.
Defined.

(** A ballot whose only position has the id [constructor]: with nothing
    selected, [votes] reads as truthy under that id, no position is
    missing, and a Next Position button for it would be enabled. *)
Example inherited_name_reads_as_voted :
  let b := mk_ballot [mk_position "constructor" "President"]
                     [mk_candidate "c1" "Ann" "constructor"] in
  let st := loaded "tok" b ∅ in
  votes st = ∅ /\ isVoted (votes st) "constructor" = true /\
  missingPositions b (votes st) = [] /\
  next_disabled st = false /\ has_selection st = false.
Proof. vm_compute. repeat split; reflexivity. Qed.

End WizardFacts.

(** ** From the login form to the ballot *)

Section VoterFlowFacts.
Import JS Browser.

Variable ToString : json -> string.

(** [String.prototype.trim], [toUpperCase] and [toLowerCase]; on ASCII
    text the first two compute what [trim_ascii] and [toUpperCase_ascii]
    do. *)
Variable trim : string -> string.
Variable toUpperCase : string -> string.
Variable toLowerCase : string -> string.
Hypothesis trim_on_ascii :
  forall s, is_ascii s = true -> trim s = trim_ascii s.
Hypothesis toUpperCase_on_ascii :
  forall s, is_ascii s = true -> toUpperCase s = toUpperCase_ascii s.

Lemma hasRegNo_trim (d : OTP.UnifiedLoginFormData) (r : string) :
  OTP.regNo d = Some r -> OTP.hasRegNo trim d = true -> trim r ≠ "".
Proof.
  intros Hr. unfold OTP.hasRegNo, OTP.nonblank. rewrite Hr. simpl.
  intros H. apply andb_true_iff in H as [_ H].
  apply String.eqb_neq. by apply negb_true_iff.
Qed.

(** X22.  A registration number written in ASCII that the unified login
    form asks an OTP for is carried unchanged, trimmed and uppercased,
    through the voter flow: it is the number put into the navigation
    state, the number the OTP page accepts on mount, the number sent with
    the code for confirmation, and the number a resend asks a new OTP
    for. *)
Theorem X22_regNo_carried (d : OTP.UnifiedLoginFormData) (r otp : string)
    (ls : storage) :
  OTP.regNo d = Some r -> is_ascii r = true ->
  OTP.hasRegNo trim d = true -> OTP.hasEmailPassword trim d = false ->
  otp ≠ "" ->
  let n := toUpperCase (trim r) in
  let login := OTP.onUnifiedLogin trim toUpperCase toLowerCase d None ls in
  OTP.requests login.2 = [OTP.RequestOTP n] /\
  OTP.navigation login.2 = Some ("/login/otp", Some n) /\
  VoterOTPPage.mount (Some n) = [VoterOTPPage.SetRegNo n] /\
  (forall result ls',
     VoterOTPPage.Send (VoterOTPPage.ConfirmOTP n otp)
       ∈ (VoterOTPPage.onVerifyOTP ToString trim toUpperCase n otp result
            ls').2) /\
  (forall result ls',
     OTP.requests
       (VoterOTPPage.handleResendOTP trim toUpperCase n result ls').2
     = [OTP.RequestOTP n]).
Proof.
  intros Hr Hascii Hreg Hpw Hotp n login. subst login.
  pose proof (normalize_nonempty trim toUpperCase trim_on_ascii
                toUpperCase_on_ascii r Hascii (hasRegNo_trim d r Hr Hreg))
    as Hn.
  change (OTP.normalize trim toUpperCase r) with n in Hn.
  assert (Hnn : OTP.normalize trim toUpperCase n = n)
    by apply (normalize_idempotent trim toUpperCase trim_on_ascii
                toUpperCase_on_ascii r Hascii).
  apply String.eqb_neq in Hn as Hnb. apply String.eqb_neq in Hotp as Hob.
  split; [|split; [|split; [|split]]].
  - rewrite (onUnifiedLogin_voter trim toUpperCase toLowerCase d r None ls
               Hr Hreg Hpw). reflexivity.
  - rewrite (onUnifiedLogin_voter trim toUpperCase toLowerCase d r None ls
               Hr Hreg Hpw). reflexivity.
  - unfold VoterOTPPage.mount. simpl. by rewrite Hnb.
  - intros result ls'. unfold VoterOTPPage.onVerifyOTP.
    rewrite Hnb, Hob, Hnn. simpl.
    destruct result as [response | err];
      [destruct (truthy _)|]; simpl;
      apply elem_of_cons; right; apply elem_of_cons; by left.
  - intros result ls'. unfold VoterOTPPage.handleResendOTP.
    rewrite Hnb, Hnn. simpl.
    destruct result as [err|]; simpl; [|reflexivity].
    rewrite (proj1 (proj2 (interceptor_timers_silent _ _))).
    unfold OTP.handleResendOTP_catch.
    destruct (status_is _ 429); reflexivity.
Qed.

(** X23.  When the confirmation response carries a non-empty ballot token,
    the OTP page stores it and navigates to /vote with it, and the voting
    page then asks for the ballot with that token, whether or not the
    navigation state is still there.  When the response carries no truthy
    token, storage is not touched.  When the request fails, storage is
    what the response interceptor left: the stored ballot token, if any,
    stays, and nothing changes unless the status is 401. *)
Theorem X23_confirm_then_ballot (regNo otp : string) (ls : storage) :
  regNo ≠ "" -> otp ≠ "" ->
  let verify := VoterOTPPage.onVerifyOTP ToString trim toUpperCase regNo otp in
  (forall response t,
     Session.opt_prop response "ballotToken" = Some (JStr t) -> t ≠ "" ->
     let out := verify (VoterOTPPage.ConfirmOk response) ls in
     out.1 !! "ballotToken" = Some t /\
     VoterOTPPage.Navigate "/vote" (Some (JStr t)) false ∈ out.2 /\
     (VotingLoad.mount (Some t) (VotingLoad.initial out.1)).2
     = [VotingLoad.GetBallot t] /\
     (VotingLoad.mount None (VotingLoad.initial out.1)).2
     = [VotingLoad.GetBallot t]) /\
  (forall response,
     truthy (Session.opt_prop response "ballotToken") = false ->
     (verify (VoterOTPPage.ConfirmOk response) ls).1 = ls) /\
  (forall err,
     let out := verify (VoterOTPPage.ConfirmFailed err) ls in
     out.1 = ApiClient.out_storage (ApiClient.onRejected ls err) /\
     out.1 !! "ballotToken" = ls !! "ballotToken" /\
     (status_is err 401 = false -> out.1 = ls)).
Proof.
  intros Hreg Hotp verify. subst verify.
  apply String.eqb_neq in Hreg, Hotp. split; [|split].
  - intros response t Htok Hne out. subst out.
    unfold VoterOTPPage.onVerifyOTP. rewrite Hreg, Hotp, Htok. simpl.
    apply String.eqb_neq in Hne as Hnb. rewrite Hnb. simpl.
    split; [apply lookup_insert_eq|].
    split; [do 3 (apply elem_of_cons; right); apply elem_of_cons; by left|].
    unfold VotingLoad.mount, getItem, setItem. simpl.
    rewrite Hnb, lookup_insert_eq. simpl. rewrite Hnb. simpl.
    split; reflexivity.
  - intros response Hnone. unfold VoterOTPPage.onVerifyOTP.
    rewrite Hreg, Hotp. simpl. by rewrite Hnone.
  - intros err out. subst out. unfold VoterOTPPage.onVerifyOTP.
    rewrite Hreg, Hotp. simpl. split; [reflexivity|]. split.
    + by apply onRejected_storage_frame.
    + intros H401. by rewrite (onRejected_other_status ls err H401).
Qed.

End VoterFlowFacts.

Section VoterFlowExamples.
Import JS Browser.

Lemma X22_regNo_carried_witness :
  OTP.requests
    (OTP.onUnifiedLogin trim_ascii toUpperCase_ascii toLowerCase_ascii
       Samples.voter_form None ∅).2
  = [OTP.RequestOTP "M24B13/054"] /\
  VoterOTPPage.mount (Some "M24B13/054")
  = [VoterOTPPage.SetRegNo "M24B13/054"].
Proof.
  destruct (X22_regNo_carried Samples.no_string
              trim_ascii toUpperCase_ascii toLowerCase_ascii
              (fun s _ => eq_refl) (fun s _ => eq_refl)
              Samples.voter_form "  m24b13/054 " "123456" ∅
              eq_refl eq_refl eq_refl eq_refl)
    as (Hreq & _ & Hmount & _); [discriminate|].
  split; [exact Hreq | exact Hmount].
Defined.

Lemma X23_confirm_then_ballot_witness :
  let out := VoterOTPPage.onVerifyOTP Samples.no_string
               trim_ascii toUpperCase_ascii "M24B13/054" "123456"
               (VoterOTPPage.ConfirmOk (JObj [("ballotToken", JStr "bt-1")]))
               ∅ in
  out.1 !! "ballotToken" = Some "bt-1" /\
  (VotingLoad.mount None (VotingLoad.initial out.1)).2
  = [VotingLoad.GetBallot "bt-1"].
Proof.
  intros out.
  destruct (X23_confirm_then_ballot Samples.no_string
              trim_ascii toUpperCase_ascii "M24B13/054" "123456" ∅)
    as [Hok _]; [discriminate | discriminate |].
  destruct (Hok (JObj [("ballotToken", JStr "bt-1")]) "bt-1")
    as (Hstored & _ & _ & Hmount); [reflexivity | discriminate |].
  split; [exact Hstored | exact Hmount].
Defined.

End VoterFlowExamples.

(** ** Paging of the audit log *)

Section AuditLogFacts.
Import AuditLogModal.

Lemma page_ge_1_step (st : state) (e : event) :
  (1 <= page st)%Z -> (1 <= page (step st e))%Z.
Proof.
  intros Hge. destruct e as [| | [n|]]; simpl.
  - destruct (_ && _); simpl; lia.
  - destruct (pager_rendered st) eqn:Hr; simpl; [|exact Hge].
    destruct (negb (next_disabled st)); simpl; [|exact Hge].
    unfold pager_rendered in Hr. apply Z.ltb_lt in Hr. lia.
  - destruct (n =? 0)%Z; exact Hge.
  - exact Hge.
Qed.

(** X24.  The page number of the audit log never drops below 1, whatever
    page counts the server reports.  While it is within the reported page
    count, a click on Previous or Next moves it by at most one and keeps
    it within that count; the buttons do nothing on the first and on the
    last page. *)
Theorem X24_audit_paging (st : state) :
  reachable st ->
  (1 <= page st)%Z /\
  ((page st <= totalPages st)%Z ->
   forall e, e = ClickPrevious \/ e = ClickNext ->
     (1 <= page (step st e) <= totalPages st)%Z /\
     (page st - 1 <= page (step st e) <= page st + 1)%Z /\
     totalPages (step st e) = totalPages st) /\
  (page st = 1%Z -> step st ClickPrevious = st) /\
  (page st = totalPages st -> step st ClickNext = st).
Proof.
  intros Hreach.
  assert (Hge : (1 <= page st)%Z).
  { induction Hreach as [|st e _ IH]; [simpl; lia | by apply page_ge_1_step]. }
  split; [exact Hge|]. split; [|split].
  - intros Hle e [-> | ->]; simpl.
    + destruct (_ && _); simpl; lia.
    + destruct (_ && _); simpl; lia.
  - intros H1. simpl. unfold previous_disabled. rewrite H1. simpl.
    by rewrite andb_false_r.
  - intros Hlast. simpl. unfold next_disabled.
    rewrite (proj2 (Z.eqb_eq _ _) Hlast). simpl. by rewrite andb_false_r.
Qed.

Lemma X24_audit_paging_witness :
  let st := step (step initial (Fetched (Some 3%Z))) ClickNext in
  (1 <= page st)%Z /\ page st = 2%Z.
Proof.
  intros st.
  destruct (X24_audit_paging st) as [Hge _]; [do 2 constructor; constructor|].
  split; [exact Hge | reflexivity].
Defined.

End AuditLogFacts.

(** ** Rejecting a nomination *)

Section OfficerFacts.
Import JS Browser OfficerDashboard.

(** [String.prototype.trim] *)
Variable trim : string -> string.

(** X25.  A rejection is sent only after the confirmation dialog has been
    accepted and only with a reason that is not blank: the reason sent is
    the trimmed text entered for that nomination.  The entered reasons are
    left as they are unless the rejection succeeds, in which case the
    reason of that nomination is reset to the empty text. *)
Theorem X25_handleReject (id : string) (rejectReason : gmap string string)
    (confirmed : bool) (result : option axios_error) :
  let out := handleReject trim id rejectReason confirmed result in
  (forall i reason, Reject i reason ∈ out.2 ->
     confirmed = true /\ i = id /\ reason ≠ "" /\
     exists r, rejectReason !! id = Some r /\ reason = trim r) /\
  (forall i, Approve i ∉ out.2) /\
  (out.1 = rejectReason \/
   (result = None /\ out.1 = <[id := ""]> rejectReason)).
Proof.
  intros out. subst out. unfold handleReject.
  destruct (rejectReason !! id) as [r|] eqn:Hr; simpl.
  2:{ split; [intros i reason H; no_member H|].
      split; [intros i H; no_member H | by left]. }
  destruct (trim r =? "") eqn:Hblank; simpl.
  { split; [intros i reason H; no_member H|].
    split; [intros i H; no_member H | by left]. }
  apply String.eqb_neq in Hblank.
  destruct confirmed; simpl.
  2:{ split; [intros i reason H; no_member H|].
      split; [intros i H; no_member H | by left]. }
  destruct result as [err|]; simpl.
  - split.
    + intros i reason H.
      apply elem_of_cons in H as [H|H]; [discriminate|].
      apply elem_of_cons in H as [H|H]; [|no_member H].
      injection H as -> ->. repeat split; try done. by exists r.
    + split; [intros i H; no_member H | by left].
  - split.
    + intros i reason H.
      apply elem_of_cons in H as [H|H]; [discriminate|].
      apply elem_of_cons in H as [H|H]; [|no_member H].
      injection H as -> ->. repeat split; try done. by exists r.
    + split; [intros i H; no_member H | by right].
Qed.

End OfficerFacts.

Section OfficerExamples.
Import JS Browser OfficerDashboard.

Lemma X25_handleReject_witness :
  let reasons : gmap string string := <["n1" := "  incomplete form "]> ∅ in
  Forall (fun e => forall i reason, e = Reject i reason ->
                   i = "n1" /\ reason = "incomplete form")
    (handleReject trim_ascii "n1" reasons true None).2.
Proof.
  intros reasons. apply Forall_forall. intros e H i reason ->.
  destruct (proj1 (X25_handleReject trim_ascii "n1" reasons true None)
              i reason H)
    as (_ & Hi & _ & r & Hr & Hreason).
  split; [exact Hi|]. vm_compute in Hr. injection Hr as <-. exact Hreason.
Defined.

End OfficerExamples.

(** ** Addresses of uploaded files *)

Section FileUrlFacts.
Import JS ImageUtils.

Variable VITE_API_URL : option string.

(** X26.  [getFileUrl] gives no address for a missing or empty path and
    returns an absolute http or https address unchanged; any other path is
    appended to the backend base address with exactly one slash put in
    front when the path has none, so a relative path and the same path
    with a leading slash give the same address. *)
Theorem X26_getFileUrl (p : string) :
  getFileUrl VITE_API_URL None = None /\
  getFileUrl VITE_API_URL (Some "") = None /\
  (startsWith p "http://" = true \/ startsWith p "https://" = true ->
   getFileUrl VITE_API_URL (Some p) = Some p) /\
  (p ≠ "" -> startsWith p "http://" = false ->
   startsWith p "https://" = false -> startsWith p "/" = false ->
   getFileUrl VITE_API_URL (Some p)
   = Some (getBackendBaseUrl VITE_API_URL +:+ "/" +:+ p) /\
   getFileUrl VITE_API_URL (Some ("/" +:+ p))
   = getFileUrl VITE_API_URL (Some p)).
Proof.
  split; [reflexivity|]. split; [reflexivity|]. split.
  - intros Habs. unfold getFileUrl.
    assert (Hne : p ≠ "").
    { intros ->. destruct Habs; discriminate. }
    rewrite (truthy_str_Some p Hne). cbn [negb from_option]. unfold id.
    destruct Habs as [H|H]; rewrite H; [reflexivity|].
    by rewrite orb_true_r.
  - intros Hne Hhttp Hhttps Hslash. unfold getFileUrl.
    rewrite (truthy_str_Some p Hne). cbn [negb from_option]. unfold id.
    rewrite Hhttp, Hhttps, Hslash. cbn [orb]. split; [reflexivity|].
    assert (Hne' : "/" +:+ p ≠ "") by discriminate.
    rewrite (truthy_str_Some _ Hne'). reflexivity.
Qed.

End FileUrlFacts.

Section FileUrlExamples.
Import JS ImageUtils.

Lemma X26_getFileUrl_witness :
  getFileUrl None (Some "uploads/photo.png")
  = Some "http://localhost:5000/uploads/photo.png" /\
  getFileUrl None (Some "/uploads/photo.png")
  = getFileUrl None (Some "uploads/photo.png") /\
  getFileUrl None (Some "https://cdn.example.org/a.png")
  = Some "https://cdn.example.org/a.png".
Proof.
  split; [|split].
  - apply (proj2 (proj2 (proj2 (X26_getFileUrl None "uploads/photo.png"))));
      [discriminate | reflexivity..].
  - apply (proj2 (proj2 (proj2 (X26_getFileUrl None "uploads/photo.png"))));
      [discriminate | reflexivity..].
  - apply (proj1 (proj2 (proj2
             (X26_getFileUrl None "https://cdn.example.org/a.png")))).
    right. reflexivity.
Defined.

End FileUrlExamples.

(** ** Cache headers of the static server *)

Section CacheFacts.
Import JS Server.

(** X27.  For a file served from the build output, the [setHeaders] hook
    sets the one-year immutable policy exactly for names ending in [.js]
    or [.css], the must-revalidate policy exactly for names ending in
    [.html], and sets no Cache-Control header for any other file. *)
Theorem X27_setHeaders_cases (file : string) :
  (setHeaders file None = Some "public, max-age=31536000, immutable" <->
   endsWith file ".js" = true \/ endsWith file ".css" = true) /\
  (setHeaders file None = Some "public, max-age=0, must-revalidate" <->
   endsWith file ".html" = true) /\
  (setHeaders file None = None <->
   endsWith file ".html" = false /\ endsWith file ".js" = false /\
   endsWith file ".css" = false).
Proof.
  destruct (endsWith file ".html") eqn:Hhtml.
  - destruct (endsWith_html_not_script file Hhtml) as [Hjs Hcss].
    rewrite (setHeaders_html file Hhtml), Hjs, Hcss.
    split; [split; [discriminate | intros [H|H]; discriminate]|].
    split; [split; reflexivity|].
    split; [discriminate | intros (H & _); discriminate].
  - destruct (endsWith file ".js") eqn:Hjs.
    + rewrite (setHeaders_script file (or_introl Hjs)).
      split; [split; [by left | reflexivity]|].
      split; [split; discriminate|].
      split; [discriminate | intros (_ & H & _); discriminate].
    + destruct (endsWith file ".css") eqn:Hcss.
      * rewrite (setHeaders_script file (or_intror Hcss)).
        split; [split; [by right | reflexivity]|].
        split; [split; discriminate|].
        split; [discriminate | intros (_ & _ & H); discriminate].
      * rewrite (setHeaders_other file Hhtml Hjs Hcss).
        split; [split; [discriminate | intros [H|H]; discriminate]|].
        split; [split; discriminate|]. split; [done | reflexivity].
Qed.

End CacheFacts.

(** ** The four dates of a new position *)

Section CreatePositionFacts.
Import CreatePosition.

Variable Date_time : string -> option Z.

Lemma later_inv (a b : option Z) :
  later a b = true -> exists x y, a = Some x /\ b = Some y /\ (y < x)%Z.
Proof.
  destruct a as [x|], b as [y|]; simpl; try discriminate.
  intros H. exists x, y. repeat split. by apply Z.ltb_lt.
Qed.

(** X28.  A position form passes the date check exactly when all four
    dates are valid and strictly increasing: nominations open, nominations
    close, voting opens, voting closes. *)
Theorem X28_dates_valid_ordered (d : dates) :
  dates_valid Date_time d = true <->
  exists no nc vo vc,
    Date_time (nominationOpens d) = Some no /\
    Date_time (nominationCloses d) = Some nc /\
    Date_time (votingOpens d) = Some vo /\
    Date_time (votingCloses d) = Some vc /\
    (no < nc < vo)%Z /\ (vo < vc)%Z.
Proof.
  unfold dates_valid. split.
  - intros H.
    apply andb_true_iff in H as [H H3]. apply andb_true_iff in H as [H1 H2].
    apply later_inv in H1 as (nc & no & Hnc & Hno & Hlt1).
    apply later_inv in H2 as (vc & vo & Hvc & Hvo & Hlt2).
    apply later_inv in H3 as (vo' & nc' & Hvo' & Hnc' & Hlt3).
    rewrite Hvo in Hvo'. injection Hvo' as <-.
    rewrite Hnc in Hnc'. injection Hnc' as <-.
    exists no, nc, vo, vc. repeat split; try assumption.
  - intros (no & nc & vo & vc & -> & -> & -> & -> & [H1 H2] & H3). simpl.
    apply Z.ltb_lt in H1, H2, H3. by rewrite H1, H2, H3.
Qed.

End CreatePositionFacts.

Section CreatePositionExamples.
Import CreatePosition.

Lemma X28_dates_valid_ordered_witness :
  exists no nc vo vc,
    Samples.date_time "2025-11-01T08:00" = Some no /\
    Samples.date_time "2025-11-07T18:00" = Some nc /\
    Samples.date_time "2025-11-10T08:00" = Some vo /\
    Samples.date_time "2025-11-12T18:00" = Some vc /\
    (no < nc < vo)%Z /\ (vo < vc)%Z.
Proof.
  apply (proj1 (X28_dates_valid_ordered Samples.date_time
                  (mk_dates "2025-11-01T08:00" "2025-11-07T18:00"
                            "2025-11-10T08:00" "2025-11-12T18:00"))).
  reflexivity.
Defined.

End CreatePositionExamples.

(** ** Dates as literal times *)

Section DateFacts.
Import JS DateUtils.

Variable Date_parse : string -> option date_parts.

Lemma take_digits_append (n : nat) (s d r rest : string) :
  take_digits n s = Some (d, r) ->
  take_digits n (s +:+ rest) = Some (d, r +:+ rest).
Proof.
  revert s d r. induction n as [|n IH]; intros s d r; simpl.
  - intros H. by injection H as <- <-.
  - destruct s as [|a s]; [discriminate|].
    change (String a s +:+ rest) with (String a (s +:+ rest)).
    cbn [take_digits].
    destruct (is_digit a); [|discriminate].
    destruct (take_digits n s) as [[d' r']|] eqn:E; [|discriminate].
    intros H. injection H as <- <-. by rewrite (IH s d' r' E).
Qed.

Lemma take_digits_length (n : nat) (s d r : string) :
  take_digits n s = Some (d, r) -> String.length d = n.
Proof.
  revert s d r. induction n as [|n IH]; intros s d r; simpl.
  - intros H. by injection H as <- _.
  - destruct s as [|a s]; [discriminate|].
    destruct (is_digit a); [|discriminate].
    destruct (take_digits n s) as [[d' r']|] eqn:E; [|discriminate].
    intros H. injection H as <- _. simpl. f_equal. by eapply IH.
Qed.

Lemma expect_append (c : ascii) (s r rest : string) :
  expect c s = Some r -> expect c (s +:+ rest) = Some (r +:+ rest).
Proof.
  destruct s as [|a s]; simpl; [discriminate|].
  change (String a s +:+ rest) with (String a (s +:+ rest)). simpl.
  destruct (Ascii.eqb a c); [|discriminate].
  intros H. by injection H as <-.
Qed.

(** The optional seconds group. *)
Lemma second_append (s rest sec : string) :
  (s' ← expect ":" s; fst <$> take_digits 2 s') = Some sec ->
  (s' ← expect ":" (s +:+ rest); fst <$> take_digits 2 s') = Some sec /\
  sec ≠ "".
Proof.
  destruct (expect ":" s) as [s10|] eqn:E10; [|discriminate].
  rewrite (expect_append _ _ _ rest E10).
  cbv [mbind option_bind].
  destruct (take_digits 2 s10) as [[sc s11]|] eqn:E11; [|discriminate].
  rewrite (take_digits_append _ _ _ _ rest E11).
  cbv [fmap option_fmap option_map fst]. intros H. injection H as <-.
  split; [reflexivity|].
  apply take_digits_length in E11. by destruct sc.
Qed.

(** Once the seconds are part of the match, what follows them in the
    string does not matter. *)
Lemma isoMatch_append (s rest sec : string) (m : iso_match) :
  isoMatch s = Some m -> second m = Some sec ->
  isoMatch (s +:+ rest) = Some m.
Proof.
  unfold isoMatch.
  destruct (take_digits 4 s) as [[y s1]|] eqn:E1; [|discriminate].
  rewrite (take_digits_append _ _ _ _ rest E1). cbn [mbind option_bind].
  destruct (expect "-" s1) as [s2|] eqn:E2; [|discriminate].
  rewrite (expect_append _ _ _ rest E2). cbn [mbind option_bind].
  destruct (take_digits 2 s2) as [[mo s3]|] eqn:E3; [|discriminate].
  rewrite (take_digits_append _ _ _ _ rest E3). cbn [mbind option_bind].
  destruct (expect "-" s3) as [s4|] eqn:E4; [|discriminate].
  rewrite (expect_append _ _ _ rest E4). cbn [mbind option_bind].
  destruct (take_digits 2 s4) as [[d s5]|] eqn:E5; [|discriminate].
  rewrite (take_digits_append _ _ _ _ rest E5). cbn [mbind option_bind].
  destruct (expect "T" s5) as [s6|] eqn:E6; [|discriminate].
  rewrite (expect_append _ _ _ rest E6). cbn [mbind option_bind].
  destruct (take_digits 2 s6) as [[h s7]|] eqn:E7; [|discriminate].
  rewrite (take_digits_append _ _ _ _ rest E7). cbn [mbind option_bind].
  destruct (expect ":" s7) as [s8|] eqn:E8; [|discriminate].
  rewrite (expect_append _ _ _ rest E8). cbn [mbind option_bind].
  destruct (take_digits 2 s8) as [[mi s9]|] eqn:E9; [|discriminate].
  rewrite (take_digits_append _ _ _ _ rest E9). cbn [mbind option_bind].
  intros Hm Hsec. injection Hm as <-. cbv [second] in Hsec.
  f_equal. f_equal. rewrite Hsec.
  by apply (second_append s9 rest sec).
Qed.

Lemma isoMatch_second_nonempty (s sec : string) (m : iso_match) :
  isoMatch s = Some m -> second m = Some sec -> sec ≠ "".
Proof.
  unfold isoMatch.
  destruct (take_digits 4 s) as [[y s1]|]; [|discriminate].
  cbn [mbind option_bind].
  destruct (expect "-" s1) as [s2|]; [|discriminate].
  cbn [mbind option_bind].
  destruct (take_digits 2 s2) as [[mo s3]|]; [|discriminate].
  cbn [mbind option_bind].
  destruct (expect "-" s3) as [s4|]; [|discriminate].
  cbn [mbind option_bind].
  destruct (take_digits 2 s4) as [[d s5]|]; [|discriminate].
  cbn [mbind option_bind].
  destruct (expect "T" s5) as [s6|]; [|discriminate].
  cbn [mbind option_bind].
  destruct (take_digits 2 s6) as [[h s7]|]; [|discriminate].
  cbn [mbind option_bind].
  destruct (expect ":" s7) as [s8|]; [|discriminate].
  cbn [mbind option_bind].
  destruct (take_digits 2 s8) as [[mi s9]|]; [|discriminate].
  cbn [mbind option_bind].
  intros Hm Hsec. injection Hm as <-. cbv [second] in Hsec.
  by apply (second_append s9 "" sec).
Qed.

Lemma displayHours_range (h : Z) : (1 <= displayHours h <= 12)%Z.
Proof.
  unfold displayHours. pose proof (Z.mod_pos_bound h 12 ltac:(lia)).
  destruct (h mod 12 =? 0)%Z eqn:E; [lia|]. apply Z.eqb_neq in E. lia.
Qed.

(** X29.  For a string in ISO form with seconds, [formatDate] prints the
    date and time exactly as written, whatever follows the seconds (a
    fraction, a [Z], an offset): month/day/year, then the hour on the
    12-hour clock, between 1 and 12, the minutes and seconds as written,
    and PM exactly from hour 12 on. *)
Theorem X29_formatDate_literal (s sec : string) (m : iso_match) :
  isoMatch s = Some m -> second m = Some sec ->
  let h := parseInt_digits (hour m) in
  (forall rest,
     formatDate Date_parse (inl (s +:+ rest)) = formatDate Date_parse (inl s)) /\
  formatDate Date_parse (inl s)
  = month m +:+ "/" +:+ day m +:+ "/" +:+ year m +:+ ", " +:+
    num_to_string (displayHours h) +:+ ":" +:+ minute m +:+ ":" +:+ sec +:+
    " " +:+ (if (12 <=? h)%Z then "PM" else "AM") /\
  (1 <= displayHours h <= 12)%Z /\
  ((displayHours h - h) mod 12 = 0)%Z.
Proof.
  intros Hm Hsec h. split; [|split; [|split]].
  - intros rest. simpl.
    by rewrite (isoMatch_append s rest sec m Hm Hsec), Hm.
  - simpl. rewrite Hm. unfold format_iso. rewrite Hsec. simpl or_str.
    pose proof (isoMatch_second_nonempty s sec m Hm Hsec) as Hne.
    apply String.eqb_neq in Hne. rewrite Hne. reflexivity.
  - apply displayHours_range.
  - unfold displayHours. destruct (h mod 12 =? 0)%Z eqn:E.
    + apply Z.eqb_eq in E.
      rewrite Zminus_mod, E, Z.mod_same by lia. reflexivity.
    + rewrite Zminus_mod, Z.mod_mod by lia. rewrite Z.sub_diag.
      reflexivity.
Qed.

(** *** [isDateInRange] *)

Lemma is_digit_In (a : ascii) : is_digit a = true -> In a digit_chars.
Proof.
  destruct a as [[] [] [] [] [] [] [] []]; simpl; try discriminate; intros _;
    repeat (first [left; reflexivity | right]).
Qed.

(** Printing what [parseInt] read gives the digits back: checked on every
    pair of digits, and on every four digits not starting with 0. *)
Lemma roundtrip2_check :
  forallb (fun a => forallb (fun b =>
    pad2 (parseInt_digits (String a (String b ""))) =? String a (String b ""))
    digit_chars) digit_chars = true.
Proof. vm_compute. reflexivity. Qed.

Lemma roundtrip4_check :
  forallb (fun a => forallb (fun b => forallb (fun c => forallb (fun d =>
    Ascii.eqb a "0" ||
    (num_to_string (parseInt_digits (String a (String b (String c (String d "")))))
     =? String a (String b (String c (String d "")))))
    digit_chars) digit_chars) digit_chars) digit_chars = true.
Proof. vm_compute. reflexivity. Qed.

Lemma take_digits_2_inv (s d r : string) :
  take_digits 2 s = Some (d, r) ->
  exists a b, d = String a (String b "") /\
              is_digit a = true /\ is_digit b = true.
Proof.
  destruct s as [|a [|b s]]; cbn [take_digits]; try discriminate.
  - destruct (is_digit a); discriminate.
  - destruct (is_digit a) eqn:Ha; [|discriminate].
    destruct (is_digit b) eqn:Hb; [|discriminate].
    intros H. injection H as <- _. by exists a, b.
Qed.

Lemma take_digits_4_inv (s d r : string) :
  take_digits 4 s = Some (d, r) ->
  exists a b c e, d = String a (String b (String c (String e ""))) /\
    is_digit a = true /\ is_digit b = true /\
    is_digit c = true /\ is_digit e = true.
Proof.
  destruct s as [|a [|b [|c [|e s]]]]; cbn [take_digits]; try discriminate.
  - destruct (is_digit a); discriminate.
  - destruct (is_digit a); [|discriminate].
    destruct (is_digit b); discriminate.
  - destruct (is_digit a); [|discriminate].
    destruct (is_digit b); [|discriminate].
    destruct (is_digit c); discriminate.
  - destruct (is_digit a) eqn:Ha; [|discriminate].
    destruct (is_digit b) eqn:Hb; [|discriminate].
    destruct (is_digit c) eqn:Hc; [|discriminate].
    destruct (is_digit e) eqn:He; [|discriminate].
    intros H. injection H as <- _. by exists a, b, c, e.
Qed.

Lemma pad2_roundtrip (s d r : string) :
  take_digits 2 s = Some (d, r) -> pad2 (parseInt_digits d) = d.
Proof.
  intros H. apply take_digits_2_inv in H as (a & b & -> & Ha & Hb).
  apply is_digit_In in Ha, Hb.
  pose proof roundtrip2_check as Hall.
  rewrite forallb_forall in Hall. specialize (Hall a Ha).
  rewrite forallb_forall in Hall. specialize (Hall b Hb).
  by apply String.eqb_eq in Hall.
Qed.

Lemma year_roundtrip (s d r : string) :
  take_digits 4 s = Some (d, r) -> startsWith d "0" = false ->
  num_to_string (parseInt_digits d) = d.
Proof.
  intros H Hzero.
  apply take_digits_4_inv in H as (a & b & c & e & -> & Ha & Hb & Hc & He).
  apply is_digit_In in Ha, Hb, Hc, He.
  pose proof roundtrip4_check as Hall.
  rewrite forallb_forall in Hall. specialize (Hall a Ha).
  rewrite forallb_forall in Hall. specialize (Hall b Hb).
  rewrite forallb_forall in Hall. specialize (Hall c Hc).
  rewrite forallb_forall in Hall. specialize (Hall e He).
  apply orb_true_iff in Hall as [Hall|Hall].
  - exfalso. cbn [startsWith] in Hzero.
    rewrite Ascii.eqb_sym in Hall. by rewrite Hall in Hzero.
  - by apply String.eqb_eq in Hall.
Qed.

Lemma seconds_roundtrip (s : string) :
  pad2 (parseInt_digits
          (or_str (s' ← expect ":" s; fst <$> take_digits 2 s') "00"))
  = or_str (s' ← expect ":" s; fst <$> take_digits 2 s') "00".
Proof.
  destruct (expect ":" s) as [s10|]; [|reflexivity].
  cbv [mbind option_bind].
  destruct (take_digits 2 s10) as [[sc s11]|] eqn:E11; [|reflexivity].
  cbv [fmap option_fmap option_map fst].
  assert (Hne : sc ≠ "").
  { apply take_digits_length in E11. by destruct sc. }
  apply String.eqb_neq in Hne. cbv [or_str]. rewrite Hne.
  by apply (pad2_roundtrip s10 sc s11).
Qed.

(** For a string in ISO form whose year does not start with 0, the
    timestamp rebuilt from the parsed numbers is the date and time as
    written. *)
Lemma timestamp_literal (s : string) (m : iso_match) :
  isoMatch s = Some m -> startsWith (year m) "0" = false ->
  timestamp (parseDateAsLocal Date_parse s) = literal m.
Proof.
  intros Hm. unfold parseDateAsLocal. rewrite Hm.
  revert Hm. unfold isoMatch.
  destruct (take_digits 4 s) as [[y s1]|] eqn:E1; [|discriminate].
  cbv [mbind option_bind].
  destruct (expect "-" s1) as [s2|]; [|discriminate].
  destruct (take_digits 2 s2) as [[mo s3]|] eqn:E3; [|discriminate].
  destruct (expect "-" s3) as [s4|]; [|discriminate].
  destruct (take_digits 2 s4) as [[d s5]|] eqn:E5; [|discriminate].
  destruct (expect "T" s5) as [s6|]; [|discriminate].
  destruct (take_digits 2 s6) as [[h s7]|] eqn:E7; [|discriminate].
  destruct (expect ":" s7) as [s8|]; [|discriminate].
  destruct (take_digits 2 s8) as [[mi s9]|] eqn:E9; [|discriminate].
  intros Hm Hzero. injection Hm as <-. cbv [year] in Hzero.
  unfold timestamp, literal, show, show2.
  cbv [l_year l_month l_day l_hour l_minute l_second
       year month day hour minute second].
  repeat match goal with
  | |- context [or_str ?e "00"] =>
      progress change e with (s' ← expect ":" s9; fst <$> take_digits 2 s')
  end.
  by rewrite (year_roundtrip _ _ _ E1 Hzero), (pad2_roundtrip _ _ _ E3),
    (pad2_roundtrip _ _ _ E5), (pad2_roundtrip _ _ _ E7),
    (pad2_roundtrip _ _ _ E9), seconds_roundtrip.
Qed.

(** A printed integer starts with a digit or a minus sign, both of which
    sort before the N of NaN. *)
Lemma num_to_string_head (z : Z) :
  exists a rest, num_to_string z = String a rest /\
    Ascii.compare a "N" = Lt /\ Ascii.compare "N" a = Gt.
Proof.
  unfold num_to_string. destruct (Z.to_int z) as [d|d].
  - destruct d; simpl; eexists _, _; repeat split; reflexivity.
  - simpl. eexists _, _; repeat split; reflexivity.
Qed.

(** X30.  [isDateInRange] compares literal times.  When both bounds are in
    ISO form with a year that does not start with 0, it holds exactly when
    the current local time, written the same way, lies between the two
    bounds as written, in string order.  A start that is neither in ISO
    form nor a date the browser can parse makes it false, and such an end
    leaves the range open at the top. *)
Theorem X30_isDateInRange_literal (now : date_parts)
    (rangeStart rangeEnd : string) :
  let nowTimestamp :=
    timestamp (mk_local (Some (FullYear now)) (Some (Month now + 1)%Z)
                 (Some (Date now)) (Some (Hours now)) (Some (Minutes now))
                 (Some (Seconds now))) in
  (forall ms me,
     isoMatch rangeStart = Some ms -> isoMatch rangeEnd = Some me ->
     startsWith (year ms) "0" = false -> startsWith (year me) "0" = false ->
     isDateInRange Date_parse now rangeStart rangeEnd
     = String.leb (literal ms) nowTimestamp
       && String.leb nowTimestamp (literal me)) /\
  (isoMatch rangeStart = None -> Date_parse rangeStart = None ->
     isDateInRange Date_parse now rangeStart rangeEnd = false) /\
  (isoMatch rangeEnd = None -> Date_parse rangeEnd = None ->
     isDateInRange Date_parse now rangeStart rangeEnd
     = String.leb (timestamp (parseDateAsLocal Date_parse rangeStart))
         nowTimestamp).
Proof.
  intros nowTimestamp.
  assert (Hhead : exists a rest, nowTimestamp = String a rest /\
            Ascii.compare a "N" = Lt /\ Ascii.compare "N" a = Gt).
  { destruct (num_to_string_head (FullYear now)) as (a & rest & Hy & H1 & H2).
    subst nowTimestamp. unfold timestamp, show. cbv [l_year]. rewrite Hy.
    eexists a, _. split; [reflexivity|]. by split. }
  destruct Hhead as (a & rest & Hnow & Hlt & Hgt).
  split; [|split].
  - intros ms me Hs He Hzs Hze. unfold isDateInRange.
    fold nowTimestamp.
    by rewrite (timestamp_literal _ _ Hs Hzs), (timestamp_literal _ _ He Hze).
  - intros Hiso Hdate. unfold isDateInRange. fold nowTimestamp.
    unfold parseDateAsLocal at 1. rewrite Hiso, Hdate.
    change (timestamp (mk_local None None None None None None))
      with "NaN-NaN-NaNTNaN:NaN:NaN".
    rewrite Hnow. apply andb_false_iff. left.
    unfold String.leb. cbn [String.compare]. by rewrite Hgt.
  - intros Hiso Hdate. unfold isDateInRange. fold nowTimestamp.
    unfold parseDateAsLocal at 2. rewrite Hiso, Hdate.
    change (timestamp (mk_local None None None None None None))
      with "NaN-NaN-NaNTNaN:NaN:NaN".
    rewrite Hnow.
    assert (Hle : String.leb (String a rest) "NaN-NaN-NaNTNaN:NaN:NaN" = true).
    { unfold String.leb. cbn [String.compare]. by rewrite Hlt. }
    rewrite Hle. apply andb_true_r.
Qed.

End DateFacts.

Section DateExamples.
Import JS DateUtils.

Lemma X29_formatDate_literal_witness :
  formatDate Samples.no_date (inl "2025-11-26T19:48:05.000Z")
  = "11/26/2025, 7:48:05 PM" /\
  formatDate Samples.no_date (inl "2025-11-26T19:48:05+03:00")
  = "11/26/2025, 7:48:05 PM".
Proof.
  destruct (X29_formatDate_literal Samples.no_date "2025-11-26T19:48:05" "05"
              (mk_iso "2025" "11" "26" "19" "48" (Some "05")) eq_refl eq_refl)
    as (Hrest & Hfmt & _).
  split.
  - change "2025-11-26T19:48:05.000Z"
      with ("2025-11-26T19:48:05" +:+ ".000Z").
    rewrite (Hrest ".000Z"), Hfmt. reflexivity.
  - change "2025-11-26T19:48:05+03:00"
      with ("2025-11-26T19:48:05" +:+ "+03:00").
    rewrite (Hrest "+03:00"), Hfmt. reflexivity.
Defined.

Lemma X30_isDateInRange_literal_witness :
  isDateInRange Samples.no_date Samples.sample_now
    "2025-11-26T08:00" "2025-11-26T20:00:00.000Z" = true /\
  isDateInRange Samples.no_date Samples.sample_now
    "2025-11-26T08:00" "not a date" = true /\
  isDateInRange Samples.no_date Samples.sample_now
    "not a date" "2025-11-26T20:00" = false.
Proof.
  split; [|split].
  - rewrite (proj1 (X30_isDateInRange_literal Samples.no_date
               Samples.sample_now "2025-11-26T08:00"
               "2025-11-26T20:00:00.000Z")
               (mk_iso "2025" "11" "26" "08" "00" None)
               (mk_iso "2025" "11" "26" "20" "00" (Some "00")));
      reflexivity.
  - rewrite (proj2 (proj2 (X30_isDateInRange_literal Samples.no_date
               Samples.sample_now "2025-11-26T08:00" "not a date")));
      reflexivity.
  - apply (proj1 (proj2 (X30_isDateInRange_literal Samples.no_date
             Samples.sample_now "not a date" "2025-11-26T20:00")));
      reflexivity.
Defined.

End DateExamples.
